(** * Analysis dispatch and result normalisation of the code debugger

    A shallow embedding of [server/utils/debuggerLogic.js]: the lookup table
    [errorExplanations], the explanation augmenter [getAIExplanation], the
    three strategies [runEsLintAnalysis], [runPylintAnalysis],
    [runCppAnalysis] and the dispatcher [runCodeAnalysis]; and of the
    request handler [debugCode] of [server/controllers/debugController.js],
    the caller of the dispatcher.

    Conventions of the embedding.
    - A JavaScript string is a Rocq [string]: a sequence of code units in
      the range 0..255.  White space, line terminators and case mapping are
      the ECMAScript ones restricted to that range.
    - A JavaScript number is an integer [Z]; the code only prints numbers and
      compares them with constants.  Printing and [parseInt] are exact, as
      they are in JavaScript for integers below 2^53.
    - Everything the module obtains from outside (the linter library, the
      file system, child processes, the clock, [JSON.parse], the generative
      model) is a field of the record [Env]; every function of the module
      takes the environment and threads a state made of the set of existing
      files and the trace of the external calls performed so far.
    - An [async] function is a state transformer that yields how its promise
      settles. *)

From Stdlib Require Import ZArith Ascii.
From stdpp Require Import base option list gmap sets strings pretty.

Set Warnings "-register-all,-clear-no-such-hyp".
Local Open Scope Z_scope.

(* ===================================================================== *)
(** ** JavaScript strings *)
(* ===================================================================== *)

Module Str.

Definition nl : string := String "010"%char "".
Definition dq : string := String "034"%char "".

(** ECMAScript LineTerminator, restricted to code units below 256. *)
Definition is_line_terminator (c : ascii) : bool :=
  match c with
  | "010" | "013" => true
  | _ => false
  end%char.

(** ECMAScript WhiteSpace or LineTerminator (what [\s] and [trim] use). *)
Definition is_space (c : ascii) : bool :=
  match c with
  | "009" | "010" | "011" | "012" | "013" | " " | "160" => true
  | _ => false
  end%char.

Definition is_digit (c : ascii) : bool :=
  match c with
  | "0" | "1" | "2" | "3" | "4" | "5" | "6" | "7" | "8" | "9" => true
  | _ => false
  end%char.

Definition digit_value (c : ascii) : Z := Z.of_nat (nat_of_ascii c) - 48.

(** [truthy s]: a string is falsy exactly when it is empty. *)
Definition truthy (s : string) : bool :=
  match s with "" => false | _ => true end.

(** [a || b] on strings. *)
Definition or_else (a b : string) : string := if truthy a then a else b.

(** [starts_with k s]: [k] is a prefix of [s]. *)
Fixpoint starts_with (k s : string) : bool :=
  match k, s with
  | "", _ => true
  | String a k', String b s' => bool_decide (a = b) && starts_with k' s'
  | String _ _, "" => false
  end.

(** [s.includes(k)]. *)
Fixpoint includes (s k : string) : bool :=
  starts_with k s ||
  match s with
  | "" => false
  | String _ s' => includes s' k
  end.

(** [s.split('\n')]. *)
Fixpoint split_lines (s : string) : list string :=
  match s with
  | "" => [""]
  | String c s' =>
      if bool_decide (c = "010"%char) then "" :: split_lines s'
      else match split_lines s' with
           | h :: t => String c h :: t
           | [] => [String c ""]
           end
  end.

Fixpoint trim_start (s : string) : string :=
  match s with
  | "" => ""
  | String c s' => if is_space c then trim_start s' else s
  end.

Fixpoint trim_end (s : string) : string :=
  match s with
  | "" => ""
  | String c s' =>
      match trim_end s' with
      | "" => if is_space c then "" else String c ""
      | r => String c r
      end
  end.

(** [s.trim()]. *)
Definition trim (s : string) : string := trim_end (trim_start s).

Definition lower_char (c : ascii) : ascii :=
  let n := nat_of_ascii c in
  if ((65 <=? n) && (n <=? 90))%nat then ascii_of_nat (n + 32)
  else if ((192 <=? n) && (n <=? 222) && negb (n =? 215))%nat
       then ascii_of_nat (n + 32)
  else c.

Definition upper_char (c : ascii) : ascii :=
  let n := nat_of_ascii c in
  if ((97 <=? n) && (n <=? 122))%nat then ascii_of_nat (n - 32) else c.

Fixpoint map_chars (f : ascii → ascii) (s : string) : string :=
  match s with
  | "" => ""
  | String c s' => String (f c) (map_chars f s')
  end.

(** [s.toLowerCase()]. *)
Definition toLowerCase : string → string := map_chars lower_char.

(** [s.toUpperCase()]; the module applies it to severities only, which are
    plain ASCII words. *)
Definition toUpperCase : string → string := map_chars upper_char.

(** [l.join(sep)]. *)
Fixpoint join (sep : string) (l : list string) : string :=
  match l with
  | [] => ""
  | [x] => x
  | x :: rest => x +:+ sep +:+ join sep rest
  end.

Fixpoint take (n : nat) (s : string) : string :=
  match n, s with
  | S n', String c s' => String c (take n' s')
  | _, _ => ""
  end.

Fixpoint drop (n : nat) (s : string) : string :=
  match n, s with
  | S n', String _ s' => drop n' s'
  | _, _ => s
  end.

(** [s.substring(a, b)]: both indices are clamped to [0, length] and
    swapped when out of order. *)
Definition substring (a b : Z) (s : string) : string :=
  let len := Z.of_nat (String.length s) in
  let a' := Z.max 0 (Z.min a len) in
  let b' := Z.max 0 (Z.min b len) in
  let lo := Z.min a' b' in
  let hi := Z.max a' b' in
  take (Z.to_nat (hi - lo)) (drop (Z.to_nat lo) s).

(** Index of the first occurrence of [k] in [s], counted from [i]. *)
Fixpoint index_from (i : Z) (k s : string) : option Z :=
  if starts_with k s then Some i
  else match s with
       | "" => None
       | String _ s' => index_from (i + 1) k s'
       end.

(** [s.indexOf(k)], -1 when absent. *)
Definition indexOf (s k : string) : Z := default (-1) (index_from 0 k s).

Fixpoint last_index_from (i : Z) (k s : string) : option Z :=
  let here := if starts_with k s then Some i else None in
  match s with
  | "" => here
  | String _ s' =>
      match last_index_from (i + 1) k s' with
      | Some j => Some j
      | None => here
      end
  end.

(** [s.lastIndexOf(k)], -1 when absent. *)
Definition lastIndexOf (s k : string) : Z :=
  default (-1) (last_index_from 0 k s).

(** The text after the first occurrence of [k] in [s]. *)
Fixpoint after_first (k s : string) : option string :=
  if starts_with k s then Some (drop (String.length k) s)
  else match s with
       | "" => None
       | String _ s' => after_first k s'
       end.

(** The text before the first occurrence of [k] in [s]. *)
Fixpoint before_first (k s : string) : option string :=
  if starts_with k s then Some ""
  else match s with
       | "" => None
       | String c s' => String c <$> before_first k s'
       end.

(** [parseInt(ds, 10)] on a string of decimal digits. *)
Definition parse_digits (ds : string) : Z :=
  (fix go (acc : Z) (s : string) : Z :=
     match s with
     | "" => acc
     | String c s' => go (10 * acc + digit_value c) s'
     end) 0 ds.

End Str.

(* ===================================================================== *)
(** ** JavaScript values and exceptions *)
(* ===================================================================== *)

(** The values that cross the module untyped: what [JSON.parse] returns and
    what a property read yields. *)
Inductive JSValue : Type :=
  | JUndefined
  | JNull
  | JBool (b : bool)
  | JNum (z : Z)
  | JStr (s : string)
  | JArr (items : list JSValue)
  | JObj (props : list (string * JSValue)).

(** A thrown object: its [message], and what [e.response?.text()] does when
    the object carries a [response] (it returns a text or throws in turn). *)
Inductive Exn : Type :=
  | MkExn (message : string) (response : option (Exn + string)).

Definition exn_message (e : Exn) : string :=
  match e with MkExn m _ => m end.

Definition Error (m : string) : Exn := MkExn m None.

(** The result of evaluating an expression that may throw. *)
Inductive Completion (A : Type) : Type :=
  | Normal (a : A)
  | Throw (e : Exn).
Arguments Normal {A} a.
Arguments Throw {A} e.

Module Js.

(** ToString, as a template literal applies it, for the values [JSON.parse]
    builds; an object here has no [toString] member of its own. *)
Fixpoint toString (v : JSValue) : string :=
  match v with
  | JUndefined => "undefined"
  | JNull => "null"
  | JBool true => "true"
  | JBool false => "false"
  | JNum z => pretty z
  | JStr s => s
  | JArr items =>
      Str.join ","
        ((fix each (l : list JSValue) : list string :=
            match l with
            | [] => []
            | JUndefined :: l' | JNull :: l' => "" :: each l'
            | x :: l' => toString x :: each l'
            end) items)
  | JObj _ => "[object Object]"
  end.

(** ToBoolean. *)
Definition truthy (v : JSValue) : bool :=
  match v with
  | JUndefined | JNull => false
  | JBool b => b
  | JNum z => negb (z =? 0)
  | JStr s => Str.truthy s
  | JArr _ | JObj _ => true
  end.

Fixpoint assoc {A} (k : string) (l : list (string * A)) : option A :=
  match l with
  | [] => None
  | (k', v) :: l' => if bool_decide (k = k') then Some v else assoc k l'
  end.

(** [v.k] for a property name [k] that no prototype defines: reading a
    property of [null] or [undefined] throws, a missing property reads as
    [undefined]. *)
Definition get (v : JSValue) (k : string) : Completion JSValue :=
  match v with
  | JUndefined =>
      Throw (Error ("Cannot read properties of undefined (reading '" +:+ k +:+ "')"))
  | JNull =>
      Throw (Error ("Cannot read properties of null (reading '" +:+ k +:+ "')"))
  | JObj props => Normal (default JUndefined (assoc k props))
  | _ => Normal JUndefined
  end.

Definition of_option_string (o : option string) : JSValue :=
  match o with Some s => JStr s | None => JNull end.

End Js.

(* ===================================================================== *)
(** ** The lookup table [errorExplanations] *)
(* ===================================================================== *)

Record ExplanationEntry : Type := mkEntry {
  explanation : string;
  suggestion : string
}.

(** The entries in the order the object literal lists them, which is the
    order a [for ... in] loop visits them. *)
Definition errorExplanations : list (string * ExplanationEntry) :=
  [ ("Unterminated string constant",
     mkEntry
       ("This error occurs when a string literal (text enclosed in quotes) is not properly closed with its matching quote. For example, `"
        +:+ Str.dq +:+ "Hello` is missing a closing `" +:+ Str.dq +:+ "` or `'`.")
       ("Ensure all your string literals start and end with matching single (`'`) or double (`"
        +:+ Str.dq +:+ "`) quotes."));
    ("Unexpected token",
     mkEntry
       "This means there's a character or symbol where the JavaScript parser didn't expect it, often due to a syntax error or a typo."
       "Check for missing or extra punctuation (like parentheses, brackets, curly braces, or semicolons), typos in keywords, or incorrect operator usage around the reported line and column. This can also happen with invalid syntax for newer JavaScript features if `ecmaVersion` is too low.");
    ("Missing semicolon",
     mkEntry
       "This is a basic syntax error where a semicolon (`;`) is expected at the end of a statement but is missing."
       "Add a semicolon (`;`) at the end of the problematic line to terminate the statement.");
    ("Unexpected end of input",
     mkEntry
       "The JavaScript parser reached the end of the code unexpectedly. This often means a block (like a function, loop, or if statement) was started but not properly closed with a curly brace (`}`)."
       "Check for unclosed curly braces `{}`, parentheses `()`, or square brackets `[]`. Ensure all blocks are properly terminated.");
    ("no-undef",
     mkEntry
       "This error means you are trying to use a variable or function that has not been declared or imported in the current scope. ESLint cannot find its definition."
       "Declare the variable/function using `const`, `let`, or `var` before using it. If it's a global variable (like `document`, `window`), ensure your ESLint configuration's `env` or `globals` settings are correct. Check for typos in the variable/function name.");
    ("no-unused-vars",
     mkEntry
       "This warning indicates that you have declared a variable or imported a module but are not using it anywhere in your code. Unused code can be a sign of a bug or unnecessary complexity."
       "Remove the unused variable/import or ensure it's being utilized in your logic to avoid dead code and improve readability.");
    ("semi",
     mkEntry
       "This rule enforces the use of semicolons (`;`) at the end of statements for consistency and to prevent potential automatic semicolon insertion (ASI) issues."
       "Add a semicolon (`;`) at the end of the problematic line. If you prefer not to use semicolons, you need to configure ESLint accordingly.");
    ("indent",
     mkEntry
       "This rule enforces a consistent indentation style (e.g., 2 or 4 spaces, or tabs) across your codebase. Inconsistent indentation can make code hard to read."
       "Adjust the indentation of the line to match the configured style (e.g., use 4 spaces instead of 2, or vice versa). Many IDEs can automatically format this.");
    ("quotes",
     mkEntry
       ("This rule enforces consistent use of single (`'`) or double (`" +:+ Str.dq
        +:+ "`) quotes for string literals. Consistency improves readability.")
       "Change the quotes (single to double, or double to single) to match the configured style (e.g., use single quotes if `quotes: ['error', 'single']` is set).");
    ("no-trailing-spaces",
     mkEntry
       "This rule disallows extraneous whitespace at the end of lines."
       "Remove any trailing spaces at the end of the line.");
    ("eol-last",
     mkEntry
       "This rule enforces a newline character at the end of the file."
       "Add an empty line (newline character) at the very end of your file.")
  ].

(** The pair used when no entry of the table is selected. *)
Definition genericExplanation : ExplanationEntry :=
  mkEntry
    "No specific explanation available for this error."
    "Review the code at the reported line and column for syntax errors or logical inconsistencies. Search for the error message or rule ID online.".

(** [errorExplanations] is an ordinary object: a property read that finds no
    own property continues in [Object.prototype], whose properties are all
    truthy and are not enumerated by [for ... in]. *)
Definition object_prototype_keys : list string :=
  [ "constructor"; "__defineGetter__"; "__defineSetter__"; "hasOwnProperty";
    "__lookupGetter__"; "__lookupSetter__"; "isPrototypeOf";
    "propertyIsEnumerable"; "toString"; "valueOf"; "__proto__";
    "toLocaleString" ].

(** The object bound to [explanationData]: an explanation/suggestion pair,
    or a value inherited from [Object.prototype], which has neither field. *)
Inductive ExplanationData : Type :=
  | Entry (e : ExplanationEntry)
  | Inherited.

(** [errorExplanations[k]]; [None] is [undefined]. *)
Definition table_get (k : string) : option ExplanationData :=
  match Js.assoc k errorExplanations with
  | Some e => Some (Entry e)
  | None =>
      if bool_decide (k ∈ object_prototype_keys) then Some Inherited else None
  end.

(** [explanationData.explanation] and [explanationData.suggestion]; [None]
    is [undefined]. *)
Definition data_explanation (d : ExplanationData) : option string :=
  match d with Entry e => Some (explanation e) | Inherited => None end.

Definition data_suggestion (d : ExplanationData) : option string :=
  match d with Entry e => Some (suggestion e) | Inherited => None end.

(* ===================================================================== *)
(** ** Diagnostics and analysis results *)
(* ===================================================================== *)

(** What the linter library returns ([ESLint.LintResult]). *)
Module Lint.
Record Message : Type := mkMessage {
  ruleId : option string;          (* string | null *)
  severity : Z;                    (* 1 | 2 *)
  message : string;
  line : JSValue;
  column : JSValue;
  nodeType : JSValue;
  suggestions : option (list JSValue)
}.
Record Result : Type := mkResult {
  messages : list Message;
  output : option string           (* absent when nothing was fixed *)
}.
End Lint.

(** The object literal built for each linter message. *)
Module EsDiag.
Record t : Type := mk {
  ruleId : option string;
  severity : string;
  message : string;
  line : JSValue;
  column : JSValue;
  nodeType : JSValue;
  suggestions : list JSValue;
  errorExplanation : option string;   (* [None] is [undefined] *)
  errorSuggestion : option string
}.
End EsDiag.

(** The object literal built for each Pylint record. *)
Module PyDiag.
Record t : Type := mk {
  type : JSValue;
  module : JSValue;
  symbol : JSValue;
  message : JSValue;
  line : JSValue;
  column : JSValue;
  endLine : JSValue;
  endColumn : JSValue;
  errorExplanation : string;
  errorSuggestion : string
}.
End PyDiag.

(** The object literal built for each compiler line. *)
Module CppDiag.
Record t : Type := mk {
  filePath : string;
  line : Z;
  column : Z;
  severity : string;
  message : string;
  ruleId : string
}.
End CppDiag.

Inductive Diagnostic : Type :=
  | OfEsLint (d : EsDiag.t)
  | OfPylint (d : PyDiag.t)
  | OfCpp (d : CppDiag.t).

(** Property reads on a diagnostic, whatever strategy built it; a property
    the object literal does not define reads as [undefined]. *)
Module Diag.
Definition of_opt (o : option string) : JSValue :=
  match o with Some s => JStr s | None => JUndefined end.

Definition line (d : Diagnostic) : JSValue :=
  match d with
  | OfEsLint m => EsDiag.line m
  | OfPylint m => PyDiag.line m
  | OfCpp m => JNum (CppDiag.line m)
  end.
Definition column (d : Diagnostic) : JSValue :=
  match d with
  | OfEsLint m => EsDiag.column m
  | OfPylint m => PyDiag.column m
  | OfCpp m => JNum (CppDiag.column m)
  end.
Definition severity (d : Diagnostic) : JSValue :=
  match d with
  | OfEsLint m => JStr (EsDiag.severity m)
  | OfPylint _ => JUndefined
  | OfCpp m => JStr (CppDiag.severity m)
  end.
Definition message (d : Diagnostic) : JSValue :=
  match d with
  | OfEsLint m => JStr (EsDiag.message m)
  | OfPylint m => PyDiag.message m
  | OfCpp m => JStr (CppDiag.message m)
  end.
Definition ruleId (d : Diagnostic) : JSValue :=
  match d with
  | OfEsLint m => Js.of_option_string (EsDiag.ruleId m)
  | OfPylint _ => JUndefined
  | OfCpp m => JStr (CppDiag.ruleId m)
  end.
Definition errorExplanation (d : Diagnostic) : JSValue :=
  match d with
  | OfEsLint m => of_opt (EsDiag.errorExplanation m)
  | OfPylint m => JStr (PyDiag.errorExplanation m)
  | OfCpp _ => JUndefined
  end.
Definition errorSuggestion (d : Diagnostic) : JSValue :=
  match d with
  | OfEsLint m => of_opt (EsDiag.errorSuggestion m)
  | OfPylint m => JStr (PyDiag.errorSuggestion m)
  | OfCpp _ => JUndefined
  end.
End Diag.

(** One element of [analysis]. *)
Record FileAnalysis : Type := mkFileAnalysis {
  fa_filePath : string;
  fa_messages : list Diagnostic
}.

(** The three fields the augmenter supplies. *)
Record AIData : Type := mkAIData {
  aiExplanation : JSValue;
  aiSuggestion : JSValue;
  aiFixedCode : JSValue
}.

Definition nullAIData : AIData := mkAIData JNull JNull JNull.

(** The object a strategy resolves with: either the success shape or the
    failure shape ([details] is absent in some failures). *)
Inductive AnalysisResult : Type :=
  | Success (analysis : list FileAnalysis) (fixedCode : string) (ai : AIData)
  | Failure (error : string) (details : option string).

Definition success (r : AnalysisResult) : bool :=
  match r with Success _ _ _ => true | Failure _ _ => false end.

(** The diagnostics of a result, all groups together. *)
Definition diagnostics (r : AnalysisResult) : list Diagnostic :=
  match r with
  | Success analysis _ _ => concat (map fa_messages analysis)
  | Failure _ _ => []
  end.

Definition ai_fields (r : AnalysisResult) : option AIData :=
  match r with Success _ _ ai => Some ai | Failure _ _ => None end.

(** How the promise of an [async] function ends.  [Pending] is a promise
    that nothing settles any more. *)
Inductive Settled : Type :=
  | Resolved (r : AnalysisResult)
  | Rejected (e : Exn)
  | Pending.

(* ===================================================================== *)
(** ** The outside world *)
(* ===================================================================== *)

(** What [fs.writeFile] does: it writes the file, or rejects, possibly
    leaving a file behind. *)
Inductive WriteOutcome : Type :=
  | Written
  | WriteFailed (e : Exn) (leftover : bool).

(** What becomes of a spawned child.  [spawn] throws at once; or the child
    cannot be started: it emits ['error'] and then, as a child that was
    never started does, ['close'] with [exitCode] (the negative number of
    the error) and nothing on its streams, so that both handlers run, and
    [closeFirst] tells whether the ['close'] handler reaches its settling
    statement before the ['error'] handler reaches its own; or the child
    runs and emits ['close'] with an exit code ([None] is [null]: killed by
    a signal), after having written [stdout] and [stderr] and created the
    files [created].  A child that never ends calls no handler; the runs
    described here are those whose child ends. *)
Inductive ChildProcess : Type :=
  | SpawnThrows (e : Exn)
  | EmitsError (e : Exn) (exitCode : option Z) (closeFirst : bool)
  | Closes (exitCode : option Z) (stdout stderr : string) (created : list string).

Record Env : Type := mkEnv {
  (** [model]: [None] when [GOOGLE_API_KEY] is not set; otherwise the text
      the chat answers to a prompt, or what [sendMessage]/[text()] throws. *)
  model : option (string → Completion string);
  (** [JSON.parse]: the value, or the message of the [SyntaxError]. *)
  JSON_parse : string → JSValue + string;
  (** [new ESLint(...)] followed by [lintText(code)]. *)
  ESLint_lintText : string → Completion (list Lint.Result);
  os_tmpdir : string;
  path_join : string → string → string;
  (** [path.resolve(__dirname, rel)]. *)
  path_resolve_dirname : string → string;
  (** The value of the n-th call to [Date.now()] in an invocation. *)
  Date_now : nat → Z;
  fs_writeFile : string → string → WriteOutcome;
  (** Whether [fs.unlink] manages to remove an existing file. *)
  fs_unlink : string → bool;
  spawn : string → list string → ChildProcess
}.

(** [JSON.parse(text)] as an expression: a syntax error is thrown. *)
Definition parseJSON (env : Env) (text : string) : Completion JSValue :=
  match JSON_parse env text with
  | inl v => Normal v
  | inr message => Throw (Error message)
  end.

(** The external calls a run performs, in order. *)
Inductive Event : Type :=
  | EvLintText (code : string)
  | EvWriteFile (path data : string)
  | EvSpawn (command : string) (args : list string)
  | EvUnlink (path : string)
  | EvExistsSync (path : string)
  | EvAugment (language : string) (errorMessages : list Diagnostic)
  | EvSendMessage (prompt : string).

Record State : Type := mkState {
  files : gset string;
  trace : list Event
}.

Definition initial (fs : gset string) : State := mkState fs [].

(** Computations that read and change the state and may throw. *)
Definition M (A : Type) : Type := State → Completion A * State.

Definition ret {A} (a : A) : M A := λ s, (Normal a, s).
Definition throw {A} (e : Exn) : M A := λ s, (Throw e, s).
Definition bind {A B} (m : M A) (k : A → M B) : M B :=
  λ s, match m s with
       | (Normal a, s') => k a s'
       | (Throw e, s') => (Throw e, s')
       end.
Definition try_catch {A} (m : M A) (h : Exn → M A) : M A :=
  λ s, match m s with
       | (Normal a, s') => (Normal a, s')
       | (Throw e, s') => h e s'
       end.
Definition lift {A} (c : Completion A) : M A := λ s, (c, s).

#[global] Instance M_ret : MRet M := @ret.
#[global] Instance M_bind : MBind M := λ A B k m, bind m k.

Definition gets {A} (f : State → A) : M A := λ s, (Normal (f s), s).

Definition emit (e : Event) : M unit :=
  λ s, (Normal tt, mkState (files s) (trace s ++ [e])).

Definition add_files (l : list string) : M unit :=
  λ s, (Normal tt, mkState (files s ∪ list_to_set l) (trace s)).

Definition remove_file (p : string) : M unit :=
  λ s, (Normal tt, mkState (files s ∖ {[p]}) (trace s)).

Fixpoint mapM {A B} (f : A → Completion B) (l : list A) : Completion (list B) :=
  match l with
  | [] => Normal []
  | a :: l' =>
      match f a with
      | Throw e => Throw e
      | Normal b =>
          match mapM f l' with
          | Throw e => Throw e
          | Normal bs => Normal (b :: bs)
          end
      end
  end.

Section WithEnv.
Context (env : Env).

(** [await fs.writeFile(path, data)]. *)
Definition writeFile (path data : string) : M unit :=
  emit (EvWriteFile path data) ;;
  match fs_writeFile env path data with
  | Written => add_files [path]
  | WriteFailed e leftover =>
      (if leftover then add_files [path] else ret tt) ;; throw e
  end.

(** [await fs.unlink(path).catch(...)]: a failed removal is swallowed. *)
Definition unlink_quiet (path : string) : M unit :=
  emit (EvUnlink path) ;;
  if fs_unlink env path then remove_file path else ret tt.

(** [fsSync.existsSync(path)]. *)
Definition existsSync (path : string) : M bool :=
  emit (EvExistsSync path) ;;
  gets (λ s, bool_decide (path ∈ files s)).

End WithEnv.

(* ===================================================================== *)
(** ** The explanation augmenter [getAIExplanation] *)
(* ===================================================================== *)

(** [msg.severity.toUpperCase()]. *)
Definition severity_toUpperCase (v : JSValue) : Completion string :=
  match v with
  | JStr s => Normal (Str.toUpperCase s)
  | JUndefined =>
      Throw (Error "Cannot read properties of undefined (reading 'toUpperCase')")
  | JNull =>
      Throw (Error "Cannot read properties of null (reading 'toUpperCase')")
  | _ => Throw (Error "msg.severity.toUpperCase is not a function")
  end.

(** One line of the list of reported issues. *)
Definition issue_line (msg : Diagnostic) : Completion string :=
  match severity_toUpperCase (Diag.severity msg) with
  | Throw e => Throw e
  | Normal sev =>
      Normal ("- Line " +:+ Js.toString (Diag.line msg)
              +:+ ", Column " +:+ Js.toString (Diag.column msg)
              +:+ " [" +:+ sev +:+ "]: " +:+ Js.toString (Diag.message msg)
              +:+ " (Rule: "
              +:+ Js.toString (if Js.truthy (Diag.ruleId msg)
                               then Diag.ruleId msg else JStr "N/A")
              +:+ ")")
  end.

Definition build_prompt (code language : string) (issues : list string) : string :=
  "You are an expert code debugger. Analyze the following " +:+ language
  +:+ " code and its reported issues. Provide a clear, concise explanation of the root cause of the error(s) and a specific, actionable suggestion to fix it. If possible, provide the complete corrected code."
  +:+ Str.nl +:+ Str.nl
  +:+ "Code:" +:+ Str.nl
  +:+ "```" +:+ language +:+ Str.nl
  +:+ code +:+ Str.nl
  +:+ "```" +:+ Str.nl +:+ Str.nl
  +:+ "Reported Issues:" +:+ Str.nl
  +:+ Str.join Str.nl issues +:+ Str.nl +:+ Str.nl
  +:+ "Please provide your response in the following JSON format:" +:+ Str.nl
  +:+ "{" +:+ Str.nl
  +:+ "  " +:+ Str.dq +:+ "explanation" +:+ Str.dq +:+ ": " +:+ Str.dq
  +:+ "Detailed explanation of the problem." +:+ Str.dq +:+ "," +:+ Str.nl
  +:+ "  " +:+ Str.dq +:+ "suggestion" +:+ Str.dq +:+ ": " +:+ Str.dq
  +:+ "Specific steps to fix the problem." +:+ Str.dq +:+ "," +:+ Str.nl
  +:+ "  " +:+ Str.dq +:+ "fixedCode" +:+ Str.dq +:+ ": " +:+ Str.dq
  +:+ "If possible, the complete corrected code block. Otherwise, null."
  +:+ Str.dq +:+ Str.nl
  +:+ "}" +:+ Str.nl.

(** The first capture of the fenced-block pattern: the shortest text between
    the first opening fence followed by a newline and a newline followed by
    a closing fence. *)
Definition fenced_json (text : string) : option string :=
  rest ← Str.after_first ("```json" +:+ Str.nl) text;
  Str.before_first (Str.nl +:+ "```") rest.

Definition extract_json_text (text : string) : string :=
  match fenced_json text with
  | Some inner => inner
  | None =>
      Str.substring (Str.indexOf text "{") (Str.lastIndexOf text "}" + 1) text
  end.

Section Augmenter.
Context (env : Env).

(** The body of the [try] block, once the prompt is built. *)
Definition ask_model (ask : string → Completion string) (prompt : string)
  : M AIData :=
  emit (EvSendMessage prompt) ;;
  text ← lift (ask prompt);
  let jsonText := extract_json_text text in
  if negb (Str.truthy jsonText) || bool_decide (Str.trim jsonText = "")
  then ret (mkAIData (JStr text)
              (JStr "Could not parse AI response into JSON. Check original AI response.")
              JNull)
  else
    parsedResponse ← lift (parseJSON env jsonText);
    e ← lift (Js.get parsedResponse "explanation");
    s ← lift (Js.get parsedResponse "suggestion");
    f ← lift (Js.get parsedResponse "fixedCode");
    ret (mkAIData e s f).

(** The [catch] block: its log line evaluates
    [aiError.response?.text() || aiError.message], which calls [text()]
    when the thrown object has a [response]. *)
Definition on_aiError (aiError : Exn) : M AIData :=
  match aiError with
  | MkExn _ (Some (inl e)) => throw e
  | MkExn _ _ => ret nullAIData
  end.

Definition getAIExplanation (code language : string)
    (errorMessages : list Diagnostic) : M AIData :=
  emit (EvAugment language errorMessages) ;;
  match model env with
  | None => ret nullAIData
  | Some ask =>
      issues ← lift (mapM issue_line errorMessages);
      let prompt := build_prompt code language issues in
      try_catch (ask_model ask prompt) on_aiError
  end.

End Augmenter.

(* ===================================================================== *)
(** ** The in-process strategy [runEsLintAnalysis] *)
(* ===================================================================== *)

Definition ruleId_truthy (r : option string) : bool :=
  match r with Some s => Str.truthy s | None => false end.

(** The [for ... in] loop over the table, from the entries not yet visited. *)
Fixpoint scan_table (msg : Lint.Message) (entries : list (string * ExplanationEntry))
    (explanationData : ExplanationData) : ExplanationData :=
  match entries with
  | [] => explanationData
  | (key, e) :: rest =>
      if negb (ruleId_truthy (Lint.ruleId msg)) && Str.includes (Lint.message msg) key
      then Entry e
      else scan_table msg rest explanationData
  end.

(** The value of [explanationData] when the object literal is built. *)
Definition explanationData_of (msg : Lint.Message) : ExplanationData :=
  let explanationData := Entry genericExplanation in
  match (if ruleId_truthy (Lint.ruleId msg)
         then table_get (default "" (Lint.ruleId msg)) else None) with
  | Some found => found
  | None => scan_table msg errorExplanations explanationData
  end.

Definition formatLintMessage (msg : Lint.Message) : EsDiag.t :=
  let explanationData := explanationData_of msg in
  EsDiag.mk
    (Lint.ruleId msg)
    (if Lint.severity msg =? 2 then "error" else "warning")
    (Lint.message msg)
    (Lint.line msg)
    (Lint.column msg)
    (Lint.nodeType msg)
    (default [] (Lint.suggestions msg))
    (data_explanation explanationData)
    (data_suggestion explanationData).

(** [results.flatMap(result => result.messages.map(...))]. *)
Definition formatLintResults (results : list Lint.Result) : list Diagnostic :=
  concat (map (λ result, map (λ msg, OfEsLint (formatLintMessage msg))
                             (Lint.messages result)) results).

(** An [async] function body: its promise resolves with the returned value
    and rejects with what the body throws. *)
Definition async (body : M AnalysisResult) : State → Settled * State :=
  λ s, match body s with
       | (Normal r, s') => (Resolved r, s')
       | (Throw e, s') => (Rejected e, s')
       end.

Section EsLint.
Context (env : Env).

Definition runEsLintAnalysis_body (code : string) : M AnalysisResult :=
  try_catch
    (emit (EvLintText code) ;;
     results ← lift (ESLint_lintText env code);
     let fixedCode :=
       match results with
       | r :: _ => default code (Lint.output r)
       | [] => code
       end in
     let formattedMessages := formatLintResults results in
     aiExplanationData ←
       (if bool_decide (0 < length formattedMessages)%nat
        then getAIExplanation env code "javascript" formattedMessages
        else ret nullAIData);
     ret (Success [mkFileAnalysis "<text>" formattedMessages] fixedCode
            aiExplanationData))
    (λ error,
       ret (Failure "Failed to run ESLint. Check server logs for details."
              (Some (exn_message error)))).

Definition runEsLintAnalysis (code : string) : State → Settled * State :=
  async (runEsLintAnalysis_body code).

End EsLint.

(* ===================================================================== *)
(** ** The JSON subprocess strategy [runPylintAnalysis] *)
(* ===================================================================== *)

(** The callback of [pylintResults.map]. *)
Definition formatPylintMessage (msg : JSValue) : Completion PyDiag.t :=
  match Js.get msg "type", Js.get msg "module", Js.get msg "symbol",
        Js.get msg "message", Js.get msg "line", Js.get msg "column",
        Js.get msg "endLine", Js.get msg "endColumn" with
  | Normal type, Normal module, Normal symbol, Normal message,
    Normal line, Normal column, Normal endLine, Normal endColumn =>
      Normal (PyDiag.mk type module symbol message line column endLine endColumn
                ("Pylint found a '" +:+ Js.toString type +:+ "' type issue: "
                 +:+ Js.toString message +:+ ".")
                ("Review the Python code at line " +:+ Js.toString line
                 +:+ ", column " +:+ Js.toString column
                 +:+ ". Consult Pylint documentation for rule '"
                 +:+ Js.toString symbol +:+ "'."))
  | Throw e, _, _, _, _, _, _, _ => Throw e
  | _, _, _, _, _, _, _, _ =>
      Throw (Error "Cannot read properties of undefined")
  end.

(** [pylintResults.map(...)]: only an array has [map]. *)
Definition formatPylintResults (pylintResults : JSValue)
  : Completion (list PyDiag.t) :=
  match pylintResults with
  | JArr items => mapM formatPylintMessage items
  | JNull => Throw (Error "Cannot read properties of null (reading 'map')")
  | JUndefined =>
      Throw (Error "Cannot read properties of undefined (reading 'map')")
  | _ => Throw (Error "pylintResults.map is not a function")
  end.

(** The body of an [async] event handler that settles the promise itself:
    when the body throws, nothing settles the promise. *)
Definition handler (body : M Settled) : State → Settled * State :=
  λ s, match body s with
       | (Normal r, s') => (r, s')
       | (Throw _, s') => (Pending, s')
       end.

(** A promise settles once: of two calls that settle it, the first one
    counts; [Pending] is a handler that ended without settling. *)
Definition settle_first (first second : Settled) : Settled :=
  match first with
  | Pending => second
  | _ => first
  end.

Definition pylint_not_installed (stderr : string) : bool :=
  Str.includes stderr "'pylint' is not recognized"
  || Str.includes stderr "command not found: pylint".

Section Pylint.
Context (env : Env).

(** [spawn(command, args, ...)]: the child that results, after it has
    created its files. *)
Definition spawn_child (command : string) (args : list string)
  : M ChildProcess :=
  emit (EvSpawn command args) ;;
  match spawn env command args with
  | SpawnThrows e => throw e
  | EmitsError e exitCode closeFirst => ret (EmitsError e exitCode closeFirst)
  | Closes exitCode stdout stderr created =>
      add_files created ;; ret (Closes exitCode stdout stderr created)
  end.

Definition pylint_tempFilePath : string :=
  path_join env (os_tmpdir env)
    ("temp_python_code_" +:+ pretty (Date_now env 0) +:+ ".py").

(** The [try] block inside the ['close'] handler. *)
Definition pylint_parse (code stdout stderr : string) : M Settled :=
  try_catch
    (pylintResults ← lift (parseJSON env (Str.or_else stdout "[]"));
     formatted ← lift (formatPylintResults pylintResults);
     let formattedMessages := map OfPylint formatted in
     aiExplanationData ←
       (if bool_decide (0 < length formattedMessages)%nat
        then getAIExplanation env code "python" formattedMessages
        else ret nullAIData);
     ret (Resolved (Success [mkFileAnalysis "<text>" formattedMessages] code
                      aiExplanationData)))
    (λ parseError,
       ret (Resolved (Failure "Failed to parse Pylint output."
              (Some (Str.or_else stdout
                       (Str.or_else stderr (exn_message parseError))))))).

(** The ['close'] handler. *)
Definition pylint_on_close (code tempFilePath stdout stderr : string)
  : M Settled :=
  unlink_quiet env tempFilePath ;;
  if Str.truthy stderr && pylint_not_installed stderr then
    ret (Resolved (Failure
      "Pylint is not installed or not in your system's PATH. Please install it (e.g., 'pip install pylint')."
      None))
  else if Str.truthy stderr && negb (Str.truthy stdout) then
    ret (Resolved (Failure
      ("Pylint encountered an error: " +:+ Str.trim stderr) None))
  else pylint_parse code stdout stderr.

(** The ['error'] handler. *)
Definition pylint_on_error (tempFilePath : string) (err : Exn) : M Settled :=
  (if Str.truthy tempFilePath then unlink_quiet env tempFilePath else ret tt) ;;
  ret (Rejected (Error ("Failed to run Pylint: " +:+ exn_message err
                        +:+ ". Is Pylint installed and in your PATH?"))).

(** The outer [catch] block. *)
Definition pylint_on_setup_error (tempFilePath : string) (error : Exn)
  : M Settled :=
  (if Str.truthy tempFilePath then unlink_quiet env tempFilePath else ret tt) ;;
  ret (Resolved (Failure "Failed to prepare Python code for analysis."
                   (Some (exn_message error)))).

(** A child that cannot be started: the ['error'] handler starts, then the
    ['close'] handler, with empty [stdout] and [stderr].  The two handlers
    are interleaved at their awaits and touch the same file; the calls of
    the ['error'] handler are taken first.  The ['error'] handler awaits
    only when it has a file to remove: otherwise it rejects before the
    ['close'] handler starts. *)
Definition pylint_on_error_then_close (code tempFilePath : string) (err : Exn)
    (closeFirst : bool) : State → Settled * State :=
  λ s,
    let '(rejected, s1) := handler (pylint_on_error tempFilePath err) s in
    let '(closed, s2) := handler (pylint_on_close code tempFilePath "" "") s1 in
    (if closeFirst && Str.truthy tempFilePath
     then settle_first closed rejected
     else settle_first rejected closed, s2).

(** The [try] block up to the creation of the promise. *)
Definition pylint_setup (code tempFilePath : string) : M ChildProcess :=
  writeFile env tempFilePath code ;;
  spawn_child "pylint"
    [ tempFilePath; "--output-format=json";
      "--rcfile=" +:+ path_resolve_dirname env "../.pylintrc" ].

(** The promise is returned without [await]: the handlers run outside
    the [try] block, and a rejection goes to the caller. *)
Definition runPylintAnalysis (code : string) : State → Settled * State :=
  λ s,
    let tempFilePath := pylint_tempFilePath in
    match pylint_setup code tempFilePath s with
    | (Normal (Closes _ stdout stderr _), s1) =>
        handler (pylint_on_close code tempFilePath stdout stderr) s1
    | (Normal (EmitsError err _ closeFirst), s1) =>
        pylint_on_error_then_close code tempFilePath err closeFirst s1
    | (Normal (SpawnThrows error), s1) | (Throw error, s1) =>
        handler (pylint_on_setup_error tempFilePath error) s1
    end.

End Pylint.

(* ===================================================================== *)
(** ** The compiler strategy [runCppAnalysis] *)
(* ===================================================================== *)

(** The five captures of the location pattern of [runCppAnalysis]: anchored
    at both ends, a lazy run of characters, then a colon, digits, a colon,
    digits, a colon, optional white space, the word error or warning, a
    colon, optional white space and a greedy run of characters.  A run of
    characters stops at a line terminator. *)
Record LocationMatch : Type := mkLocationMatch {
  m_path : string;       (* match[1] *)
  m_line : string;       (* match[2] *)
  m_column : string;     (* match[3] *)
  m_severity : string;   (* match[4] *)
  m_message : string     (* match[5] *)
}.

Module Re.

(** The longest run of digits at the head of [s], and what follows. *)
Fixpoint digits (s : string) : string * string :=
  match s with
  | String c s' =>
      if Str.is_digit c
      then let '(ds, rest) := digits s' in (String c ds, rest)
      else ("", s)
  | "" => ("", "")
  end.

(** [s] without the literal [k] at its head. *)
Definition literal (k s : string) : option string :=
  if Str.starts_with k s then Some (Str.drop (String.length k) s) else None.

(** [(\d+)] followed by a colon. *)
Definition number_colon (s : string) : option (string * string) :=
  let '(ds, rest) := digits s in
  if Str.truthy ds then pair ds <$> literal ":" rest else None.

(** [(error|warning)]. *)
Definition severity (s : string) : option (string * string) :=
  match literal "error" s with
  | Some rest => Some ("error", rest)
  | None => pair "warning" <$> literal "warning" s
  end.

Fixpoint has_line_terminator (s : string) : bool :=
  match s with
  | "" => false
  | String c s' => Str.is_line_terminator c || has_line_terminator s'
  end.

(** Everything after the first capture, up to the end of the line. *)
Definition tail (s : string) : option (string * string * string * string) :=
  s1 ← literal ":" s;
  '(l, s2) ← number_colon s1;
  '(c, s3) ← number_colon s2;
  '(sev, s4) ← severity (Str.trim_start s3);
  s5 ← literal ":" s4;
  let msg := Str.trim_start s5 in
  if has_line_terminator msg then None else Some (l, c, sev, msg).

(** [line.match(...)]: the first capture is lazy, so it is the shortest
    prefix, free of line terminators, after which the rest matches. *)
Fixpoint location (line : string) : option LocationMatch :=
  match tail line with
  | Some (l, c, sev, msg) => Some (mkLocationMatch "" l c sev msg)
  | None =>
      match line with
      | "" => None
      | String ch rest =>
          if Str.is_line_terminator ch then None
          else (λ m, mkLocationMatch (String ch (m_path m)) (m_line m)
                       (m_column m) (m_severity m) (m_message m))
               <$> location rest
      end
  end.

End Re.

(** One iteration of [errorLines.forEach]: the message pushed for a line of
    stderr, if any. *)
Definition classifyLine (line : string) : option CppDiag.t :=
  match Re.location line with
  | Some m =>
      Some (CppDiag.mk (m_path m)
              (Str.parse_digits (m_line m))
              (Str.parse_digits (m_column m))
              (if bool_decide (m_severity m = "error") then "error" else "warning")
              (m_message m)
              "g++-compilation")
  | None =>
      if Str.includes line "error:" then
        Some (CppDiag.mk "<text>" 0 0 "error" (Str.trim line) "g++-compilation")
      else if Str.includes line "warning:" then
        Some (CppDiag.mk "<text>" 0 0 "warning" (Str.trim line) "g++-compilation")
      else None
  end.

(** [formattedMessages] after the [if (stderr)] block. *)
Definition parseCppStderr (stderr : string) : list CppDiag.t :=
  if Str.truthy stderr
  then omap classifyLine (Str.split_lines stderr)
  else [].

Definition gpp_not_installed (stderr : string) : bool :=
  Str.includes stderr "'g++' is not recognized"
  || Str.includes stderr "command not found: g++".

Section Cpp.
Context (env : Env).

Definition cpp_tempCppFilePath : string :=
  path_join env (os_tmpdir env)
    ("temp_cpp_code_" +:+ pretty (Date_now env 0) +:+ ".cpp").

Definition cpp_tempExecutablePath : string :=
  path_join env (os_tmpdir env)
    ("temp_cpp_executable_" +:+ pretty (Date_now env 1)).

(** The removal of both temporary files at the head of the ['close']
    handler. *)
Definition cpp_cleanup_on_close (tempCppFilePath tempExecutablePath : string)
    (exitCode : option Z) : M unit :=
  unlink_quiet env tempCppFilePath ;;
  present ← (if bool_decide (exitCode = Some 0) then ret true
             else existsSync tempExecutablePath);
  if present : bool then unlink_quiet env tempExecutablePath else ret tt.

(** The ['close'] handler. *)
Definition cpp_on_close (code tempCppFilePath tempExecutablePath : string)
    (exitCode : option Z) (stderr : string) : M Settled :=
  cpp_cleanup_on_close tempCppFilePath tempExecutablePath exitCode ;;
  let formattedMessages := map OfCpp (parseCppStderr stderr) in
  if Str.truthy stderr && gpp_not_installed stderr then
    ret (Resolved (Failure
      "g++ compiler is not installed or not in your system's PATH. Please install it."
      None))
  else
    aiExplanationData ←
      (if bool_decide (0 < length formattedMessages)%nat
          || negb (bool_decide (exitCode = Some 0))
       then getAIExplanation env code "c++" formattedMessages
       else ret nullAIData);
    ret (Resolved (Success [mkFileAnalysis "<text>" formattedMessages] code
                     aiExplanationData)).

Definition cpp_unlink_both (tempCppFilePath tempExecutablePath : string)
  : M unit :=
  (if Str.truthy tempCppFilePath then unlink_quiet env tempCppFilePath
   else ret tt) ;;
  (if Str.truthy tempExecutablePath then unlink_quiet env tempExecutablePath
   else ret tt).

(** The ['error'] handler. *)
Definition cpp_on_error (tempCppFilePath tempExecutablePath : string)
    (err : Exn) : M Settled :=
  cpp_unlink_both tempCppFilePath tempExecutablePath ;;
  ret (Rejected (Error ("Failed to run g++: " +:+ exn_message err
                        +:+ ". Is g++ installed and in your PATH?"))).

(** The outer [catch] block. *)
Definition cpp_on_setup_error (tempCppFilePath tempExecutablePath : string)
    (error : Exn) : M Settled :=
  cpp_unlink_both tempCppFilePath tempExecutablePath ;;
  ret (Resolved (Failure "Failed to prepare C++ code for analysis."
                   (Some (exn_message error)))).

(** A child that cannot be started: the ['error'] handler starts, then the
    ['close'] handler, with the exit code of the failed start and an empty
    [stderr]; the calls of the ['error'] handler are taken first.  The
    ['error'] handler awaits only when it has a file to remove. *)
Definition cpp_on_error_then_close
    (code tempCppFilePath tempExecutablePath : string) (err : Exn)
    (exitCode : option Z) (closeFirst : bool) : State → Settled * State :=
  λ s,
    let '(rejected, s1) :=
      handler (cpp_on_error tempCppFilePath tempExecutablePath err) s in
    let '(closed, s2) :=
      handler (cpp_on_close code tempCppFilePath tempExecutablePath exitCode "")
        s1 in
    (if closeFirst
        && (Str.truthy tempCppFilePath || Str.truthy tempExecutablePath)
     then settle_first closed rejected
     else settle_first rejected closed, s2).

Definition cpp_setup (code tempCppFilePath tempExecutablePath : string)
  : M ChildProcess :=
  writeFile env tempCppFilePath code ;;
  spawn_child env "g++"
    [ tempCppFilePath; "-o"; tempExecutablePath; "-std=c++11"; "-Wall";
      "-Wextra" ].

Definition runCppAnalysis (code : string) : State → Settled * State :=
  λ s,
    let tempCppFilePath := cpp_tempCppFilePath in
    let tempExecutablePath := cpp_tempExecutablePath in
    match cpp_setup code tempCppFilePath tempExecutablePath s with
    | (Normal (Closes exitCode _ stderr _), s1) =>
        handler (cpp_on_close code tempCppFilePath tempExecutablePath
                   exitCode stderr) s1
    | (Normal (EmitsError err exitCode closeFirst), s1) =>
        cpp_on_error_then_close code tempCppFilePath tempExecutablePath err
          exitCode closeFirst s1
    | (Normal (SpawnThrows error), s1) | (Throw error, s1) =>
        handler (cpp_on_setup_error tempCppFilePath tempExecutablePath error) s1
    end.

End Cpp.

(* ===================================================================== *)
(** ** The dispatcher [runCodeAnalysis] *)
(* ===================================================================== *)

Definition runCodeAnalysis (env : Env) (code language : string)
  : State → Settled * State :=
  let tag := Str.toLowerCase language in
  if bool_decide (tag = "javascript") then runEsLintAnalysis env code
  else if bool_decide (tag = "python") then runPylintAnalysis env code
  else if bool_decide (tag = "c++") || bool_decide (tag = "cpp")
       then runCppAnalysis env code
  else async (ret (Failure ("Unsupported language for debugging: "
                            +:+ language +:+ ".") None)).

(* ===================================================================== *)
(** ** The request handler [debugCode] *)
(* ===================================================================== *)

(** [s.split(sep)] for a separator of one character. *)
Fixpoint split_on (sep : ascii) (s : string) : list string :=
  match s with
  | "" => [""]
  | String c s' =>
      if bool_decide (c = sep) then "" :: split_on sep s'
      else match split_on sep s' with
           | h :: t => String c h :: t
           | [] => [String c ""]
           end
  end.

(** [l.pop()] on the array [split] returns, which is never empty. *)
Definition pop (l : list string) : string := List.last l "".

(** An uploaded file as [express-fileupload] presents it: its name and its
    content, the buffer read as text. *)
Record UploadedFile : Type := mkUploadedFile {
  file_name : string;
  file_data : string
}.

(** What the handler reads of a request: [req.files.codeFile], [None] when
    [req.files] or the field is missing, and [req.body].  The field holds
    one file; a request that repeats the field is outside the model. *)
Record Request : Type := mkRequest {
  req_codeFile : option UploadedFile;
  req_body : JSValue
}.

(** What [res.json] sends. *)
Inductive ResponseBody : Type :=
  | ErrorBody (error : string) (details : option string)
  | ResultBody (result : AnalysisResult).

Record Response : Type := mkResponse {
  res_status : Z;
  res_body : ResponseBody
}.

(** [typeof v === 'string'], with the string. *)
Definition as_string (v : JSValue) : option string :=
  match v with JStr s => Some s | _ => None end.

(** The code and the language the handler settles on; [None] is the request
    that carries neither a file nor a pasted code. *)
Definition debugCode_input (req : Request)
  : Completion (option (string * string)) :=
  let language := "javascript" in
  match req_codeFile req with
  | Some codeFile =>
      let code := file_data codeFile in
      let fileExtension :=
        Str.toLowerCase (pop (split_on "." (file_name codeFile))) in
      let language :=
        if bool_decide (fileExtension = "js") then "javascript"
        else if bool_decide (fileExtension = "py") then "python"
        else if bool_decide (fileExtension = "cpp")
                || bool_decide (fileExtension = "cxx")
                || bool_decide (fileExtension = "cc") then "c++"
        else language in
      Normal (Some (code, language))
  | None =>
      if Js.truthy (req_body req) then
        match Js.get (req_body req) "code" with
        | Throw e => Throw e
        | Normal v =>
            match as_string v with
            | Some code =>
                match Js.get (req_body req) "language" with
                | Throw e => Throw e
                | Normal l =>
                    match as_string l with
                    | Some given =>
                        Normal (Some (code, if Str.truthy given then given
                                            else language))
                    | None => Normal (Some (code, language))
                    end
                end
            | None => Normal None
            end
        end
      else Normal None
  end.

(** The [try] block around the analysis: the result is sent as it is, a
    rejection becomes the status 500; while the promise is pending nothing
    is sent. *)
Definition send_result (outcome : Settled) : option Response :=
  match outcome with
  | Resolved result => Some (mkResponse 200 (ResultBody result))
  | Rejected error =>
      Some (mkResponse 500
              (ErrorBody "Failed to debug code due to an internal server error."
                 (Some (exn_message error))))
  | Pending => None
  end.

(** The handler: the response it sends, if it sends one.  An exception
    outside the [try] block would reject the promise of the handler and
    send nothing. *)
Definition debugCode (env : Env) (req : Request)
  : State → option Response * State :=
  λ s,
    match debugCode_input req with
    | Throw _ => (None, s)
    | Normal None =>
        (Some (mkResponse 400
                 (ErrorBody "No code provided for debugging or invalid input format."
                    None)), s)
    | Normal (Some (code, language)) =>
        if negb (Str.truthy (Str.trim code)) then
          (Some (mkResponse 400
                   (ErrorBody
                      "Provided code is empty or contains only whitespace. Please provide valid code."
                      None)), s)
        else
          let '(outcome, s') := runCodeAnalysis env code language s in
          (send_result outcome, s')
    end.

(* ===================================================================== *)
(** * Definitions used in the statements *)
(* ===================================================================== *)

(** ** Characters of a string, events of a trace *)

(** Every character of [s] satisfies [p]. *)
Fixpoint all_chars (p : ascii → bool) (s : string) : bool :=
  match s with
  | "" => true
  | String c s' => p c && all_chars p s'
  end.

Definition is_augment (e : Event) : bool :=
  match e with EvAugment _ _ => true | _ => false end.

Definition is_request (e : Event) : bool :=
  match e with EvSendMessage _ => true | _ => false end.

Definition is_spawn (e : Event) : bool :=
  match e with EvSpawn _ _ => true | _ => false end.

Definition is_write (e : Event) : bool :=
  match e with EvWriteFile _ _ => true | _ => false end.

(** Number of events of a kind in a trace. *)
Definition occurrences (kind : Event → bool) (t : list Event) : nat :=
  length (List.filter kind t).

(** Number of calls of [getAIExplanation] in a trace. *)
Definition augmenter_calls : list Event → nat := occurrences is_augment.

(** ** Diagnostics of compiler lines *)

(** The located diagnostic of a match: the captures, the two numbers
    parsed. *)
Definition locatedDiagnostic (m : LocationMatch) : CppDiag.t :=
  CppDiag.mk (m_path m) (Str.parse_digits (m_line m))
    (Str.parse_digits (m_column m)) (m_severity m) (m_message m)
    "g++-compilation".




(** The lines the location pattern describes: a first part and a message
    free of line terminators, two non-empty runs of digits, the word error
    or warning, colons between them, and white space allowed before the
    word and before the message. *)
Definition location_line (line : string) : Prop :=
  ∃ path l c ws1 sev ws2 msg,
    line = path +:+ ":" +:+ l +:+ ":" +:+ c +:+ ":" +:+ ws1 +:+ sev +:+ ":"
           +:+ ws2 +:+ msg
    ∧ Re.has_line_terminator path = false
    ∧ l ≠ "" ∧ all_chars Str.is_digit l = true
    ∧ c ≠ "" ∧ all_chars Str.is_digit c = true
    ∧ all_chars Str.is_space ws1 = true
    ∧ (sev = "error" ∨ sev = "warning")
    ∧ all_chars Str.is_space ws2 = true
    ∧ Re.has_line_terminator msg = false.

(** ** The lookup of an explanation for a linter message *)

#[global] Arguments errorExplanations : simpl never.
#[global] Arguments genericExplanation : simpl never.
#[global] Arguments object_prototype_keys : simpl never.

(** The first entry of the table, in its order, whose key occurs in the
    message. *)
Definition first_substring_entry (message : string) : option ExplanationEntry :=
  snd <$> List.find (λ p, Str.includes message p.1) errorExplanations.

(** The selection as the specification words it: an exact match of the rule
    identifier first, otherwise the first key that occurs in the message,
    otherwise the generic pair. *)
Definition lookup_as_specified (msg : Lint.Message) : ExplanationEntry :=
  match (r ← Lint.ruleId msg; Js.assoc r errorExplanations) with
  | Some e => e
  | None =>
      default genericExplanation (first_substring_entry (Lint.message msg))
  end.

(** The selection the code makes: the substring search is only for messages
    without a rule identifier. *)
Definition lookup_by_rule_then_message (msg : Lint.Message) : ExplanationEntry :=
  if ruleId_truthy (Lint.ruleId msg)
  then default genericExplanation
         (Js.assoc (default "" (Lint.ruleId msg)) errorExplanations)
  else default genericExplanation (first_substring_entry (Lint.message msg)).

(** ** The augmenter *)

(** A diagnostic whose [severity] is a string. *)
Definition has_string_severity (d : Diagnostic) : Prop :=
  match d with OfPylint _ => False | _ => True end.

(** The errors of the model can be logged: none of them carries a
    [response] whose [text()] throws. *)
Definition loggable_errors (env : Env) : Prop :=
  ∀ ask prompt m e,
    model env = Some ask → ask prompt ≠ Throw (MkExn m (Some (inl e))).

(** The result of the augmenter depends neither on the files nor on the
    trace. *)
Definition augmenter_result (env : Env) (code language : string)
    (msgs : list Diagnostic) : Completion AIData :=
  (getAIExplanation env code language msgs (initial ∅)).1.

#[global] Arguments getAIExplanation : simpl never.

(** ** States along a run *)

(** The state after the linter has been called. *)
Definition linted (code : string) (s : State) : State :=
  mkState (files s) (trace s ++ [EvLintText code]).

(** The state after [fs.unlink(path)] has been tried. *)
Definition unlinked (env : Env) (path : string) (s : State) : State :=
  mkState (if fs_unlink env path then files s ∖ {[path]} else files s)
    (trace s ++ [EvUnlink path]).

(** The state in which the ['close'] handler of a child starts: the source
    file is written, the child has been spawned and has created its files. *)
Definition spawned (path data command : string) (args created : list string)
    (s : State) : State :=
  mkState (files s ∪ list_to_set [path] ∪ list_to_set created)
    ((trace s ++ [EvWriteFile path data]) ++ [EvSpawn command args]).

(** The state after a write that failed. *)
Definition write_failed (path data : string) (leftover : bool) (s : State) : State :=
  mkState (if leftover then files s ∪ list_to_set [path] else files s)
    (trace s ++ [EvWriteFile path data]).

(** The state after the source file is written and [spawn] is called. *)
Definition spawning (path data command : string) (args : list string)
    (s : State) : State :=
  mkState (files s ∪ list_to_set [path])
    ((trace s ++ [EvWriteFile path data]) ++ [EvSpawn command args]).

(** The state after [fsSync.existsSync(path)]. *)
Definition probed (path : string) (s : State) : State :=
  mkState (files s) (trace s ++ [EvExistsSync path]).

(** The state after the removals at the head of the ['close'] handler. *)
Definition cpp_cleaned (env : Env) (src exe : string) (exitCode : option Z)
    (s : State) : State :=
  let s1 := unlinked env src s in
  if bool_decide (exitCode = Some 0) then unlinked env exe s1
  else if bool_decide (exe ∈ files s1) then unlinked env exe (probed exe s1)
  else probed exe s1.

(** The state after the removals of the ['error'] handler and of the outer
    [catch] block. *)
Definition cpp_both_unlinked (env : Env) (src exe : string) (s : State) : State :=
  let s1 := if Str.truthy src then unlinked env src s else s in
  if Str.truthy exe then unlinked env exe s1 else s1.

(** The same machine with another behaviour of [fs.unlink]. *)
Definition with_unlink (unlink : string → bool) (env : Env) : Env :=
  mkEnv (model env) (JSON_parse env) (ESLint_lintText env) (os_tmpdir env)
    (path_join env) (path_resolve_dirname env) (Date_now env)
    (fs_writeFile env) unlink (spawn env).

(** ** How the promise of each strategy settles *)

Definition eslint_failure (error : Exn) : AnalysisResult :=
  Failure "Failed to run ESLint. Check server logs for details."
    (Some (exn_message error)).

(** [fixedCode]: the output of the first result when it has one. *)
Definition eslint_fixedCode (code : string) (results : list Lint.Result) : string :=
  match results with
  | r :: _ => default code (Lint.output r)
  | [] => code
  end.

(** The arguments of the [pylint] command. *)
Definition pylint_args (env : Env) : list string :=
  [ pylint_tempFilePath env; "--output-format=json";
    "--rcfile=" +:+ path_resolve_dirname env "../.pylintrc" ].

Definition pylint_parse_failure (stdout stderr message : string) : Settled :=
  Resolved (Failure "Failed to parse Pylint output."
              (Some (Str.or_else stdout (Str.or_else stderr message)))).

Definition pylint_missing : Settled :=
  Resolved (Failure
    "Pylint is not installed or not in your system's PATH. Please install it (e.g., 'pip install pylint')."
    None).

(** How the promise of the Pylint strategy settles, as a function of what
    the outside world answers; the behaviour of [fs.unlink] is not among
    the things it reads. *)
Definition pylint_parse_outcome (env : Env) (code stdout stderr : string) : Settled :=
  match JSON_parse env (Str.or_else stdout "[]") with
  | inr message => pylint_parse_failure stdout stderr message
  | inl pylintResults =>
      match formatPylintResults pylintResults with
      | Throw e => pylint_parse_failure stdout stderr (exn_message e)
      | Normal [] =>
          Resolved (Success [mkFileAnalysis "<text>" []] code nullAIData)
      | Normal (d :: ds) =>
          match augmenter_result env code "python" (map OfPylint (d :: ds)) with
          | Normal ai =>
              Resolved (Success
                [mkFileAnalysis "<text>" (map OfPylint (d :: ds))] code ai)
          | Throw e => pylint_parse_failure stdout stderr (exn_message e)
          end
      end
  end.

Definition pylint_close_outcome_of (env : Env) (code stdout stderr : string)
  : Settled :=
  if pylint_not_installed stderr then pylint_missing
  else if Str.truthy stderr && negb (Str.truthy stdout) then
    Resolved (Failure ("Pylint encountered an error: " +:+ Str.trim stderr) None)
  else pylint_parse_outcome env code stdout stderr.

Definition pylint_setup_failure (error : Exn) : Settled :=
  Resolved (Failure "Failed to prepare Python code for analysis."
              (Some (exn_message error))).

Definition pylint_rejection (err : Exn) : Settled :=
  Rejected (Error ("Failed to run Pylint: " +:+ exn_message err
                   +:+ ". Is Pylint installed and in your PATH?")).

Definition pylint_outcome (env : Env) (code : string) : Settled :=
  match fs_writeFile env (pylint_tempFilePath env) code with
  | WriteFailed e _ => pylint_setup_failure e
  | Written =>
      match spawn env "pylint" (pylint_args env) with
      | SpawnThrows e => pylint_setup_failure e
      | EmitsError err _ closeFirst =>
          if closeFirst && Str.truthy (pylint_tempFilePath env)
          then settle_first (pylint_close_outcome_of env code "" "")
                 (pylint_rejection err)
          else pylint_rejection err
      | Closes _ stdout stderr _ => pylint_close_outcome_of env code stdout stderr
      end
  end.

(** The arguments of the [g++] command. *)
Definition cpp_args (env : Env) : list string :=
  [ cpp_tempCppFilePath env; "-o"; cpp_tempExecutablePath env; "-std=c++11";
    "-Wall"; "-Wextra" ].

Definition gpp_missing : Settled :=
  Resolved (Failure
    "g++ compiler is not installed or not in your system's PATH. Please install it."
    None).

(** The condition under which the ['close'] handler calls the augmenter. *)
Definition cpp_calls_augmenter (exitCode : option Z) (stderr : string) : bool :=
  bool_decide (0 < length (map OfCpp (parseCppStderr stderr)))%nat
  || negb (bool_decide (exitCode = Some 0)).

(** How the promise of the compiler strategy settles, as a function of what
    the outside world answers. *)
Definition cpp_close_outcome_of (env : Env) (code : string)
    (exitCode : option Z) (stderr : string) : Settled :=
  let formattedMessages := map OfCpp (parseCppStderr stderr) in
  if gpp_not_installed stderr then gpp_missing
  else if cpp_calls_augmenter exitCode stderr then
    match augmenter_result env code "c++" formattedMessages with
    | Normal ai =>
        Resolved (Success [mkFileAnalysis "<text>" formattedMessages] code ai)
    | Throw _ => Pending
    end
  else
    Resolved (Success [mkFileAnalysis "<text>" formattedMessages] code nullAIData).

Definition cpp_setup_failure (error : Exn) : Settled :=
  Resolved (Failure "Failed to prepare C++ code for analysis."
              (Some (exn_message error))).

Definition cpp_rejection (err : Exn) : Settled :=
  Rejected (Error ("Failed to run g++: " +:+ exn_message err
                   +:+ ". Is g++ installed and in your PATH?")).

Definition cpp_outcome (env : Env) (code : string) : Settled :=
  match fs_writeFile env (cpp_tempCppFilePath env) code with
  | WriteFailed e _ => cpp_setup_failure e
  | Written =>
      match spawn env "g++" (cpp_args env) with
      | SpawnThrows e => cpp_setup_failure e
      | EmitsError err exitCode closeFirst =>
          if closeFirst
             && (Str.truthy (cpp_tempCppFilePath env)
                 || Str.truthy (cpp_tempExecutablePath env))
          then settle_first (cpp_close_outcome_of env code exitCode "")
                 (cpp_rejection err)
          else cpp_rejection err
      | Closes exitCode _ stderr _ => cpp_close_outcome_of env code exitCode stderr
      end
  end.

(** [fixedCode] of a result, when it has the success shape. *)
Definition fixedCode_of (r : AnalysisResult) : option string :=
  match r with Success _ code _ => Some code | Failure _ _ => None end.

Definition unsupported (language : string) : AnalysisResult :=
  Failure ("Unsupported language for debugging: " +:+ language +:+ ".") None.

(** The tags the dispatcher knows, compared after [toLowerCase]. *)
Definition supported_tags : list string := ["javascript"; "python"; "c++"; "cpp"].

(** ** The shape of diagnostics *)

(** The severity of a diagnostic is one of the two words. *)
Definition severity_is_error_or_warning (d : Diagnostic) : Prop :=
  Diag.severity d = JStr "error" ∨ Diag.severity d = JStr "warning".

(** A value that is a string with at least one character. *)
Definition nonempty_string (v : JSValue) : Prop :=
  ∃ s, v = JStr s ∧ s ≠ "".

(** The invariant as the specification states it, for any strategy. *)
Definition normalized (d : Diagnostic) : Prop :=
  severity_is_error_or_warning d
  ∧ nonempty_string (Diag.errorExplanation d)
  ∧ nonempty_string (Diag.errorSuggestion d).

(** ** Sample inputs *)

Definition posix_join (a b : string) : string := a +:+ "/" +:+ b.

(** An environment on a POSIX machine: every write and removal succeeds and
    every spawned command ends as [child]. *)
Definition sample_env (model : option (string → Completion string))
    (parse : string → JSValue + string)
    (lint : string → Completion (list Lint.Result))
    (child : ChildProcess) : Env :=
  mkEnv model parse lint "/tmp" posix_join (λ rel, "/srv/app/utils/" +:+ rel)
    (λ n, 1700000000000 + Z.of_nat n) (λ _ _, Written) (λ _, true)
    (λ _ _, child).

(** What Pylint prints for a module without a docstring. *)
Definition sample_pylint_stdout : string :=
  "[{" +:+ Str.dq +:+ "type" +:+ Str.dq +:+ ": " +:+ Str.dq +:+ "convention"
  +:+ Str.dq +:+ ", " +:+ Str.dq +:+ "module" +:+ Str.dq +:+ ": " +:+ Str.dq
  +:+ "m" +:+ Str.dq +:+ ", " +:+ Str.dq +:+ "line" +:+ Str.dq +:+ ": 1, "
  +:+ Str.dq +:+ "column" +:+ Str.dq +:+ ": 0, " +:+ Str.dq +:+ "symbol"
  +:+ Str.dq +:+ ": " +:+ Str.dq +:+ "missing-module-docstring" +:+ Str.dq
  +:+ ", " +:+ Str.dq +:+ "message" +:+ Str.dq +:+ ": " +:+ Str.dq
  +:+ "Missing module docstring" +:+ Str.dq +:+ "}]".

Definition sample_pylint_record : JSValue :=
  JObj [ ("type", JStr "convention"); ("module", JStr "m"); ("line", JNum 1);
         ("column", JNum 0); ("symbol", JStr "missing-module-docstring");
         ("message", JStr "Missing module docstring") ].

(** [JSON.parse] on the texts of the samples. *)
Definition sample_parse (text : string) : JSValue + string :=
  if bool_decide (text = sample_pylint_stdout) then inl (JArr [sample_pylint_record])
  else if bool_decide (text = "[]") then inl (JArr [])
  else inr "Unexpected token in JSON".

(** A model that answers every prompt with a small JSON object. *)
Definition sample_model : string → Completion string :=
  λ _, Normal "{}".

Definition sample_no_lint : string → Completion (list Lint.Result) :=
  λ _, Normal [Lint.mkResult [] None].

(** A model whose requests fail in transport. *)
Definition sample_failing_model : string → Completion string :=
  λ _, Throw (Error "fetch failed").

(** A linter message with a rule identifier the table does not list, whose
    text contains the table key [semi]. *)
Definition sample_semicolon_message : Lint.Message :=
  Lint.mkMessage (Some "no-extra-semi") 2 "Unnecessary semicolon."
    (JNum 1) (JNum 11) (JStr "EmptyStatement") None.

(** A machine with a configured model, on which the linter finds nothing. *)
Definition sample_clean_env : Env :=
  sample_env (Some sample_model) sample_parse sample_no_lint
    (EmitsError (Error "spawn ENOENT") (Some (-2)) false).

Definition sample_pylint_diagnostic : PyDiag.t :=
  PyDiag.mk (JStr "convention") (JStr "m") (JStr "missing-module-docstring")
    (JStr "Missing module docstring") (JNum 1) (JNum 0) JUndefined JUndefined
    "Pylint found a 'convention' type issue: Missing module docstring."
    "Review the Python code at line 1, column 0. Consult Pylint documentation for rule 'missing-module-docstring'.".

(** Pylint reports one record; with or without a configured model. *)
Definition sample_pylint_env (model : option (string → Completion string)) : Env :=
  sample_env model sample_parse sample_no_lint
    (Closes (Some 16) sample_pylint_stdout "" []).

(** Two lines of compiler output: one with a location, one without. *)
Definition sample_cpp_stderr : string :=
  "/tmp/temp_cpp_code_1700000000000.cpp:3:5: error: expected ';' before '}' token"
  +:+ Str.nl +:+ "foo.cpp: In function 'main': error: expected ';'" +:+ Str.nl.

(** The compiler fails with the two lines above; a model is configured. *)
Definition sample_cpp_env : Env :=
  sample_env (Some sample_model) sample_parse sample_no_lint
    (Closes (Some 1) "" sample_cpp_stderr []).

Definition sample_cpp_diagnostics : list Diagnostic :=
  [ OfCpp (CppDiag.mk "/tmp/temp_cpp_code_1700000000000.cpp" 3 5 "error"
             "expected ';' before '}' token" "g++-compilation");
    OfCpp (CppDiag.mk "<text>" 0 0 "error"
             "foo.cpp: In function 'main': error: expected ';'"
             "g++-compilation") ].

(** The same compiler output on a machine whose model cannot be reached. *)
Definition sample_failing_env : Env :=
  sample_env (Some sample_failing_model) sample_parse sample_no_lint
    (Closes (Some 1) "" sample_cpp_stderr []).

(** A located diagnostic of the compiler strategy. *)
Definition sample_cpp_located : Diagnostic :=
  OfCpp (CppDiag.mk "/tmp/temp_cpp_code_1700000000000.cpp" 3 5 "error"
           "expected ';' before '}' token" "g++-compilation").

(** ** Further definitions used in the statements *)

(** The character [c] does not occur in [s]. *)
Definition no_char (c : ascii) (s : string) : bool :=
  all_chars (λ x, negb (bool_decide (x = c))) s.

(** The suggestion returned with an answer that holds no JSON text. *)
Definition unparsed_answer (text : string) : AIData :=
  mkAIData (JStr text)
    (JStr "Could not parse AI response into JSON. Check original AI response.")
    JNull.

(** The three fields as they are read from the value [JSON.parse] returns;
    reading them from [null] throws inside the [try] block. *)
Definition answer_fields (v : JSValue) : AIData :=
  match v with
  | JUndefined | JNull => nullAIData
  | JObj props =>
      mkAIData (default JUndefined (Js.assoc "explanation" props))
        (default JUndefined (Js.assoc "suggestion" props))
        (default JUndefined (Js.assoc "fixedCode" props))
  | _ => mkAIData JUndefined JUndefined JUndefined
  end.

(** What the augmenter makes of the text the model answers. *)
Definition answer_data (env : Env) (text : string) : AIData :=
  let jsonText := extract_json_text text in
  if bool_decide (Str.trim jsonText = "") then unparsed_answer text
  else match JSON_parse env jsonText with
       | inl v => answer_fields v
       | inr _ => nullAIData
       end.

(** An answer in which the JSON object is surrounded by prose. *)
Definition sample_answer : string :=
  "Here is my analysis: {" +:+ Str.dq +:+ "explanation" +:+ Str.dq +:+ ": "
  +:+ Str.dq +:+ "A semicolon is missing." +:+ Str.dq +:+ "} Good luck.".

Definition sample_answer_object : string :=
  "{" +:+ Str.dq +:+ "explanation" +:+ Str.dq +:+ ": "
  +:+ Str.dq +:+ "A semicolon is missing." +:+ Str.dq +:+ "}".

(** An answer in which the JSON object is in a fenced block. *)
Definition sample_fenced_answer : string :=
  "Sure {see below}:" +:+ Str.nl +:+ "```json" +:+ Str.nl
  +:+ sample_answer_object +:+ Str.nl +:+ "```" +:+ Str.nl +:+ "Done.".

(** [JSON.parse] on the object of the sample answers. *)
Definition sample_answer_parse (text : string) : JSValue + string :=
  if bool_decide (text = sample_answer_object)
  then inl (JObj [("explanation", JStr "A semicolon is missing.")])
  else inr "Unexpected token in JSON".

(** A machine whose model gives the answer [text] to every prompt, and on
    which the compiler fails as in [sample_cpp_env]. *)
Definition sample_answering_env (text : string) : Env :=
  sample_env (Some (λ _, Normal text)) sample_answer_parse sample_no_lint
    (Closes (Some 1) "" sample_cpp_stderr []).

Definition is_lintText (e : Event) : bool :=
  match e with EvLintText _ => true | _ => false end.

(** All the messages of the linter, result after result. *)
Definition lint_messages (results : list Lint.Result) : list Lint.Message :=
  concat (map Lint.messages results).

(** What a diagnostic of the in-process strategy keeps of its message. *)
Definition keeps_message (msg : Lint.Message) (d : Diagnostic) : Prop :=
  Diag.ruleId d = Js.of_option_string (Lint.ruleId msg)
  ∧ Diag.message d = JStr (Lint.message msg)
  ∧ Diag.line d = Lint.line msg
  ∧ Diag.column d = Lint.column msg
  ∧ Diag.severity d
    = JStr (if bool_decide (Lint.severity msg = 2) then "error" else "warning").

(** A machine without a configured model, on which the linter reports one
    message and repairs the code. *)
Definition sample_lint_env : Env :=
  sample_env None sample_parse
    (λ _, Normal [Lint.mkResult [sample_semicolon_message] (Some "let x = 5;")])
    (EmitsError (Error "spawn ENOENT") (Some (-2)) false).

(** What the in-process strategy resolves with on [sample_lint_env]. *)
Definition sample_lint_result : AnalysisResult :=
  Success
    [mkFileAnalysis "<text>"
       [OfEsLint (EsDiag.mk (Some "no-extra-semi") "error"
                    "Unnecessary semicolon." (JNum 1) (JNum 11)
                    (JStr "EmptyStatement") []
                    (Some (explanation genericExplanation))
                    (Some (suggestion genericExplanation)))]]
    "let x = 5;" nullAIData.

(** A machine on which a temporary file cannot be written. *)
Definition sample_readonly_env : Env :=
  mkEnv None sample_parse sample_no_lint "/tmp" posix_join
    (λ rel, "/srv/app/utils/" +:+ rel) (λ n, 1700000000000 + Z.of_nat n)
    (λ _ _, WriteFailed (Error "EROFS: read-only file system") false)
    (λ _, true) (λ _ _, EmitsError (Error "spawn ENOENT") (Some (-2)) false).

(** A machine on which the compiler succeeds and leaves its executable. *)
Definition sample_compiling_env : Env :=
  sample_env None sample_parse sample_no_lint
    (Closes (Some 0) "" "" ["/tmp/temp_cpp_executable_1700000000001"]).

(** A machine on which a child cannot be started (no process is left to
    give), without a configured model; [closeFirst] as in [EmitsError]. *)
Definition sample_unstartable_env (closeFirst : bool) : Env :=
  sample_env None sample_parse sample_no_lint
    (EmitsError (Error "spawn /bin/sh EAGAIN") (Some (-11)) closeFirst).

(** A POSIX machine without the compiler: the shell that [spawn] starts
    says so and exits with the code 127. *)
Definition sample_no_compiler_env : Env :=
  sample_env None sample_parse sample_no_lint
    (Closes (Some 127) "" ("/bin/sh: 1: g++: not found" +:+ Str.nl) []).

(** The shell reports that the compiler is missing. *)
Definition sample_missing_gpp_env : Env :=
  sample_env (Some sample_model) sample_parse sample_no_lint
    (Closes (Some 127) "" "zsh: command not found: g++" []).

(** ** The request handler *)

(** The response to a request whose analysis ended as [run]. *)
Definition answered (run : Settled * State) : option Response * State :=
  (send_result run.1, run.2).

(** The response to a request that is turned down. *)
Definition bad_request (error : string) : option Response :=
  Some (mkResponse 400 (ErrorBody error None)).

(** A request that uploads the file [name] with the content [data]. *)
Definition upload (name data : string) (body : JSValue) : Request :=
  mkRequest (Some (mkUploadedFile name data)) body.

(** A request that carries the properties [props] in its body. *)
Definition pasted (props : list (string * JSValue)) : Request :=
  mkRequest None (JObj props).

(** The same machine on which every spawned command ends as [child]. *)
Definition with_child (child : ChildProcess) (env : Env) : Env :=
  mkEnv (model env) (JSON_parse env) (ESLint_lintText env) (os_tmpdir env)
    (path_join env) (path_resolve_dirname env) (Date_now env)
    (fs_writeFile env) (fs_unlink env) (λ _ _, child).

(** A machine that can clean up after itself in the state [s]: the three
    temporary paths are not empty and name no existing file, [fs.unlink]
    manages to remove them, Pylint creates no file and the compiler creates
    no file other than its executable. *)
Definition tidy (env : Env) (s : State) : Prop :=
  (pylint_tempFilePath env ≠ "" ∧ cpp_tempCppFilePath env ≠ ""
   ∧ cpp_tempExecutablePath env ≠ "")
  ∧ ((pylint_tempFilePath env ∉ files s) ∧ (cpp_tempCppFilePath env ∉ files s)
     ∧ (cpp_tempExecutablePath env ∉ files s))
  ∧ (fs_unlink env (pylint_tempFilePath env) = true
     ∧ fs_unlink env (cpp_tempCppFilePath env) = true
     ∧ fs_unlink env (cpp_tempExecutablePath env) = true)
  ∧ (∀ exitCode stdout stderr created,
       spawn env "pylint" (pylint_args env)
       = Closes exitCode stdout stderr created → created = [])
  ∧ (∀ exitCode stdout stderr created,
       spawn env "g++" (cpp_args env) = Closes exitCode stdout stderr created →
       ∀ p, p ∈ created → p = cpp_tempExecutablePath env).

(** A machine with both tools: Pylint reports one record, the compiler
    succeeds and leaves its executable. *)
Definition sample_tools_env : Env :=
  mkEnv None sample_parse sample_no_lint "/tmp" posix_join
    (λ rel, "/srv/app/utils/" +:+ rel) (λ n, 1700000000000 + Z.of_nat n)
    (λ _ _, Written) (λ _, true)
    (λ command _,
       if bool_decide (command = "g++")
       then Closes (Some 0) "" "" ["/tmp/temp_cpp_executable_1700000000001"]
       else Closes (Some 16) sample_pylint_stdout "" []).

(** ** Tactics *)

Ltac not_prototype_key :=
  let H := fresh in
  intros H; apply (bool_decide_pack _) in H; vm_compute in H; exact H.

Ltac unfold_M :=
  unfold mbind, M_bind, mret, M_ret, bind, ret, throw, try_catch, lift, emit,
    gets, add_files, remove_file in *.

Ltac in_trace :=
  repeat first [ rewrite elem_of_app | rewrite list_elem_of_singleton
               | rewrite elem_of_cons ];
  tauto.

Ltac after_unlink :=
  let Hu := fresh "Hu" in
  unfold unlinked; simpl;
  split; [in_trace | intros Hu; rewrite Hu; set_solver].

(* ===================================================================== *)
(** * Properties *)
(* ===================================================================== *)

(** ** Strings *)

Example split_lines_ex :
  Str.split_lines ("a" +:+ Str.nl +:+ "b" +:+ Str.nl) = ["a"; "b"; ""].
Proof. reflexivity. Qed.

Example trim_ex : Str.trim "  x y  " = "x y".
Proof. reflexivity. Qed.

Example lower_ex : Str.toLowerCase "JavaScript C++" = "javascript c++".
Proof. reflexivity. Qed.

Example substring_ex : Str.substring 3 0 "abc{def" = "abc".
Proof. reflexivity. Qed.

Example lastIndexOf_ex : Str.lastIndexOf "{a}{b}" "}" = 5.
Proof. reflexivity. Qed.

Example toString_arr :
  Js.toString (JArr [JNum 1; JNull; JStr "a"; JArr [JNum (-2); JBool true]])
  = "1,,a,-2,true".
Proof. reflexivity. Qed.

Lemma app_cons (c : ascii) (s t : string) :
  String c s +:+ t = String c (s +:+ t).
Proof. reflexivity. Qed.

Lemma app_empty_l (s : string) : "" +:+ s = s.
Proof. reflexivity. Qed.

Lemma app_empty_r (s : string) : s +:+ "" = s.
Proof. induction s as [|c s IH]; [done|]. by rewrite app_cons, IH. Qed.

Lemma app_assoc_str (a b c : string) : (a +:+ b) +:+ c = a +:+ b +:+ c.
Proof. induction a as [|x a IH]; [done|]. by rewrite !app_cons, IH. Qed.

Lemma truthy_true (s : string) : Str.truthy s = true ↔ s ≠ "".
Proof. destruct s; simpl; split; intros; congruence. Qed.

Lemma truthy_false (s : string) : Str.truthy s = false ↔ s = "".
Proof. destruct s; simpl; split; intros; congruence. Qed.

Lemma truthy_app_l (a b : string) :
  Str.truthy a = true → Str.truthy (a +:+ b) = true.
Proof. destruct a; [done|]. by rewrite app_cons. Qed.

Lemma or_else_empty (b : string) : Str.or_else "" b = b.
Proof. reflexivity. Qed.

Lemma or_else_truthy (a b : string) : a ≠ "" → Str.or_else a b = a.
Proof. by destruct a. Qed.

Lemma starts_with_app (k s : string) : Str.starts_with k (k +:+ s) = true.
Proof.
  induction k as [|c k IH]; [done|].
  rewrite app_cons. simpl. rewrite bool_decide_eq_true_2 by done. exact IH.
Qed.

Lemma starts_with_sound (k s : string) :
  Str.starts_with k s = true → s = k +:+ Str.drop (String.length k) s.
Proof.
  revert s. induction k as [|c k IH]; intros s H; [done|].
  destruct s as [|d s]; [done|]. simpl in H.
  apply andb_true_iff in H as [Hc Hk]. apply bool_decide_eq_true in Hc as ->.
  simpl. rewrite app_cons. f_equal. by apply IH.
Qed.

Lemma trim_start_sound (s : string) :
  ∃ ws, s = ws +:+ Str.trim_start s ∧ all_chars Str.is_space ws = true.
Proof.
  induction s as [|c s (ws & IH & Hws)].
  - by exists "".
  - simpl. destruct (Str.is_space c) eqn:Hc.
    + exists (String c ws). rewrite app_cons, <- IH. simpl. by rewrite Hc.
    + by exists "".
Qed.

Lemma includes_app (a k b : string) : Str.includes (a +:+ k +:+ b) k = true.
Proof.
  induction a as [|c a IH].
  - rewrite app_empty_l. destruct (k +:+ b) eqn:E; simpl;
      rewrite <- E, starts_with_app; done.
  - rewrite app_cons. simpl. rewrite IH. apply orb_true_r.
Qed.

(** ** The location pattern *)

Lemma literal_sound (k s rest : string) :
  Re.literal k s = Some rest → s = k +:+ rest.
Proof.
  unfold Re.literal. destruct (Str.starts_with k s) eqn:E; [|done].
  intros [= <-]. by apply starts_with_sound.
Qed.

Lemma digits_sound (s : string) :
  s = (Re.digits s).1 +:+ (Re.digits s).2
  ∧ all_chars Str.is_digit (Re.digits s).1 = true.
Proof.
  induction s as [|c s [IH1 IH2]]; [done|]. simpl.
  destruct (Str.is_digit c) eqn:Hc; [|done].
  destruct (Re.digits s) as [ds rest]. simpl in *.
  rewrite app_cons, <- IH1, Hc. done.
Qed.

Lemma number_colon_sound (s ds rest : string) :
  Re.number_colon s = Some (ds, rest) →
  s = ds +:+ ":" +:+ rest ∧ ds ≠ "" ∧ all_chars Str.is_digit ds = true.
Proof.
  unfold Re.number_colon. pose proof (digits_sound s) as [H1 H2].
  destruct (Re.digits s) as [d r]. simpl in *.
  destruct (Str.truthy d) eqn:Hd; [|done].
  destruct (Re.literal ":" r) as [r'|] eqn:Hr; [|done]. simpl.
  intros [= <- <-]. apply literal_sound in Hr as ->.
  split; [done|]. split; [by apply truthy_true|done].
Qed.

Lemma severity_sound (s sev rest : string) :
  Re.severity s = Some (sev, rest) →
  s = sev +:+ rest ∧ (sev = "error" ∨ sev = "warning").
Proof.
  unfold Re.severity. destruct (Re.literal "error" s) as [r|] eqn:He.
  - intros [= <- <-]. apply literal_sound in He. auto.
  - destruct (Re.literal "warning" s) as [r|] eqn:Hw; [|done]. simpl.
    intros [= <- <-]. apply literal_sound in Hw. auto.
Qed.

(** What a match of the part after the first capture says about the text. *)
Lemma tail_sound (s l c sev msg : string) :
  Re.tail s = Some (l, c, sev, msg) →
  ∃ ws1 ws2,
    s = ":" +:+ l +:+ ":" +:+ c +:+ ":" +:+ ws1 +:+ sev +:+ ":" +:+ ws2 +:+ msg
    ∧ l ≠ "" ∧ all_chars Str.is_digit l = true
    ∧ c ≠ "" ∧ all_chars Str.is_digit c = true
    ∧ all_chars Str.is_space ws1 = true
    ∧ (sev = "error" ∨ sev = "warning")
    ∧ all_chars Str.is_space ws2 = true
    ∧ Re.has_line_terminator msg = false.
Proof.
  unfold Re.tail. intros H.
  destruct (Re.literal ":" s) as [s1|] eqn:H1; [|done]. simpl in H.
  destruct (Re.number_colon s1) as [[l' s2]|] eqn:H2; [|done]. simpl in H.
  destruct (Re.number_colon s2) as [[c' s3]|] eqn:H3; [|done]. simpl in H.
  destruct (Re.severity (Str.trim_start s3)) as [[sev' s4]|] eqn:H4; [|done].
  simpl in H.
  destruct (Re.literal ":" s4) as [s5|] eqn:H5; [|done]. simpl in H.
  destruct (Re.has_line_terminator (Str.trim_start s5)) eqn:H6; [done|].
  injection H as <- <- <- <-.
  apply literal_sound in H1. apply literal_sound in H5.
  apply number_colon_sound in H2 as (E2 & ? & ?).
  apply number_colon_sound in H3 as (E3 & ? & ?).
  apply severity_sound in H4 as (E4 & ?).
  destruct (trim_start_sound s3) as (ws1 & E5 & ?).
  destruct (trim_start_sound s5) as (ws2 & E6 & ?).
  exists ws1, ws2. split_and!; try done.
  rewrite H1, E2, E3, E5, E4, H5. by rewrite <- E6.
Qed.

(** A match decomposes the line into the five captures and the separators
    between them; the first capture holds no line terminator. *)
Lemma location_sound (line : string) (m : LocationMatch) :
  Re.location line = Some m →
  Re.has_line_terminator (m_path m) = false
  ∧ ∃ rest, line = m_path m +:+ rest
      ∧ Re.tail rest = Some (m_line m, m_column m, m_severity m, m_message m).
Proof.
  revert m. induction line as [|ch line IH]; intros m; simpl.
  - done.
  - destruct (Re.tail (String ch line)) as [[[[l c] sev] msg]|] eqn:Ht.
    + intros [= <-]. simpl. split; [done|]. by exists (String ch line).
    + destruct (Str.is_line_terminator ch) eqn:Hch; [done|].
      destruct (Re.location line) as [m'|] eqn:Hm; [|done]. simpl.
      intros [= <-]. simpl.
      destruct (IH m' eq_refl) as (Hlt & rest & -> & Hrest).
      split; [by rewrite Hch|]. exists rest. by rewrite app_cons.
Qed.

(** The first capture is the shortest prefix after which the rest of the
    line matches. *)
Lemma location_shortest (path rest : string) (l c sev msg : string) :
  Re.has_line_terminator path = false →
  (∀ p q, path = p +:+ q → q ≠ "" → Re.tail (q +:+ rest) = None) →
  Re.tail rest = Some (l, c, sev, msg) →
  Re.location (path +:+ rest) = Some (mkLocationMatch path l c sev msg).
Proof.
  induction path as [|ch path IH]; intros Hlt Hmin Ht.
  - rewrite app_empty_l. destruct rest as [|x rest]; [by vm_compute in Ht|].
    simpl. by rewrite Ht.
  - rewrite app_cons. simpl.
    rewrite <- app_cons, (Hmin "" (String ch path)) by done.
    simpl in Hlt. apply orb_false_iff in Hlt as [-> Hlt].
    rewrite IH; [done|done| |done].
    intros p q -> Hq. apply (Hmin (String ch p) q); [by rewrite app_cons|done].
Qed.

Lemma location_nonempty m : Re.location "" = Some m → False.
Proof. done. Qed.

Lemma tail_starts_with_colon ch s :
  ch ≠ ":"%char → Re.tail (String ch s) = None.
Proof.
  intros Hch. unfold Re.tail, Re.literal. simpl.
  by rewrite bool_decide_eq_false_2 by congruence.
Qed.

(** A path without a colon and without a line terminator, followed by a
    text the rest of the pattern matches, is the first capture. *)
Lemma location_of_path path rest l c sev msg :
  all_chars (λ ch, negb (bool_decide (ch = ":"%char))
                   && negb (Str.is_line_terminator ch)) path = true →
  Re.tail rest = Some (l, c, sev, msg) →
  Re.location (path +:+ rest) = Some (mkLocationMatch path l c sev msg).
Proof.
  intros Hpath Ht. apply location_shortest; [| |done].
  - induction path as [|ch path IH]; [done|]. simpl in *.
    apply andb_true_iff in Hpath as [Hch Hpath].
    apply andb_true_iff in Hch as [_ Hlt]. apply negb_true_iff in Hlt.
    rewrite Hlt. by apply IH.
  - intros p q -> Hq. destruct q as [|ch q]; [done|].
    rewrite app_cons. apply tail_starts_with_colon.
    clear Hq. induction p as [|x p IH]; simpl in Hpath.
    + apply andb_true_iff in Hpath as [Hch _].
      apply andb_true_iff in Hch as [Hch _]. apply negb_true_iff in Hch.
      by apply bool_decide_eq_false in Hch.
    + apply andb_true_iff in Hpath as [_ Hpath]. by apply IH.
Qed.

Lemma digits_app_colon (l rest : string) :
  all_chars Str.is_digit l = true →
  Re.digits (l +:+ ":" +:+ rest) = (l, ":" +:+ rest).
Proof.
  induction l as [|ch l IH]; intros Hl; [done|].
  simpl in Hl. apply andb_true_iff in Hl as [Hch Hl].
  rewrite app_cons. simpl. by rewrite Hch, IH.
Qed.

Lemma literal_app (k rest : string) : Re.literal k (k +:+ rest) = Some rest.
Proof.
  unfold Re.literal. rewrite starts_with_app. f_equal.
  induction k as [|ch k IH]; [done|]. by rewrite app_cons.
Qed.

Lemma number_colon_app (l rest : string) :
  l ≠ "" → all_chars Str.is_digit l = true →
  Re.number_colon (l +:+ ":" +:+ rest) = Some (l, rest).
Proof.
  intros Hne Hl. unfold Re.number_colon. rewrite digits_app_colon by done.
  apply truthy_true in Hne. rewrite Hne. by rewrite literal_app.
Qed.

Lemma trim_start_spaces (ws s : string) :
  all_chars Str.is_space ws = true → Str.trim_start (ws +:+ s) = Str.trim_start s.
Proof.
  induction ws as [|ch ws IH]; intros Hws; [done|].
  simpl in Hws. apply andb_true_iff in Hws as [Hch Hws].
  rewrite app_cons. simpl. by rewrite Hch, IH.
Qed.

Lemma has_line_terminator_trim_start (s : string) :
  Re.has_line_terminator s = false →
  Re.has_line_terminator (Str.trim_start s) = false.
Proof.
  induction s as [|ch s IH]; [done|]. simpl. intros H.
  apply orb_false_iff in H as [Hch Hs].
  destruct (Str.is_space ch); [by apply IH|]. simpl. by rewrite Hch, Hs.
Qed.

Lemma severity_app (sev rest : string) :
  sev = "error" ∨ sev = "warning" →
  Re.severity (Str.trim_start (sev +:+ rest)) = Some (sev, rest).
Proof. intros [-> | ->]; reflexivity. Qed.

(** The part after the first capture matches every text of its form. *)
Lemma tail_complete (l c ws1 sev ws2 msg : string) :
  l ≠ "" → all_chars Str.is_digit l = true →
  c ≠ "" → all_chars Str.is_digit c = true →
  all_chars Str.is_space ws1 = true →
  sev = "error" ∨ sev = "warning" →
  all_chars Str.is_space ws2 = true →
  Re.has_line_terminator msg = false →
  Re.tail (":" +:+ l +:+ ":" +:+ c +:+ ":" +:+ ws1 +:+ sev +:+ ":" +:+ ws2 +:+ msg)
  = Some (l, c, sev, Str.trim_start msg).
Proof.
  intros Hl1 Hl2 Hc1 Hc2 Hws1 Hsev Hws2 Hmsg. unfold Re.tail.
  rewrite literal_app. cbn [mbind option_bind].
  rewrite number_colon_app by done. cbn [mbind option_bind].
  rewrite number_colon_app by done. cbn [mbind option_bind].
  rewrite trim_start_spaces by done. rewrite severity_app by done.
  cbn [mbind option_bind]. rewrite literal_app. cbn [mbind option_bind].
  rewrite trim_start_spaces by done.
  by rewrite has_line_terminator_trim_start.
Qed.

Lemma location_complete (path rest : string) :
  Re.has_line_terminator path = false → is_Some (Re.tail rest) →
  is_Some (Re.location (path +:+ rest)).
Proof.
  intros Hpath [[[[l c] sev] msg] Ht].
  induction path as [|ch path IH].
  - rewrite app_empty_l. destruct rest as [|x rest]; [by vm_compute in Ht|].
    simpl. rewrite Ht. eauto.
  - simpl in Hpath. apply orb_false_iff in Hpath as [Hch Hpath].
    rewrite app_cons. simpl.
    destruct (Re.tail (String ch (path +:+ rest))) as [[[[l' c'] sev'] msg']|];
      [eauto|].
    rewrite Hch. destruct (IH Hpath) as [m ->]. simpl. eauto.
Qed.

(** X3.  The location pattern of [runCppAnalysis] matches a line exactly
    when the line is a first part without line terminator, a colon, digits,
    a colon, digits, a colon, optional white space, the word error or
    warning, a colon, optional white space and a message without line
    terminator. *)
Theorem location_matches_iff (line : string) :
  is_Some (Re.location line) ↔ location_line line.
Proof.
  split.
  - intros [m Hm]. destruct (location_sound _ _ Hm) as (Hpath & rest & Hl & Ht).
    destruct (tail_sound _ _ _ _ _ Ht)
      as (ws1 & ws2 & -> & ? & ? & ? & ? & ? & ? & ? & ?).
    exists (m_path m), (m_line m), (m_column m), ws1, (m_severity m), ws2,
      (m_message m). by split_and!.
  - intros (path & l & c & ws1 & sev & ws2 & msg & -> & Hpath & ? & ? & ? & ?
            & ? & ? & ? & ?).
    apply location_complete; [done|].
    rewrite tail_complete by done. eauto.
Qed.

(** ** Classification of compiler lines *)

Lemma location_severity (line : string) (m : LocationMatch) :
  Re.location line = Some m → m_severity m = "error" ∨ m_severity m = "warning".
Proof.
  intros H. apply location_sound in H as (_ & rest & _ & Ht).
  by apply tail_sound in Ht as (ws1 & ws2 & _ & _ & _ & _ & _ & _ & Hs & _).
Qed.

Lemma classifyLine_located (line : string) (m : LocationMatch) :
  Re.location line = Some m → classifyLine line = Some (locatedDiagnostic m).
Proof.
  intros H. unfold classifyLine, locatedDiagnostic. rewrite H.
  destruct (location_severity _ _ H) as [-> | ->]; done.
Qed.




Lemma classifyLine_severity line c :
  classifyLine line = Some c →
  CppDiag.severity c = "error" ∨ CppDiag.severity c = "warning".
Proof.
  unfold classifyLine. destruct (Re.location line) as [m|].
  - intros [= <-]. simpl. destruct (bool_decide _); auto.
  - destruct (Str.includes line "error:"); [intros [= <-]; auto|].
    destruct (Str.includes line "warning:"); [intros [= <-]; auto|done].
Qed.

Lemma parseCppStderr_severity stderr c :
  c ∈ parseCppStderr stderr →
  CppDiag.severity c = "error" ∨ CppDiag.severity c = "warning".
Proof.
  unfold parseCppStderr. destruct (Str.truthy stderr); [|by intros ?%elem_of_nil].
  intros (line & _ & Hc)%list_elem_of_omap. by eapply classifyLine_severity.
Qed.

Lemma classified_in_parse stderr line d :
  line ∈ Str.split_lines stderr → classifyLine line = Some d → stderr ≠ "" →
  d ∈ parseCppStderr stderr.
Proof.
  intros Hin Hd Hne. unfold parseCppStderr.
  apply truthy_true in Hne. rewrite Hne. apply list_elem_of_omap. eauto.
Qed.




(** ** The lookup: selection of the pair *)

Lemma scan_table_with_rule (msg : Lint.Message) entries d :
  ruleId_truthy (Lint.ruleId msg) = true → scan_table msg entries d = d.
Proof.
  intros H. induction entries as [|[key e] entries IH]; [done|].
  simpl. by rewrite H.
Qed.

Lemma scan_table_without_rule (msg : Lint.Message) entries d :
  ruleId_truthy (Lint.ruleId msg) = false →
  scan_table msg entries d
  = match List.find (λ p, Str.includes (Lint.message msg) p.1) entries with
    | Some p => Entry p.2
    | None => d
    end.
Proof.
  intros H. induction entries as [|[key e] entries IH]; [done|].
  simpl. rewrite H. simpl.
  by destruct (Str.includes (Lint.message msg) key).
Qed.

(** A complete description of the value bound to [explanationData]. *)
Lemma explanationData_of_spec (msg : Lint.Message) :
  explanationData_of msg
  = if ruleId_truthy (Lint.ruleId msg)
       && bool_decide (Js.assoc (default "" (Lint.ruleId msg)) errorExplanations = None)
       && bool_decide (default "" (Lint.ruleId msg) ∈ object_prototype_keys)
    then Inherited
    else Entry (lookup_by_rule_then_message msg).
Proof.
  unfold explanationData_of, lookup_by_rule_then_message, table_get.
  destruct (ruleId_truthy (Lint.ruleId msg)) eqn:Hr; cbv beta iota.
  - rewrite andb_true_l.
    destruct (Js.assoc (default "" (Lint.ruleId msg)) errorExplanations) as [e|].
    { rewrite bool_decide_eq_false_2 by done. reflexivity. }
    rewrite (bool_decide_eq_true_2 (@None ExplanationEntry = None)) by done.
    rewrite andb_true_l.
    destruct (bool_decide (default "" (Lint.ruleId msg) ∈ object_prototype_keys));
      [reflexivity|].
    rewrite scan_table_with_rule by done. reflexivity.
  - rewrite scan_table_without_rule by done. unfold first_substring_entry.
    destruct (List.find _ errorExplanations); reflexivity.
Qed.

Lemma assoc_in {A} (k : string) (l : list (string * A)) (a : A) :
  Js.assoc k l = Some a → a ∈ l.*2.
Proof.
  induction l as [|[k' a'] l IH]; [done|]. simpl.
  destruct (bool_decide (k = k')).
  - intros [= ->]. apply list_elem_of_here.
  - intros H. apply list_elem_of_further. by apply IH.
Qed.

Lemma lookup_in_table (msg : Lint.Message) :
  lookup_by_rule_then_message msg = genericExplanation
  ∨ lookup_by_rule_then_message msg ∈ errorExplanations.*2.
Proof.
  unfold lookup_by_rule_then_message, first_substring_entry.
  destruct (ruleId_truthy (Lint.ruleId msg)).
  - destruct (Js.assoc _ errorExplanations) as [e|] eqn:He; [|by left].
    right. by apply assoc_in in He.
  - destruct (List.find _ errorExplanations) as [p|] eqn:Hp; [|by left].
    right. apply List.find_some in Hp as [Hp _].
    apply list_elem_of_In in Hp.
    change (p.2 ∈ errorExplanations.*2). by apply list_elem_of_fmap_2.
Qed.

Lemma table_entries_nonempty (e : ExplanationEntry) :
  e = genericExplanation ∨ e ∈ errorExplanations.*2 →
  explanation e ≠ "" ∧ suggestion e ≠ "".
Proof.
  intros [-> | Hin]; [by split|].
  unfold errorExplanations in Hin. cbn [fmap list_fmap snd] in Hin.
  repeat (apply elem_of_cons in Hin as [-> | Hin];
          [split; intros H; vm_compute in H; discriminate H|]).
  by apply elem_of_nil in Hin.
Qed.

(** C8 (as amended).  For a linter message whose rule identifier is not the
    name of a property that every object inherits, the pair is chosen as
    follows: when the message has a rule identifier, the table entry of
    exactly that identifier, and the generic pair when the table has none
    (no substring search is made); when the message has no rule identifier,
    the first table entry, in table order, whose key occurs in the message
    text, and the generic pair when no key occurs in it. *)
Theorem eslint_lookup_selection (msg : Lint.Message)
    (Hown : ∀ r, Lint.ruleId msg = Some r → r ∉ object_prototype_keys) :
  explanationData_of msg = Entry (lookup_by_rule_then_message msg)
  ∧ (∀ r e, Lint.ruleId msg = Some r → r ≠ "" →
       Js.assoc r errorExplanations = Some e →
       lookup_by_rule_then_message msg = e)
  ∧ (∀ r, Lint.ruleId msg = Some r → r ≠ "" →
       Js.assoc r errorExplanations = None →
       lookup_by_rule_then_message msg = genericExplanation)
  ∧ (ruleId_truthy (Lint.ruleId msg) = false →
       ∀ before key e after,
         errorExplanations = before ++ (key, e) :: after →
         Forall (λ p, Str.includes (Lint.message msg) p.1 = false) before →
         Str.includes (Lint.message msg) key = true →
         lookup_by_rule_then_message msg = e)
  ∧ (ruleId_truthy (Lint.ruleId msg) = false →
       Forall (λ p, Str.includes (Lint.message msg) p.1 = false) errorExplanations →
       lookup_by_rule_then_message msg = genericExplanation).
Proof.
  split_and!.
  - rewrite explanationData_of_spec.
    destruct (Lint.ruleId msg) as [r|] eqn:Hr; [|done]. simpl.
    rewrite (bool_decide_eq_false_2 (r ∈ object_prototype_keys)) by eauto.
    by rewrite andb_false_r.
  - intros r e Hr Hne He. unfold lookup_by_rule_then_message.
    rewrite Hr. cbn [ruleId_truthy from_option id].
    apply truthy_true in Hne. by rewrite Hne, He.
  - intros r Hr Hne He. unfold lookup_by_rule_then_message.
    rewrite Hr. cbn [ruleId_truthy from_option id].
    apply truthy_true in Hne. by rewrite Hne, He.
  - intros Hr before key e after Htab Hbefore Hkey.
    unfold lookup_by_rule_then_message, first_substring_entry.
    rewrite Hr, Htab. clear Htab.
    induction Hbefore as [|p before Hp _ IH]; simpl.
    + by rewrite Hkey.
    + by rewrite Hp.
  - intros Hr Hall. unfold lookup_by_rule_then_message, first_substring_entry.
    rewrite Hr. induction Hall as [|p l Hp _ IH]; [done|].
    simpl. by rewrite Hp.
Qed.

Lemma eslint_lookup_selection_witness :
  explanationData_of sample_semicolon_message = Entry genericExplanation.
Proof.
  assert (Hown : ∀ r, Lint.ruleId sample_semicolon_message = Some r →
                      r ∉ object_prototype_keys).
  { intros r [= <-]. not_prototype_key. }
  destruct (eslint_lookup_selection sample_semicolon_message Hown)
    as (H1 & _ & H3 & _).
  rewrite H1. apply (f_equal Entry).
  apply (H3 "no-extra-semi"); first [reflexivity | done].
Defined.

(** The selection the specification words picks the [semi] entry for the
    sample, by the substring search; the code picks the generic pair. *)
Lemma eslint_lookup_counterexample :
  explanationData_of sample_semicolon_message = Entry genericExplanation
  ∧ Js.assoc "semi" errorExplanations
    = Some (lookup_as_specified sample_semicolon_message)
  ∧ lookup_as_specified sample_semicolon_message ≠ genericExplanation.
Proof.
  split_and!; [reflexivity|reflexivity|]. intros H.
  apply (f_equal explanation) in H. vm_compute in H. discriminate H.
Qed.

(** ** Traces, lists and removals *)

Lemma occurrences_app kind (t u : list Event) :
  occurrences kind (t ++ u) = (occurrences kind t + occurrences kind u)%nat.
Proof. unfold occurrences. by rewrite List.filter_app, length_app. Qed.

Lemma mapM_Normal_Forall2 {A B} (f : A → Completion B) l bs :
  mapM f l = Normal bs → Forall2 (λ a b, f a = Normal b) l bs.
Proof.
  revert bs. induction l as [|a l IH]; intros bs; simpl.
  - intros [= <-]. constructor.
  - destruct (f a) as [b|e] eqn:Hb; [|done].
    destruct (mapM f l) as [bs'|e]; [|done]. intros [= <-].
    constructor; [done|]. by apply IH.
Qed.

Lemma mapM_Normal_in {A B} (f : A → Completion B) l bs b :
  mapM f l = Normal bs → b ∈ bs → ∃ a, a ∈ l ∧ f a = Normal b.
Proof.
  revert bs. induction l as [|a l IH]; intros bs; simpl.
  - intros [= <-]. by intros ?%elem_of_nil.
  - destruct (f a) as [b'|e] eqn:Hb; [|done].
    destruct (mapM f l) as [bs'|e]; [|done]. intros [= <-].
    intros [-> | Hin]%elem_of_cons.
    + exists a. split; [apply list_elem_of_here|done].
    + destruct (IH bs' eq_refl Hin) as (a' & Ha' & Hfa').
      exists a'. split; [by apply list_elem_of_further|done].
Qed.

Lemma unlink_quiet_run env path s :
  unlink_quiet env path s = (Normal tt, unlinked env path s).
Proof. unfold unlink_quiet, unlinked. unfold_M. simpl. by destruct (fs_unlink env path). Qed.

(** ** The augmenter: when it returns and when it throws *)

(** Without a configured model the augmenter returns the three nulls, for
    any code, language and diagnostics, and does nothing but note the call. *)
Lemma getAIExplanation_unconfigured env code language msgs s :
  model env = None →
  getAIExplanation env code language msgs s
  = (Normal nullAIData, mkState (files s) (trace s ++ [EvAugment language msgs])).
Proof. intros H. unfold getAIExplanation. unfold_M. by rewrite H. Qed.

(** The augmenter touches no file, and adds to the trace its own call and
    at most one request to the model. *)
Lemma getAIExplanation_frame env code language msgs s :
  ∃ sent,
    (getAIExplanation env code language msgs s).2
    = mkState (files s) (trace s ++ EvAugment language msgs :: sent)
    ∧ (sent = [] ∨ ∃ prompt, sent = [EvSendMessage prompt]).
Proof.
  unfold getAIExplanation. unfold_M. simpl.
  destruct (model env) as [ask|]; [|exists []; auto].
  destruct (mapM issue_line msgs) as [issues|e]; simpl; [|exists []; auto].
  unfold ask_model. unfold_M. simpl.
  exists [EvSendMessage (build_prompt code language issues)].
  split; [|eauto].
  destruct (ask _) as [text|e]; simpl.
  - destruct (negb _ || _); simpl; [by rewrite <- app_assoc|].
    unfold parseJSON. destruct (JSON_parse env _) as [v|e]; simpl.
    + destruct (Js.get v "explanation"); simpl;
        [|unfold on_aiError; destruct e as [? [[?|?]|]]; by rewrite <- app_assoc].
      destruct (Js.get v "suggestion"); simpl;
        [|unfold on_aiError; destruct e as [? [[?|?]|]]; by rewrite <- app_assoc].
      destruct (Js.get v "fixedCode"); simpl;
        [|unfold on_aiError; destruct e as [? [[?|?]|]]; by rewrite <- app_assoc].
      by rewrite <- app_assoc.
    + by rewrite <- app_assoc.
  - unfold on_aiError; destruct e as [? [[?|?]|]]; by rewrite <- app_assoc.
Qed.

Lemma issue_line_normal (d : Diagnostic) :
  has_string_severity d → ∃ l, issue_line d = Normal l.
Proof. destruct d; [eauto|done|eauto]. Qed.

Lemma mapM_issue_line_normal (msgs : list Diagnostic) :
  Forall has_string_severity msgs → ∃ ls, mapM issue_line msgs = Normal ls.
Proof.
  induction 1 as [|d msgs Hd _ [ls IH]]; [by exists []|].
  destruct (issue_line_normal d Hd) as [l Hl].
  exists (l :: ls). simpl. by rewrite Hl, IH.
Qed.

(** When every diagnostic has a string severity and the errors of the model
    can be logged, the augmenter returns. *)
Lemma getAIExplanation_returns env code language msgs s :
  Forall has_string_severity msgs → loggable_errors env →
  ∃ ai, (getAIExplanation env code language msgs s).1 = Normal ai.
Proof.
  intros Hsev Hlog. unfold getAIExplanation. unfold_M. simpl.
  destruct (model env) as [ask|] eqn:Hm; [|by eexists].
  destruct (mapM_issue_line_normal msgs Hsev) as [issues ->]. simpl.
  unfold ask_model. unfold_M. simpl.
  destruct (ask _) as [text|e] eqn:Hask; simpl.
  - destruct (negb _ || _); simpl; [by eexists|].
    unfold parseJSON. destruct (JSON_parse env _) as [v|e]; simpl; [|by eexists].
    destruct v; simpl; by eexists.
  - destruct e as [m [[e|t]|]]; simpl; try by eexists.
    by destruct (Hlog ask _ m e Hm Hask).
Qed.

(** With a configured model, the augmenter throws on the diagnostics of the
    Pylint strategy, before the [try] block is entered. *)
Lemma getAIExplanation_pylint_throws env code language ask d rest s :
  model env = Some ask →
  getAIExplanation env code language (OfPylint d :: rest) s
  = (Throw (Error "Cannot read properties of undefined (reading 'toUpperCase')"),
     mkState (files s) (trace s ++ [EvAugment language (OfPylint d :: rest)])).
Proof. intros H. unfold getAIExplanation. unfold_M. by rewrite H. Qed.

Lemma getAIExplanation_result env code language msgs s :
  (getAIExplanation env code language msgs s).1
  = augmenter_result env code language msgs.
Proof.
  unfold augmenter_result, getAIExplanation. unfold_M. simpl.
  destruct (model env) as [ask|]; [|done].
  destruct (mapM issue_line msgs) as [issues|e]; simpl; [|done].
  unfold ask_model. unfold_M. simpl.
  destruct (ask _) as [text|e]; simpl.
  - destruct (negb _ || _); simpl; [done|].
    unfold parseJSON. destruct (JSON_parse env _) as [v|e]; simpl; [|done].
    destruct (Js.get v "explanation") as [?|e]; simpl;
      [|by destruct e as [? [[?|?]|]]].
    destruct (Js.get v "suggestion") as [?|e]; simpl;
      [|by destruct e as [? [[?|?]|]]].
    destruct (Js.get v "fixedCode") as [?|e]; simpl;
      [done|by destruct e as [? [[?|?]|]]].
  - by destruct e as [? [[?|?]|]].
Qed.

Lemma augmenter_result_with_unlink unlink env code language msgs :
  augmenter_result (with_unlink unlink env) code language msgs
  = augmenter_result env code language msgs.
Proof. reflexivity. Qed.

Lemma cpp_diagnostics_have_severity (ds : list CppDiag.t) :
  Forall has_string_severity (map OfCpp ds).
Proof. induction ds; by constructor. Qed.

(** X1.  When the model is not configured (no API key), the augmenter
    returns the three nulls for every code, language and list of
    diagnostics; it does not throw, touches no file and sends no request:
    its call is the only thing it adds to the trace. *)
Theorem augmenter_unconfigured_is_null env code language msgs s
    (Hnone : model env = None) :
  getAIExplanation env code language msgs s
  = (Normal (mkAIData JNull JNull JNull),
     mkState (files s) (trace s ++ [EvAugment language msgs]))
  ∧ occurrences is_request (trace (getAIExplanation env code language msgs s).2)
    = occurrences is_request (trace s).
Proof.
  rewrite getAIExplanation_unconfigured by done. split; [done|].
  simpl. rewrite occurrences_app. unfold occurrences. simpl. lia.
Qed.

Lemma augmenter_unconfigured_is_null_witness :
  getAIExplanation (sample_pylint_env None) "x = 1" "python"
    [OfPylint sample_pylint_diagnostic] (initial ∅)
  = (Normal (mkAIData JNull JNull JNull),
     mkState ∅ [EvAugment "python" [OfPylint sample_pylint_diagnostic]]).
Proof.
  exact (proj1 (augmenter_unconfigured_is_null (sample_pylint_env None) "x = 1"
                  "python" [OfPylint sample_pylint_diagnostic] (initial ∅)
                  eq_refl)).
Defined.

(** X2.  With a configured model, when the prompt can be built and the
    request fails with an error that carries no [response] (or one whose
    text can be read), the failure is caught and the augmenter returns the
    three nulls. *)
Theorem augmenter_failure_degrades_to_null env code language msgs s ask issues
    m response
    (Hmodel : model env = Some ask)
    (Hissues : mapM issue_line msgs = Normal issues)
    (Hthrows : ask (build_prompt code language issues) = Throw (MkExn m response))
    (Hlog : ∀ e, response ≠ Some (inl e)) :
  (getAIExplanation env code language msgs s).1
  = Normal (mkAIData JNull JNull JNull).
Proof.
  unfold getAIExplanation. unfold_M. simpl. rewrite Hmodel, Hissues. simpl.
  unfold ask_model. unfold_M. simpl. rewrite Hthrows. simpl.
  destruct response as [[e|t]|]; [by destruct (Hlog e)|done|done].
Qed.

Lemma augmenter_failure_degrades_to_null_witness :
  (getAIExplanation sample_failing_env "int main() { return 0 }" "c++"
     sample_cpp_diagnostics (initial ∅)).1
  = Normal (mkAIData JNull JNull JNull).
Proof.
  eapply (augmenter_failure_degrades_to_null sample_failing_env
            "int main() { return 0 }" "c++" sample_cpp_diagnostics (initial ∅)
            sample_failing_model _ "fetch failed" None eq_refl).
  - reflexivity.
  - reflexivity.
  - intros e. discriminate.
Defined.

(** ** The in-process strategy *)

(** The run of [runEsLintAnalysis], path by path. *)
Lemma runEsLintAnalysis_paths env code s :
  runEsLintAnalysis env code s
  = match ESLint_lintText env code with
    | Throw error => (Resolved (eslint_failure error), linted code s)
    | Normal results =>
        let formattedMessages := formatLintResults results in
        match formattedMessages with
        | [] =>
            (Resolved (Success [mkFileAnalysis "<text>" []]
                         (eslint_fixedCode code results) nullAIData),
             linted code s)
        | _ :: _ =>
            match getAIExplanation env code "javascript" formattedMessages
                    (linted code s) with
            | (Normal ai, s') =>
                (Resolved (Success [mkFileAnalysis "<text>" formattedMessages]
                             (eslint_fixedCode code results) ai), s')
            | (Throw error, s') => (Resolved (eslint_failure error), s')
            end
        end
    end.
Proof.
  unfold runEsLintAnalysis, async, runEsLintAnalysis_body. unfold_M. simpl.
  destruct (ESLint_lintText env code) as [results|error]; simpl; [|done].
  destruct (formatLintResults results) as [|d ds] eqn:Hf; simpl.
  - by destruct results.
  - fold (linted code s).
    destruct (getAIExplanation _ _ _ _ _) as [[ai|error] s']; [|done].
    by destruct results.
Qed.

Lemma formatLintResults_clean (results : list Lint.Result) :
  Forall (λ r, Lint.messages r = []) results → formatLintResults results = [].
Proof.
  unfold formatLintResults. induction 1 as [|r rs Hr _ IH]; [done|].
  simpl. by rewrite Hr, IH.
Qed.

Lemma in_formatLintResults d results :
  d ∈ formatLintResults results → ∃ msg, d = OfEsLint (formatLintMessage msg).
Proof.
  unfold formatLintResults. induction results as [|r rs IH]; simpl.
  - by intros ?%elem_of_nil.
  - intros [H|H]%elem_of_app; [|by apply IH].
    apply list_elem_of_fmap in H as (msg & -> & _). by exists msg.
Qed.

Lemma formatLintMessage_severity msg :
  severity_is_error_or_warning (OfEsLint (formatLintMessage msg)).
Proof.
  unfold severity_is_error_or_warning. simpl.
  destruct (Lint.severity msg =? 2); auto.
Qed.

Lemma formatLintMessage_explained msg :
  (∀ r, Lint.ruleId msg = Some r → r ∉ object_prototype_keys) →
  Diag.errorExplanation (OfEsLint (formatLintMessage msg))
  = JStr (explanation (lookup_by_rule_then_message msg))
  ∧ Diag.errorSuggestion (OfEsLint (formatLintMessage msg))
    = JStr (suggestion (lookup_by_rule_then_message msg)).
Proof.
  intros Hown. simpl. rewrite explanationData_of_spec.
  destruct (Lint.ruleId msg) as [r|] eqn:Hr; [|done].
  rewrite (bool_decide_eq_false_2 (default "" (Some r) ∈ object_prototype_keys))
    by (apply Hown; done).
  by rewrite andb_false_r.
Qed.

Lemma eslint_resolved_diagnostics env code s r :
  (runEsLintAnalysis env code s).1 = Resolved r →
  ∀ d, d ∈ diagnostics r → ∃ msg, d = OfEsLint (formatLintMessage msg).
Proof.
  rewrite runEsLintAnalysis_paths.
  destruct (ESLint_lintText env code) as [results|error]; simpl.
  - destruct (formatLintResults results) as [|d0 ds] eqn:Hf.
    + intros [= <-] d. simpl. by intros ?%elem_of_nil.
    + destruct (getAIExplanation _ _ _ _ _) as [[ai|e] s']; simpl;
        intros [= <-] d; simpl; [|by intros ?%elem_of_nil].
      rewrite app_nil_r, <- Hf. apply in_formatLintResults.
  - intros [= <-] d. simpl. by intros ?%elem_of_nil.
Qed.

(** C9.  In the JavaScript strategy, when the linter reports no violation
    for the input (no message in any result, and no rewritten text other
    than the input itself), the promise resolves with success, one group
    with an empty list of diagnostics, [fixedCode] equal to the input and
    the three AI fields null; the only external call of the run is the call
    of the linter, so the augmenter is not invoked and no request is sent
    to the model. *)
Theorem eslint_clean_code env code s results
    (Hlint : ESLint_lintText env code = Normal results)
    (Hclean : Forall (λ r, Lint.messages r = []) results)
    (Hsame : ∀ r rest, results = r :: rest →
               Lint.output r = None ∨ Lint.output r = Some code) :
  runEsLintAnalysis env code s
  = (Resolved (Success [mkFileAnalysis "<text>" []] code nullAIData),
     mkState (files s) (trace s ++ [EvLintText code]))
  ∧ (∀ r s', runEsLintAnalysis env code s = (Resolved r, s') →
       success r = true ∧ diagnostics r = []
       ∧ ai_fields r = Some (mkAIData JNull JNull JNull)
       ∧ augmenter_calls (trace s') = augmenter_calls (trace s)
       ∧ occurrences is_request (trace s') = occurrences is_request (trace s)).
Proof.
  assert (Hrun : runEsLintAnalysis env code s
    = (Resolved (Success [mkFileAnalysis "<text>" []] code nullAIData),
       mkState (files s) (trace s ++ [EvLintText code]))).
  { rewrite runEsLintAnalysis_paths, Hlint. cbv zeta.
    rewrite formatLintResults_clean by done. unfold linted. do 3 f_equal.
    destruct results as [|r rest]; [done|]. simpl.
    by destruct (Hsame r rest eq_refl) as [-> | ->]. }
  split; [exact Hrun|]. intros r s'. rewrite Hrun. intros [= <- <-].
  simpl. unfold augmenter_calls. rewrite !occurrences_app.
  unfold occurrences. simpl. split_and!; try done; lia.
Qed.

Lemma eslint_clean_code_witness :
  runEsLintAnalysis sample_clean_env "let x = 5;" (initial ∅)
  = (Resolved (Success [mkFileAnalysis "<text>" []] "let x = 5;" nullAIData),
     mkState ∅ [EvLintText "let x = 5;"]).
Proof.
  refine (proj1 (eslint_clean_code sample_clean_env "let x = 5;" (initial ∅)
                   [Lint.mkResult [] None] eq_refl _ _)).
  - by repeat constructor.
  - intros r rest [= <- <-]. by left.
Defined.

(** ** The Pylint strategy *)

Lemma runPylintAnalysis_closes env code s exitCode stdout stderr created :
  fs_writeFile env (pylint_tempFilePath env) code = Written →
  spawn env "pylint" (pylint_args env) = Closes exitCode stdout stderr created →
  runPylintAnalysis env code s
  = handler (pylint_on_close env code (pylint_tempFilePath env) stdout stderr)
      (spawned (pylint_tempFilePath env) code "pylint" (pylint_args env) created s).
Proof.
  intros Hw Hs. unfold runPylintAnalysis, pylint_setup, writeFile, spawn_child.
  fold (pylint_args env). unfold_M. simpl. rewrite Hw. simpl. rewrite Hs. done.
Qed.

Lemma pylint_not_installed_truthy stderr :
  Str.truthy stderr && pylint_not_installed stderr = pylint_not_installed stderr.
Proof. by destruct stderr. Qed.

(** The result of the [try] block of the ['close'] handler. *)
Lemma pylint_parse_result env code stdout stderr s :
  (pylint_parse env code stdout stderr s).1
  = Normal
      match JSON_parse env (Str.or_else stdout "[]") with
      | inr message => pylint_parse_failure stdout stderr message
      | inl pylintResults =>
          match formatPylintResults pylintResults with
          | Throw e => pylint_parse_failure stdout stderr (exn_message e)
          | Normal [] =>
              Resolved (Success [mkFileAnalysis "<text>" []] code nullAIData)
          | Normal (d :: ds) =>
              match (getAIExplanation env code "python"
                       (map OfPylint (d :: ds)) s).1 with
              | Normal ai =>
                  Resolved (Success
                    [mkFileAnalysis "<text>" (map OfPylint (d :: ds))] code ai)
              | Throw e => pylint_parse_failure stdout stderr (exn_message e)
              end
          end
      end.
Proof.
  unfold pylint_parse, parseJSON. unfold_M. simpl.
  destruct (JSON_parse env _) as [v|m]; simpl; [|done].
  destruct (formatPylintResults v) as [[|d ds]|e]; simpl; [done| |done].
  by destruct (getAIExplanation _ _ _ _ _) as [[ai|e] s'].
Qed.

(** The ['close'] handler of the Pylint strategy, branch by branch. *)
Lemma pylint_on_close_run env code tmp stdout stderr s :
  handler (pylint_on_close env code tmp stdout stderr) s
  = if pylint_not_installed stderr then (pylint_missing, unlinked env tmp s)
    else if Str.truthy stderr && negb (Str.truthy stdout) then
      (Resolved (Failure ("Pylint encountered an error: " +:+ Str.trim stderr) None),
       unlinked env tmp s)
    else handler (pylint_parse env code stdout stderr) (unlinked env tmp s).
Proof.
  unfold handler, pylint_on_close. unfold mbind, M_bind, bind.
  rewrite unlink_quiet_run, pylint_not_installed_truthy.
  destruct (pylint_not_installed stderr); [done|].
  by destruct (Str.truthy stderr && negb (Str.truthy stdout)).
Qed.

(** The explanation and the suggestion of a Pylint diagnostic are
    synthesised from its own fields. *)
Lemma formatPylintMessage_synthesised msg d :
  formatPylintMessage msg = Normal d →
  PyDiag.errorExplanation d
  = "Pylint found a '" +:+ Js.toString (PyDiag.type d) +:+ "' type issue: "
    +:+ Js.toString (PyDiag.message d) +:+ "."
  ∧ PyDiag.errorSuggestion d
    = "Review the Python code at line " +:+ Js.toString (PyDiag.line d)
      +:+ ", column " +:+ Js.toString (PyDiag.column d)
      +:+ ". Consult Pylint documentation for rule '"
      +:+ Js.toString (PyDiag.symbol d) +:+ "'."
  ∧ Js.get msg "type" = Normal (PyDiag.type d)
  ∧ Js.get msg "symbol" = Normal (PyDiag.symbol d)
  ∧ Js.get msg "message" = Normal (PyDiag.message d)
  ∧ Js.get msg "line" = Normal (PyDiag.line d)
  ∧ Js.get msg "column" = Normal (PyDiag.column d).
Proof.
  unfold formatPylintMessage.
  destruct (Js.get msg "type"), (Js.get msg "module"), (Js.get msg "symbol"),
    (Js.get msg "message"), (Js.get msg "line"), (Js.get msg "column"),
    (Js.get msg "endLine"), (Js.get msg "endColumn"); try done.
  by intros [= <-].
Qed.

(** The run of [runPylintAnalysis], path by path. *)
Lemma runPylintAnalysis_paths env code s :
  runPylintAnalysis env code s
  = let tmp := pylint_tempFilePath env in
    match fs_writeFile env tmp code with
    | WriteFailed e leftover =>
        handler (pylint_on_setup_error env tmp e) (write_failed tmp code leftover s)
    | Written =>
        match spawn env "pylint" (pylint_args env) with
        | SpawnThrows e =>
            handler (pylint_on_setup_error env tmp e)
              (spawning tmp code "pylint" (pylint_args env) s)
        | EmitsError err _ closeFirst =>
            pylint_on_error_then_close env code tmp err closeFirst
              (spawning tmp code "pylint" (pylint_args env) s)
        | Closes _ stdout stderr created =>
            handler (pylint_on_close env code tmp stdout stderr)
              (spawned tmp code "pylint" (pylint_args env) created s)
        end
    end.
Proof.
  unfold runPylintAnalysis, pylint_setup, writeFile, spawn_child.
  fold (pylint_args env). unfold_M. simpl.
  destruct (fs_writeFile env _ code) as [|e leftover]; simpl.
  - by destruct (spawn env "pylint" (pylint_args env)).
  - by destruct leftover.
Qed.

Lemma pylint_on_setup_error_run env tmp e s :
  handler (pylint_on_setup_error env tmp e) s
  = (Resolved (Failure "Failed to prepare Python code for analysis."
                 (Some (exn_message e))),
     if Str.truthy tmp then unlinked env tmp s else s).
Proof.
  unfold handler, pylint_on_setup_error. unfold mbind, M_bind, bind.
  destruct (Str.truthy tmp); [by rewrite unlink_quiet_run|done].
Qed.

Lemma pylint_on_error_run env tmp err s :
  handler (pylint_on_error env tmp err) s
  = (Rejected (Error ("Failed to run Pylint: " +:+ exn_message err
                      +:+ ". Is Pylint installed and in your PATH?")),
     if Str.truthy tmp then unlinked env tmp s else s).
Proof.
  unfold handler, pylint_on_error. unfold mbind, M_bind, bind.
  destruct (Str.truthy tmp); [by rewrite unlink_quiet_run|done].
Qed.

(** The [try] block of the ['close'] handler creates and removes no file
    and only extends the trace. *)
Lemma pylint_parse_frame env code stdout stderr s :
  ∃ more, (pylint_parse env code stdout stderr s).2
          = mkState (files s) (trace s ++ more).
Proof.
  unfold pylint_parse, parseJSON. unfold_M. simpl.
  destruct (JSON_parse env _) as [v|m]; simpl;
    [|exists []; rewrite app_nil_r; by destruct s].
  destruct (formatPylintResults v) as [[|d ds]|e]; simpl;
    try (exists []; rewrite app_nil_r; by destruct s).
  destruct (getAIExplanation_frame env code "python" (map OfPylint (d :: ds)) s)
    as (sent & Hs & _).
  destruct (getAIExplanation _ _ _ _ _) as [[ai|e] s']; simpl in *; subst s'; eauto.
Qed.

Lemma handler_pylint_parse env code stdout stderr s :
  handler (pylint_parse env code stdout stderr) s
  = (match (pylint_parse env code stdout stderr s).1 with
     | Normal r => r
     | Throw _ => Pending
     end,
     (pylint_parse env code stdout stderr s).2).
Proof. unfold handler. by destruct (pylint_parse _ _ _ _ _) as [[r|e] s']. Qed.

Lemma handler_pylint_parse_outcome env code stdout stderr s :
  (handler (pylint_parse env code stdout stderr) s).1
  = pylint_parse_outcome env code stdout stderr.
Proof.
  rewrite handler_pylint_parse. simpl. rewrite pylint_parse_result.
  unfold pylint_parse_outcome.
  destruct (JSON_parse env _) as [v|m]; [|done].
  destruct (formatPylintResults v) as [[|d ds]|e]; try done.
  by rewrite getAIExplanation_result.
Qed.

(** How the ['close'] handler settles, and the state it leaves: the
    removal of the temporary file, then calls that touch no file. *)
Lemma pylint_on_close_outcome env code tmp stdout stderr s :
  (handler (pylint_on_close env code tmp stdout stderr) s).1
  = pylint_close_outcome_of env code stdout stderr.
Proof.
  rewrite pylint_on_close_run. unfold pylint_close_outcome_of.
  destruct (pylint_not_installed stderr); [done|].
  destruct (Str.truthy stderr && negb (Str.truthy stdout)); [done|].
  apply handler_pylint_parse_outcome.
Qed.

Lemma pylint_on_close_state env code tmp stdout stderr s :
  ∃ more,
    (handler (pylint_on_close env code tmp stdout stderr) s).2
    = mkState (files (unlinked env tmp s)) (trace (unlinked env tmp s) ++ more).
Proof.
  rewrite pylint_on_close_run.
  destruct (pylint_not_installed stderr);
    [exists []; rewrite app_nil_r; by destruct (unlinked env tmp s)|].
  destruct (Str.truthy stderr && negb (Str.truthy stdout));
    [exists []; rewrite app_nil_r; by destruct (unlinked env tmp s)|].
  rewrite handler_pylint_parse. apply pylint_parse_frame.
Qed.

(** The run of the two handlers of a child that cannot be started. *)
Lemma pylint_on_error_then_close_run env code tmp err closeFirst s :
  pylint_on_error_then_close env code tmp err closeFirst s
  = (if closeFirst && Str.truthy tmp
     then settle_first (pylint_close_outcome_of env code "" "")
            (pylint_rejection err)
     else pylint_rejection err,
     (handler (pylint_on_close env code tmp "" "")
        (if Str.truthy tmp then unlinked env tmp s else s)).2).
Proof.
  unfold pylint_on_error_then_close. rewrite pylint_on_error_run.
  rewrite <- (pylint_on_close_outcome env code tmp "" ""
                (if Str.truthy tmp then unlinked env tmp s else s)).
  by destruct (handler (pylint_on_close env code tmp "" "") _).
Qed.

Lemma runPylintAnalysis_outcome env code s :
  (runPylintAnalysis env code s).1 = pylint_outcome env code.
Proof.
  rewrite runPylintAnalysis_paths. unfold pylint_outcome. cbv zeta.
  destruct (fs_writeFile env _ code) as [|e leftover].
  - destruct (spawn env "pylint" (pylint_args env))
      as [e|err x first|x out err created].
    + by rewrite pylint_on_setup_error_run.
    + by rewrite pylint_on_error_then_close_run.
    + apply pylint_on_close_outcome.
  - by rewrite pylint_on_setup_error_run.
Qed.

(** The files and the trace at the end of a run of the Pylint strategy:
    the removal of the temporary file has been tried, and the file is gone
    when the removal works. *)
Lemma runPylintAnalysis_cleanup env code s :
  Str.truthy (pylint_tempFilePath env) = true →
  EvUnlink (pylint_tempFilePath env) ∈ trace (runPylintAnalysis env code s).2
  ∧ (fs_unlink env (pylint_tempFilePath env) = true →
     pylint_tempFilePath env ∉ files (runPylintAnalysis env code s).2).
Proof.
  intros Htmp. rewrite runPylintAnalysis_paths. cbv zeta.
  destruct (fs_writeFile env _ code) as [|e leftover].
  - destruct (spawn env "pylint" (pylint_args env))
      as [e|err x first|x out err created].
    + rewrite pylint_on_setup_error_run, Htmp. after_unlink.
    + rewrite pylint_on_error_then_close_run, Htmp. cbn [snd].
      destruct (pylint_on_close_state env code (pylint_tempFilePath env) "" ""
                  (unlinked env (pylint_tempFilePath env)
                     (spawning (pylint_tempFilePath env) code "pylint"
                        (pylint_args env) s))) as [more ->].
      after_unlink.
    + rewrite pylint_on_close_run.
      destruct (pylint_not_installed err); [after_unlink|].
      destruct (Str.truthy err && negb (Str.truthy out)); [after_unlink|].
      rewrite handler_pylint_parse. simpl.
      destruct (pylint_parse_frame env code out err
                  (unlinked env (pylint_tempFilePath env)
                     (spawned (pylint_tempFilePath env) code "pylint"
                        (pylint_args env) created s))) as [more ->].
      after_unlink.
  - rewrite pylint_on_setup_error_run, Htmp. after_unlink.
Qed.

Lemma pylint_parse_augments env code stdout stderr s items ds :
  JSON_parse env (Str.or_else stdout "[]") = inl (JArr items) →
  mapM formatPylintMessage items = Normal ds → ds ≠ [] →
  EvAugment "python" (map OfPylint ds)
    ∈ trace (pylint_parse env code stdout stderr s).2.
Proof.
  intros Hparse Hds Hne. unfold pylint_parse, parseJSON. unfold_M. simpl.
  rewrite Hparse. simpl. rewrite Hds. destruct ds as [|d ds]; [done|]. simpl.
  destruct (getAIExplanation_frame env code "python" (map OfPylint (d :: ds)) s)
    as (sent & Hs & _).
  destruct (getAIExplanation _ _ _ _ _) as [[ai|e] s']; simpl in *; subst s';
    simpl; in_trace.
Qed.

Lemma formatPylintMessage_all_synthesised items ds :
  mapM formatPylintMessage items = Normal ds →
  Forall (λ d,
    PyDiag.errorExplanation d
    = "Pylint found a '" +:+ Js.toString (PyDiag.type d) +:+ "' type issue: "
      +:+ Js.toString (PyDiag.message d) +:+ "."
    ∧ PyDiag.errorSuggestion d
      = "Review the Python code at line " +:+ Js.toString (PyDiag.line d)
        +:+ ", column " +:+ Js.toString (PyDiag.column d)
        +:+ ". Consult Pylint documentation for rule '"
        +:+ Js.toString (PyDiag.symbol d) +:+ "'.") ds.
Proof.
  intros Hds. apply Forall_forall. intros d Hd.
  destruct (mapM_Normal_in _ _ _ _ Hds Hd) as (msg & _ & Hmsg).
  destruct (formatPylintMessage_synthesised _ _ Hmsg) as (He & Hs & _).
  by split.
Qed.

Lemma settle_first_resolved (closed : Settled) (e : Exn) (r : AnalysisResult) :
  settle_first closed (Rejected e) = Resolved r → closed = Resolved r.
Proof. by destruct closed. Qed.

Lemma pylint_close_resolved_diagnostics env code out err r :
  pylint_close_outcome_of env code out err = Resolved r →
  ∀ d, d ∈ diagnostics r →
       ∃ msg m, d = OfPylint m ∧ formatPylintMessage msg = Normal m.
Proof.
  assert (Hfail : ∀ e dt (d : Diagnostic),
            d ∈ diagnostics (Failure e dt) → ∃ msg m,
              d = OfPylint m ∧ formatPylintMessage msg = Normal m).
  { intros e dt d. simpl. by intros ?%elem_of_nil. }
  unfold pylint_close_outcome_of.
  destruct (pylint_not_installed err); [intros [= <-]; apply Hfail|].
  destruct (Str.truthy err && negb (Str.truthy out));
    [intros [= <-]; apply Hfail|].
  unfold pylint_parse_outcome.
  destruct (JSON_parse env _) as [v|m]; [|intros [= <-]; apply Hfail].
  destruct (formatPylintResults v) as [ds|e] eqn:Hds;
    [|intros [= <-]; apply Hfail].
  assert (Hin : ∀ d, d ∈ map OfPylint ds → ∃ msg m,
            d = OfPylint m ∧ formatPylintMessage msg = Normal m).
  { intros d (m & -> & Hm)%list_elem_of_fmap.
    destruct v; try done. simpl in Hds.
    destruct (mapM_Normal_in _ _ _ _ Hds Hm) as (msg & _ & Hmsg). eauto. }
  destruct ds as [|d0 ds'].
  - intros [= <-] d. simpl. by intros ?%elem_of_nil.
  - destruct (augmenter_result _ _ _ _) as [ai|e];
      intros [= <-] d; simpl; [|by intros ?%elem_of_nil].
    intros Hd. apply Hin. simpl. by rewrite app_nil_r in Hd.
Qed.

Lemma pylint_resolved_diagnostics env code s r :
  (runPylintAnalysis env code s).1 = Resolved r →
  ∀ d, d ∈ diagnostics r →
       ∃ msg m, d = OfPylint m ∧ formatPylintMessage msg = Normal m.
Proof.
  rewrite runPylintAnalysis_outcome. unfold pylint_outcome.
  assert (Hfail : ∀ e dt (d : Diagnostic),
            d ∈ diagnostics (Failure e dt) → ∃ msg m,
              d = OfPylint m ∧ formatPylintMessage msg = Normal m).
  { intros e dt d. simpl. by intros ?%elem_of_nil. }
  destruct (fs_writeFile env _ code) as [|e leftover];
    [|intros [= <-]; apply Hfail].
  destruct (spawn env "pylint" (pylint_args env))
    as [e|err x first|x out err created]; [intros [= <-]; apply Hfail| |].
  - destruct (first && Str.truthy (pylint_tempFilePath env)); [|done].
    intros H%settle_first_resolved.
    by apply (pylint_close_resolved_diagnostics env code "" "").
  - apply pylint_close_resolved_diagnostics.
Qed.

(** The branches of the ['close'] handler of the Python strategy, once
    the temporary file is written and the Pylint process has closed with
    the given stdout and stderr: when stderr carries a not-installed
    signature the result is the failure with the installation message,
    whatever stdout holds and whatever the parser would say about it;
    otherwise, when stderr is not empty and stdout is empty, the result is
    the failure whose error is stderr, trimmed, after a fixed prefix;
    otherwise stdout, or the text of the empty array when stdout is empty,
    is parsed: a syntax error, a value that is not an array, or an element
    that is null give the failure "Failed to parse Pylint output." with
    stdout, else stderr, else the message of the error as details; an array
    of records gives one diagnostic per record, with explanation and
    suggestion synthesised from the fields of the record; these diagnostics
    are what the augmenter is called with when there is at least one, and
    they are returned in a successful result whenever the augmenter is not
    configured or there is no diagnostic.  What happens when the augmenter
    is configured and there is a diagnostic is [pylint_augmenter_throws]. *)
Lemma pylint_close_branches env code s exitCode stdout stderr created
    (Hwrite : fs_writeFile env (pylint_tempFilePath env) code = Written)
    (Hspawn : spawn env "pylint" (pylint_args env)
              = Closes exitCode stdout stderr created) :
  let outcome := (runPylintAnalysis env code s).1 in
  (pylint_not_installed stderr = true → outcome = pylint_missing)
  ∧ (pylint_not_installed stderr = false → stderr ≠ "" → stdout = "" →
       outcome = Resolved (Failure
         ("Pylint encountered an error: " +:+ Str.trim stderr) None))
  ∧ (pylint_not_installed stderr = false → stderr = "" ∨ stdout ≠ "" →
       (∀ message,
          JSON_parse env (Str.or_else stdout "[]") = inr message →
          outcome = pylint_parse_failure stdout stderr message)
       ∧ (∀ v e,
            JSON_parse env (Str.or_else stdout "[]") = inl v →
            formatPylintResults v = Throw e →
            outcome = pylint_parse_failure stdout stderr (exn_message e))
       ∧ (∀ items ds,
            JSON_parse env (Str.or_else stdout "[]") = inl (JArr items) →
            mapM formatPylintMessage items = Normal ds →
            model env = None ∨ ds = [] →
            outcome = Resolved (Success
              [mkFileAnalysis "<text>" (map OfPylint ds)] code nullAIData))
       ∧ (∀ items ds,
            JSON_parse env (Str.or_else stdout "[]") = inl (JArr items) →
            mapM formatPylintMessage items = Normal ds →
            Forall2 (λ msg d, formatPylintMessage msg = Normal d) items ds
            ∧ Forall (λ d,
                PyDiag.errorExplanation d
                = "Pylint found a '" +:+ Js.toString (PyDiag.type d)
                  +:+ "' type issue: " +:+ Js.toString (PyDiag.message d) +:+ "."
                ∧ PyDiag.errorSuggestion d
                  = "Review the Python code at line "
                    +:+ Js.toString (PyDiag.line d)
                    +:+ ", column " +:+ Js.toString (PyDiag.column d)
                    +:+ ". Consult Pylint documentation for rule '"
                    +:+ Js.toString (PyDiag.symbol d) +:+ "'.") ds
            ∧ (ds ≠ [] →
               EvAugment "python" (map OfPylint ds)
                 ∈ trace (runPylintAnalysis env code s).2)))
  ∧ (stdout = "" → Str.or_else stdout "[]" = "[]")
  ∧ (∀ v, (∀ items, v ≠ JArr items) → ∃ e, formatPylintResults v = Throw e).
Proof.
  intros outcome. subst outcome.
  rewrite (runPylintAnalysis_closes _ _ _ _ _ _ _ Hwrite Hspawn).
  rewrite pylint_on_close_run. split_and!.
  - by intros ->.
  - intros -> Herr ->. apply truthy_true in Herr. by rewrite Herr.
  - intros -> Hor.
    assert (Str.truthy stderr && negb (Str.truthy stdout) = false) as ->.
    { destruct Hor as [-> | Hout]; [done|].
      apply truthy_true in Hout. rewrite Hout. apply andb_false_r. }
    set (s1 := unlinked env (pylint_tempFilePath env)
                 (spawned (pylint_tempFilePath env) code "pylint"
                    (pylint_args env) created s)).
    rewrite handler_pylint_parse.
    pose proof (pylint_parse_result env code stdout stderr s1) as Hp.
    cbn [fst snd]. rewrite Hp. split_and!.
    + by intros message ->.
    + by intros v e -> ->.
    + intros items ds -> Hds Hcase. simpl. rewrite Hds.
      destruct ds as [|d ds]; [done|].
      destruct Hcase as [Hnone|]; [|done].
      by rewrite getAIExplanation_unconfigured.
    + intros items ds Hparse Hds. split_and!.
      * by apply mapM_Normal_Forall2.
      * by apply (formatPylintMessage_all_synthesised items).
      * intros Hne.
        by apply (pylint_parse_augments env code stdout stderr s1 items ds).
  - by intros ->.
  - intros v Hv. destruct v; simpl; eauto. by destruct (Hv items).
Qed.

(** ** Failure of the augmenter inside the Pylint strategy *)

(** With a configured model, as soon as Pylint reports a record, the
    augmenter throws while it builds the prompt, and the strategy answers
    with the parse failure although stdout was parsed. *)
Lemma pylint_augmenter_throws env code s exitCode stdout stderr created
    ask items d ds :
  fs_writeFile env (pylint_tempFilePath env) code = Written →
  spawn env "pylint" (pylint_args env) = Closes exitCode stdout stderr created →
  pylint_not_installed stderr = false → stderr = "" ∨ stdout ≠ "" →
  JSON_parse env (Str.or_else stdout "[]") = inl (JArr items) →
  mapM formatPylintMessage items = Normal (d :: ds) →
  model env = Some ask →
  (runPylintAnalysis env code s).1
  = pylint_parse_failure stdout stderr
      "Cannot read properties of undefined (reading 'toUpperCase')".
Proof.
  intros Hwrite Hspawn Hinst Hor Hparse Hds Hmodel.
  rewrite (runPylintAnalysis_closes _ _ _ _ _ _ _ Hwrite Hspawn).
  rewrite pylint_on_close_run, Hinst.
  assert (Str.truthy stderr && negb (Str.truthy stdout) = false) as ->.
  { destruct Hor as [-> | Hout]; [done|].
    apply truthy_true in Hout. rewrite Hout. apply andb_false_r. }
  unfold handler.
  match goal with |- context [pylint_parse ?e ?c ?o ?r ?st] =>
    pose proof (pylint_parse_result e c o r st) as Hp;
    destruct (pylint_parse e c o r st) as [[r'|e'] s'] eqn:Hrun
  end; simpl in Hp; [|done].
  injection Hp as ->. simpl. rewrite Hparse. simpl. rewrite Hds.
  by erewrite getAIExplanation_pylint_throws.
Qed.

(** C2, at the failing input.  The same Pylint output on the same machine:
    without a configured model the strategy resolves with success and the
    one diagnostic; with a configured model the augmenter throws and the
    strategy resolves with a failure and no diagnostic. *)
Theorem pylint_augmenter_failure_changes_result :
  runPylintAnalysis (sample_pylint_env None) "x = 1" (initial ∅)
  = (Resolved (Success
       [mkFileAnalysis "<text>" [OfPylint sample_pylint_diagnostic]] "x = 1"
       nullAIData),
     mkState ∅
       [ EvWriteFile "/tmp/temp_python_code_1700000000000.py" "x = 1";
         EvSpawn "pylint"
           [ "/tmp/temp_python_code_1700000000000.py"; "--output-format=json";
             "--rcfile=/srv/app/utils/../.pylintrc" ];
         EvUnlink "/tmp/temp_python_code_1700000000000.py";
         EvAugment "python" [OfPylint sample_pylint_diagnostic] ])
  ∧ runPylintAnalysis (sample_pylint_env (Some sample_model)) "x = 1" (initial ∅)
    = (Resolved (Failure "Failed to parse Pylint output."
                   (Some sample_pylint_stdout)),
       mkState ∅
         [ EvWriteFile "/tmp/temp_python_code_1700000000000.py" "x = 1";
           EvSpawn "pylint"
             [ "/tmp/temp_python_code_1700000000000.py"; "--output-format=json";
               "--rcfile=/srv/app/utils/../.pylintrc" ];
           EvUnlink "/tmp/temp_python_code_1700000000000.py";
           EvAugment "python" [OfPylint sample_pylint_diagnostic] ]).
Proof. split; vm_compute; reflexivity. Qed.

(** C5, at the failing input.  With a configured model, the output of
    Pylint that is the JSON text of one record is parsed into one record and
    formatted into one diagnostic, and the strategy nevertheless resolves
    with the failure "Failed to parse Pylint output." and the output as
    details.  On the same machine the other branches of the ['close']
    handler do as the claim says: the not-installed signature gives the
    installation message whatever stdout holds, a non-empty stderr with an
    empty stdout gives stderr as the error, no output at all gives the
    empty list of diagnostics, and a text that is not JSON gives the failure
    to parse with that text as details. *)
Theorem pylint_valid_output_reported_unparsable :
  let env := sample_pylint_env (Some sample_model) in
  let outcome child :=
    (runPylintAnalysis (with_child child env) "x = 1" (initial ∅)).1 in
  (JSON_parse env sample_pylint_stdout = inl (JArr [sample_pylint_record])
   ∧ formatPylintResults (JArr [sample_pylint_record])
     = Normal [sample_pylint_diagnostic]
   ∧ outcome (Closes (Some 16) sample_pylint_stdout "" [])
     = Resolved (Failure "Failed to parse Pylint output."
                   (Some sample_pylint_stdout)))
  ∧ outcome (Closes (Some 1) sample_pylint_stdout
               "'pylint' is not recognized as an internal or external command"
               [])
    = Resolved (Failure
        "Pylint is not installed or not in your system's PATH. Please install it (e.g., 'pip install pylint')."
        None)
  ∧ outcome (Closes (Some 32) "" (" No module named astroid" +:+ Str.nl) [])
    = Resolved (Failure "Pylint encountered an error: No module named astroid"
                  None)
  ∧ outcome (Closes (Some 0) "" "" [])
    = Resolved (Success [mkFileAnalysis "<text>" []] "x = 1" nullAIData)
  ∧ outcome (Closes (Some 0) "Your code has been rated at 10/10" "" [])
    = Resolved (Failure "Failed to parse Pylint output."
                  (Some "Your code has been rated at 10/10")).
Proof. cbv zeta. split_and!; by vm_compute. Qed.

(** ** The compiler strategy *)

Lemma cpp_cleanup_on_close_run env src exe exitCode s :
  cpp_cleanup_on_close env src exe exitCode s
  = (Normal tt, cpp_cleaned env src exe exitCode s).
Proof.
  unfold cpp_cleanup_on_close, cpp_cleaned, existsSync.
  unfold mbind, M_bind, bind. rewrite unlink_quiet_run. cbv zeta.
  destruct (bool_decide (exitCode = Some 0)).
  - unfold mret, M_ret, ret. by rewrite unlink_quiet_run.
  - unfold emit, gets. fold (probed exe (unlinked env src s)).
    change (files (probed exe (unlinked env src s)))
      with (files (unlinked env src s)).
    destruct (bool_decide (exe ∈ files (unlinked env src s)));
      [by rewrite unlink_quiet_run|done].
Qed.

Lemma cpp_unlink_both_run env src exe s :
  cpp_unlink_both env src exe s = (Normal tt, cpp_both_unlinked env src exe s).
Proof.
  unfold cpp_unlink_both, cpp_both_unlinked. unfold mbind, M_bind, bind.
  destruct (Str.truthy src), (Str.truthy exe);
    unfold mret, M_ret, ret; by rewrite ?unlink_quiet_run.
Qed.

Lemma gpp_not_installed_truthy stderr :
  Str.truthy stderr && gpp_not_installed stderr = gpp_not_installed stderr.
Proof. by destruct stderr. Qed.

(** The ['close'] handler of the compiler strategy, branch by branch. *)
Lemma cpp_on_close_run env code src exe exitCode stderr s :
  handler (cpp_on_close env code src exe exitCode stderr) s
  = let s1 := cpp_cleaned env src exe exitCode s in
    let formattedMessages := map OfCpp (parseCppStderr stderr) in
    if gpp_not_installed stderr then (gpp_missing, s1)
    else if cpp_calls_augmenter exitCode stderr then
      match getAIExplanation env code "c++" formattedMessages s1 with
      | (Normal ai, s') =>
          (Resolved (Success [mkFileAnalysis "<text>" formattedMessages] code ai),
           s')
      | (Throw _, s') => (Pending, s')
      end
    else
      (Resolved (Success [mkFileAnalysis "<text>" formattedMessages] code
                   nullAIData), s1).
Proof.
  unfold handler, cpp_on_close, cpp_calls_augmenter. unfold mbind, M_bind, bind.
  rewrite cpp_cleanup_on_close_run, gpp_not_installed_truthy. cbv zeta.
  destruct (gpp_not_installed stderr); [done|].
  destruct (_ || _); [|done].
  by destruct (getAIExplanation _ _ _ _ _) as [[ai|e] s'].
Qed.

Lemma cpp_on_error_run env src exe err s :
  handler (cpp_on_error env src exe err) s
  = (Rejected (Error ("Failed to run g++: " +:+ exn_message err
                      +:+ ". Is g++ installed and in your PATH?")),
     cpp_both_unlinked env src exe s).
Proof.
  unfold handler, cpp_on_error. unfold mbind, M_bind, bind.
  by rewrite cpp_unlink_both_run.
Qed.

Lemma cpp_on_setup_error_run env src exe e s :
  handler (cpp_on_setup_error env src exe e) s
  = (Resolved (Failure "Failed to prepare C++ code for analysis."
                 (Some (exn_message e))),
     cpp_both_unlinked env src exe s).
Proof.
  unfold handler, cpp_on_setup_error. unfold mbind, M_bind, bind.
  by rewrite cpp_unlink_both_run.
Qed.

(** The run of [runCppAnalysis], path by path. *)
Lemma runCppAnalysis_paths env code s :
  runCppAnalysis env code s
  = let src := cpp_tempCppFilePath env in
    let exe := cpp_tempExecutablePath env in
    match fs_writeFile env src code with
    | WriteFailed e leftover =>
        handler (cpp_on_setup_error env src exe e) (write_failed src code leftover s)
    | Written =>
        match spawn env "g++" (cpp_args env) with
        | SpawnThrows e =>
            handler (cpp_on_setup_error env src exe e)
              (spawning src code "g++" (cpp_args env) s)
        | EmitsError err exitCode closeFirst =>
            cpp_on_error_then_close env code src exe err exitCode closeFirst
              (spawning src code "g++" (cpp_args env) s)
        | Closes exitCode _ stderr created =>
            handler (cpp_on_close env code src exe exitCode stderr)
              (spawned src code "g++" (cpp_args env) created s)
        end
    end.
Proof.
  unfold runCppAnalysis, cpp_setup, writeFile, spawn_child.
  fold (cpp_args env). unfold_M. simpl.
  destruct (fs_writeFile env _ code) as [|e leftover]; simpl.
  - by destruct (spawn env "g++" (cpp_args env)).
  - by destruct leftover.
Qed.

(** How the ['close'] handler settles, and the state it leaves: the
    removals, then calls that touch no file. *)
Lemma cpp_on_close_outcome env code src exe exitCode stderr s :
  (handler (cpp_on_close env code src exe exitCode stderr) s).1
  = cpp_close_outcome_of env code exitCode stderr.
Proof.
  rewrite cpp_on_close_run. unfold cpp_close_outcome_of. cbv zeta.
  destruct (gpp_not_installed stderr); [done|].
  destruct (cpp_calls_augmenter exitCode stderr); [|done].
  rewrite <- (getAIExplanation_result env code "c++" _
                (cpp_cleaned env src exe exitCode s)).
  by destruct (getAIExplanation _ _ _ _ _) as [[ai|e] s'].
Qed.

Lemma cpp_on_close_state env code src exe exitCode stderr s :
  ∃ more,
    (handler (cpp_on_close env code src exe exitCode stderr) s).2
    = mkState (files (cpp_cleaned env src exe exitCode s))
        (trace (cpp_cleaned env src exe exitCode s) ++ more)
    ∧ (more = []
       ∨ ∃ sent, more = EvAugment "c++" (map OfCpp (parseCppStderr stderr)) :: sent
                 ∧ (sent = [] ∨ ∃ prompt, sent = [EvSendMessage prompt])).
Proof.
  rewrite cpp_on_close_run. cbv zeta.
  set (s1 := cpp_cleaned env src exe exitCode s).
  destruct (gpp_not_installed stderr);
    [exists []; rewrite app_nil_r; split; [by destruct s1|by left]|].
  destruct (cpp_calls_augmenter exitCode stderr);
    [|exists []; rewrite app_nil_r; split; [by destruct s1|by left]].
  destruct (getAIExplanation_frame env code "c++"
              (map OfCpp (parseCppStderr stderr)) s1) as (sent & Hs & Hsent).
  exists (EvAugment "c++" (map OfCpp (parseCppStderr stderr)) :: sent).
  split; [|right; by exists sent].
  by destruct (getAIExplanation _ _ _ _ _) as [[ai|e] s']; cbn [snd] in *;
    subst s'.
Qed.

(** The run of the two handlers of a child that cannot be started. *)
Lemma cpp_on_error_then_close_run env code src exe err exitCode closeFirst s :
  cpp_on_error_then_close env code src exe err exitCode closeFirst s
  = (if closeFirst && (Str.truthy src || Str.truthy exe)
     then settle_first (cpp_close_outcome_of env code exitCode "")
            (cpp_rejection err)
     else cpp_rejection err,
     (handler (cpp_on_close env code src exe exitCode "")
        (cpp_both_unlinked env src exe s)).2).
Proof.
  unfold cpp_on_error_then_close. rewrite cpp_on_error_run.
  rewrite <- (cpp_on_close_outcome env code src exe exitCode ""
                (cpp_both_unlinked env src exe s)).
  by destruct (handler (cpp_on_close env code src exe exitCode "") _).
Qed.

Lemma runCppAnalysis_outcome env code s :
  (runCppAnalysis env code s).1 = cpp_outcome env code.
Proof.
  rewrite runCppAnalysis_paths. unfold cpp_outcome. cbv zeta.
  destruct (fs_writeFile env _ code) as [|e leftover].
  - destruct (spawn env "g++" (cpp_args env))
      as [e|err x first|x out err created].
    + by rewrite cpp_on_setup_error_run.
    + by rewrite cpp_on_error_then_close_run.
    + apply cpp_on_close_outcome.
  - by rewrite cpp_on_setup_error_run.
Qed.

(** After the removals of the ['close'] handler, the removal of the source
    file has been tried, and each temporary file whose removal works is
    gone; the compiled output is looked for when the exit code is not 0. *)
Lemma cpp_cleaned_spec env src exe exitCode s :
  EvUnlink src ∈ trace (cpp_cleaned env src exe exitCode s)
  ∧ (fs_unlink env src = true → src ∉ files (cpp_cleaned env src exe exitCode s))
  ∧ (fs_unlink env exe = true → exe ∉ files (cpp_cleaned env src exe exitCode s)).
Proof.
  unfold cpp_cleaned. cbv zeta.
  destruct (bool_decide (exitCode = Some 0)).
  - unfold unlinked; simpl. split_and!; [in_trace| |].
    + intros Hu. rewrite Hu. destruct (fs_unlink env exe); set_solver.
    + intros Hu. rewrite Hu. set_solver.
  - destruct (bool_decide (exe ∈ files (unlinked env src s))) eqn:Hex.
    + unfold unlinked, probed; simpl. split_and!; [in_trace| |].
      * intros Hu. rewrite Hu. destruct (fs_unlink env exe); set_solver.
      * intros Hu. rewrite Hu. set_solver.
    + apply bool_decide_eq_false in Hex. revert Hex.
      unfold unlinked, probed; simpl. intros Hex. split_and!; [in_trace| |done].
      intros Hu. rewrite Hu. set_solver.
Qed.

Lemma cpp_both_unlinked_spec env src exe s :
  Str.truthy src = true → Str.truthy exe = true →
  EvUnlink src ∈ trace (cpp_both_unlinked env src exe s)
  ∧ (fs_unlink env src = true → src ∉ files (cpp_both_unlinked env src exe s))
  ∧ (fs_unlink env exe = true → exe ∉ files (cpp_both_unlinked env src exe s)).
Proof.
  intros Hs He. unfold cpp_both_unlinked. rewrite Hs, He.
  unfold unlinked; simpl. split_and!; [in_trace| |].
  - intros Hu. rewrite Hu. destruct (fs_unlink env exe); set_solver.
  - intros Hu. rewrite Hu. set_solver.
Qed.

Lemma runCppAnalysis_cleanup env code s :
  Str.truthy (cpp_tempCppFilePath env) = true →
  Str.truthy (cpp_tempExecutablePath env) = true →
  EvUnlink (cpp_tempCppFilePath env) ∈ trace (runCppAnalysis env code s).2
  ∧ (fs_unlink env (cpp_tempCppFilePath env) = true →
     cpp_tempCppFilePath env ∉ files (runCppAnalysis env code s).2)
  ∧ (fs_unlink env (cpp_tempExecutablePath env) = true →
     cpp_tempExecutablePath env ∉ files (runCppAnalysis env code s).2).
Proof.
  intros Hsrc Hexe. rewrite runCppAnalysis_paths. cbv zeta.
  destruct (fs_writeFile env _ code) as [|e leftover].
  - destruct (spawn env "g++" (cpp_args env))
      as [e|err x first|x out err created].
    + rewrite cpp_on_setup_error_run. by apply cpp_both_unlinked_spec.
    + rewrite cpp_on_error_then_close_run. cbn [snd].
      match goal with |- context [handler (cpp_on_close ?a ?b ?c ?d ?x0 ?e0) ?st] =>
        destruct (cpp_on_close_state a b c d x0 e0 st) as (more & -> & _);
        pose proof (cpp_cleaned_spec a c d x0 st) as (H1 & H2 & H3)
      end.
      cbn [files trace]. split_and!; [apply elem_of_app; by left|done|done].
    + rewrite cpp_on_close_run. cbv zeta.
      match goal with |- context [cpp_cleaned ?a ?b ?c ?d ?st] =>
        pose proof (cpp_cleaned_spec a b c d st) as (H1 & H2 & H3);
        set (s1 := cpp_cleaned a b c d st) in *
      end.
      destruct (gpp_not_installed err); [done|].
      destruct (cpp_calls_augmenter x err); [|done].
      destruct (getAIExplanation_frame env code "c++"
                  (map OfCpp (parseCppStderr err)) s1) as (sent & Hs & _).
      destruct (getAIExplanation _ _ _ _ _) as [[ai|e] s']; simpl in *; subst s';
        simpl; (split_and!; [apply elem_of_app; by left|done|done]).
  - rewrite cpp_on_setup_error_run. by apply cpp_both_unlinked_spec.
Qed.

Lemma cpp_cleaned_augmenter_calls env src exe exitCode path data command
    args created s :
  augmenter_calls
    (trace (cpp_cleaned env src exe exitCode
              (spawned path data command args created s)))
  = augmenter_calls (trace s).
Proof.
  unfold cpp_cleaned, augmenter_calls. cbv zeta.
  destruct (bool_decide (exitCode = Some 0));
    [|destruct (bool_decide (exe ∈ _))];
    unfold unlinked, probed, spawned; simpl;
    rewrite !occurrences_app; unfold occurrences; simpl; lia.
Qed.

Lemma cpp_calls_augmenter_iff exitCode stderr :
  cpp_calls_augmenter exitCode stderr = true
  ↔ parseCppStderr stderr ≠ [] ∨ exitCode ≠ Some 0.
Proof.
  unfold cpp_calls_augmenter.
  rewrite orb_true_iff, negb_true_iff, bool_decide_eq_true, bool_decide_eq_false.
  rewrite length_map. destruct (parseCppStderr stderr); simpl; [|naive_solver lia].
  split; (intros [H|H]; [|by right]); [lia|done].
Qed.

Lemma cpp_close_resolved env code s exitCode stdout stderr created r :
  fs_writeFile env (cpp_tempCppFilePath env) code = Written →
  spawn env "g++" (cpp_args env) = Closes exitCode stdout stderr created →
  gpp_not_installed stderr = false →
  (runCppAnalysis env code s).1 = Resolved r →
  ∃ ai, r = Success [mkFileAnalysis "<text>" (map OfCpp (parseCppStderr stderr))]
              code ai.
Proof.
  intros Hw Hsp Hinst. rewrite runCppAnalysis_outcome. unfold cpp_outcome.
  rewrite Hw, Hsp. unfold cpp_close_outcome_of. rewrite Hinst. cbv zeta.
  destruct (cpp_calls_augmenter exitCode stderr).
  - destruct (augmenter_result _ _ _ _) as [ai|e]; [|done].
    intros [= <-]. by exists ai.
  - intros [= <-]. by eexists.
Qed.

Lemma cpp_close_resolves env code s exitCode stdout stderr created :
  fs_writeFile env (cpp_tempCppFilePath env) code = Written →
  spawn env "g++" (cpp_args env) = Closes exitCode stdout stderr created →
  gpp_not_installed stderr = false →
  loggable_errors env →
  ∃ ai, (runCppAnalysis env code s).1
        = Resolved (Success
            [mkFileAnalysis "<text>" (map OfCpp (parseCppStderr stderr))] code ai).
Proof.
  intros Hw Hsp Hinst Hlog. rewrite runCppAnalysis_outcome. unfold cpp_outcome.
  rewrite Hw, Hsp. unfold cpp_close_outcome_of. rewrite Hinst. cbv zeta.
  destruct (cpp_calls_augmenter exitCode stderr); [|by eexists].
  unfold augmenter_result.
  destruct (getAIExplanation_returns env code "c++"
              (map OfCpp (parseCppStderr stderr)) (initial ∅)
              (cpp_diagnostics_have_severity _) Hlog) as [ai ->].
  by exists ai.
Qed.

Lemma cpp_close_resolved_diagnostics env code x err r :
  cpp_close_outcome_of env code x err = Resolved r →
  ∀ d, d ∈ diagnostics r →
       ∃ c, d = OfCpp c
            ∧ (CppDiag.severity c = "error" ∨ CppDiag.severity c = "warning").
Proof.
  assert (Hfail : ∀ e dt (d : Diagnostic),
            d ∈ diagnostics (Failure e dt) → ∃ c,
              d = OfCpp c
              ∧ (CppDiag.severity c = "error" ∨ CppDiag.severity c = "warning")).
  { intros e dt d. simpl. by intros ?%elem_of_nil. }
  unfold cpp_close_outcome_of. cbv zeta.
  assert (Hin : ∀ ai d,
            d ∈ diagnostics (Success
                   [mkFileAnalysis "<text>" (map OfCpp (parseCppStderr err))]
                   code ai) →
            ∃ c, d = OfCpp c
                 ∧ (CppDiag.severity c = "error" ∨ CppDiag.severity c = "warning")).
  { intros ai d. simpl. rewrite app_nil_r.
    intros (c & -> & Hc)%list_elem_of_fmap. exists c. split; [done|].
    by eapply parseCppStderr_severity. }
  destruct (gpp_not_installed err); [intros [= <-]; apply Hfail|].
  destruct (cpp_calls_augmenter x err); [|intros [= <-]; apply Hin].
  destruct (augmenter_result _ _ _ _) as [ai|e]; [|done].
  intros [= <-]. apply Hin.
Qed.

Lemma cpp_resolved_diagnostics env code s r :
  (runCppAnalysis env code s).1 = Resolved r →
  ∀ d, d ∈ diagnostics r →
       ∃ c, d = OfCpp c
            ∧ (CppDiag.severity c = "error" ∨ CppDiag.severity c = "warning").
Proof.
  rewrite runCppAnalysis_outcome. unfold cpp_outcome.
  assert (Hfail : ∀ e dt (d : Diagnostic),
            d ∈ diagnostics (Failure e dt) → ∃ c,
              d = OfCpp c
              ∧ (CppDiag.severity c = "error" ∨ CppDiag.severity c = "warning")).
  { intros e dt d. simpl. by intros ?%elem_of_nil. }
  destruct (fs_writeFile env _ code) as [|e leftover];
    [|intros [= <-]; apply Hfail].
  destruct (spawn env "g++" (cpp_args env))
    as [e|err x first|x out err created]; [intros [= <-]; apply Hfail| |].
  - destruct (first && _); [|done]. intros H%settle_first_resolved.
    by apply (cpp_close_resolved_diagnostics env code x "").
  - apply cpp_close_resolved_diagnostics.
Qed.

(** C7.  In the C-family strategy, once the source file is written and the
    compiler has closed without the not-installed signature on stderr: the
    augmenter is called once when a diagnostic was parsed or the exit code
    is not 0, and not at all otherwise; whenever the promise resolves, the
    result has success true (whatever the severities of the diagnostics),
    the parsed diagnostics, and [fixedCode] equal to the input; the promise
    resolves whenever the augmenter returns, which it does when the errors
    of the model can be logged; without a call of the augmenter the three AI
    fields are null. *)
Theorem cpp_augmenter_and_success env code s exitCode stdout stderr created
    (Hwrite : fs_writeFile env (cpp_tempCppFilePath env) code = Written)
    (Hspawn : spawn env "g++" (cpp_args env)
              = Closes exitCode stdout stderr created)
    (Hinst : gpp_not_installed stderr = false) :
  let calls := cpp_calls_augmenter exitCode stderr in
  let formattedMessages := map OfCpp (parseCppStderr stderr) in
  (calls = true ↔ parseCppStderr stderr ≠ [] ∨ exitCode ≠ Some 0)
  ∧ augmenter_calls (trace (runCppAnalysis env code s).2)
    = (augmenter_calls (trace s) + (if calls then 1 else 0))%nat
  ∧ (calls = true →
     EvAugment "c++" formattedMessages ∈ trace (runCppAnalysis env code s).2)
  ∧ (∀ r, (runCppAnalysis env code s).1 = Resolved r →
       success r = true ∧ diagnostics r = formattedMessages
       ∧ fixedCode_of r = Some code)
  ∧ (loggable_errors env →
     ∃ ai, (runCppAnalysis env code s).1
           = Resolved (Success [mkFileAnalysis "<text>" formattedMessages]
                         code ai))
  ∧ (calls = false →
     (runCppAnalysis env code s).1
     = Resolved (Success [mkFileAnalysis "<text>" formattedMessages] code
                   nullAIData)).
Proof.
  intros calls formattedMessages. subst calls formattedMessages.
  split; [apply cpp_calls_augmenter_iff|].
  rewrite runCppAnalysis_paths. cbv zeta. rewrite Hwrite, Hspawn.
  rewrite cpp_on_close_run. cbv zeta. rewrite Hinst.
  pose proof (cpp_cleaned_augmenter_calls env (cpp_tempCppFilePath env)
                (cpp_tempExecutablePath env) exitCode (cpp_tempCppFilePath env)
                code "g++" (cpp_args env) created s) as Hcalls.
  set (s1 := cpp_cleaned _ _ _ _ _) in *.
  destruct (cpp_calls_augmenter exitCode stderr) eqn:Hc.
  - destruct (getAIExplanation_frame env code "c++"
                (map OfCpp (parseCppStderr stderr)) s1) as (sent & Hs & Hsent).
    pose proof (getAIExplanation_returns env code "c++"
                  (map OfCpp (parseCppStderr stderr)) s1
                  (cpp_diagnostics_have_severity _)) as Hret.
    destruct (getAIExplanation _ _ _ _ _) as [[ai|e] s']; simpl in *; subst s';
      simpl.
    + split_and!.
      * unfold augmenter_calls in *.
        rewrite occurrences_app, Hcalls.
        destruct Hsent as [-> | [prompt ->]]; unfold occurrences; simpl; lia.
      * intros _. in_trace.
      * intros r [= <-]. simpl. by rewrite app_nil_r.
      * intros _. by exists ai.
      * done.
    + split_and!.
      * unfold augmenter_calls in *.
        rewrite occurrences_app, Hcalls.
        destruct Hsent as [-> | [prompt ->]]; unfold occurrences; simpl; lia.
      * intros _. in_trace.
      * done.
      * intros Hlog. by destruct (Hret Hlog).
      * done.
  - simpl. split_and!; try done.
    + rewrite Hcalls. lia.
    + intros r [= <-]. simpl. by rewrite app_nil_r.
    + intros _. by eexists.
Qed.

Lemma sample_cpp_env_loggable : loggable_errors sample_cpp_env.
Proof. intros ask prompt m e [= <-]. done. Qed.

Lemma cpp_augmenter_and_success_witness :
  (∃ ai, (runCppAnalysis sample_cpp_env "int main() { return 0 }" (initial ∅)).1
         = Resolved (Success [mkFileAnalysis "<text>" sample_cpp_diagnostics]
                       "int main() { return 0 }" ai))
  ∧ augmenter_calls
      (trace (runCppAnalysis sample_cpp_env "int main() { return 0 }"
                (initial ∅)).2) = 1%nat.
Proof.
  destruct (cpp_augmenter_and_success sample_cpp_env "int main() { return 0 }"
              (initial ∅) (Some 1) "" sample_cpp_stderr [] eq_refl eq_refl
              eq_refl) as (_ & Hcalls & _ & _ & Hres & _).
  split; [exact (Hres sample_cpp_env_loggable)|exact Hcalls].
Defined.

(** ** The file path of located diagnostics *)

(** C10.  In the C-family strategy, for every line of stderr that matches
    the location pattern: the line starts with the first capture followed
    by a colon, the line number, a colon, the column number and a colon; the
    diagnostic of the line carries the first capture as its [filePath]; and
    whenever the promise resolves (it does when the errors of the model can
    be logged) that diagnostic is among the diagnostics of the result, in
    the single group whose own [filePath] is the placeholder.  When the
    line starts with the path of the temporary source file, free of colons
    and line terminators, and the rest of the pattern matches what follows
    it, the first capture is that path. *)
Theorem cpp_located_filePath env code s exitCode stdout stderr created line m
    (Hwrite : fs_writeFile env (cpp_tempCppFilePath env) code = Written)
    (Hspawn : spawn env "g++" (cpp_args env)
              = Closes exitCode stdout stderr created)
    (Hinst : gpp_not_installed stderr = false)
    (Hline : line ∈ Str.split_lines stderr)
    (Hm : Re.location line = Some m) :
  (∃ rest, line = m_path m +:+ ":" +:+ m_line m +:+ ":" +:+ m_column m
                  +:+ ":" +:+ rest)
  ∧ (∃ d, classifyLine line = Some d ∧ CppDiag.filePath d = m_path m
       ∧ (∀ r, (runCppAnalysis env code s).1 = Resolved r →
            OfCpp d ∈ diagnostics r
            ∧ ∃ ai, r = Success
                [mkFileAnalysis "<text>" (map OfCpp (parseCppStderr stderr))]
                code ai))
  ∧ (loggable_errors env → ∃ r, (runCppAnalysis env code s).1 = Resolved r)
  ∧ (∀ rest l c sev msg,
       line = cpp_tempCppFilePath env +:+ rest →
       all_chars (λ ch, negb (bool_decide (ch = ":"%char))
                        && negb (Str.is_line_terminator ch))
         (cpp_tempCppFilePath env) = true →
       Re.tail rest = Some (l, c, sev, msg) →
       m_path m = cpp_tempCppFilePath env).
Proof.
  split_and!.
  - destruct (location_sound _ _ Hm) as (_ & rest & Hl & Ht).
    destruct (tail_sound _ _ _ _ _ Ht) as (ws1 & ws2 & -> & _).
    eexists. rewrite Hl. reflexivity.
  - exists (locatedDiagnostic m). split_and!; [by apply classifyLine_located|done|].
    intros r Hr.
    destruct (cpp_close_resolved _ _ _ _ _ _ _ _ Hwrite Hspawn Hinst Hr)
      as [ai ->].
    split; [|by exists ai]. simpl. rewrite app_nil_r.
    apply list_elem_of_fmap_2.
    apply (classified_in_parse stderr line); [done|by apply classifyLine_located|].
    intros ->. simpl in Hline. apply list_elem_of_singleton in Hline as ->.
    by apply location_nonempty in Hm.
  - intros Hlog.
    destruct (cpp_close_resolves env code s _ _ _ _ Hwrite Hspawn Hinst Hlog)
      as [ai ->]. eauto.
  - intros rest l c sev msg -> Hpath Ht.
    rewrite (location_of_path _ _ _ _ _ _ Hpath Ht) in Hm. by injection Hm as <-.
Qed.

Lemma cpp_located_filePath_witness :
  ∃ d, classifyLine
         "/tmp/temp_cpp_code_1700000000000.cpp:3:5: error: expected ';' before '}' token"
       = Some d
       ∧ CppDiag.filePath d = cpp_tempCppFilePath sample_cpp_env
       ∧ ∀ r, (runCppAnalysis sample_cpp_env "int main() { return 0 }"
                 (initial ∅)).1 = Resolved r →
              OfCpp d ∈ diagnostics r.
Proof.
  destruct (cpp_located_filePath sample_cpp_env "int main() { return 0 }"
              (initial ∅) (Some 1) "" sample_cpp_stderr []
              "/tmp/temp_cpp_code_1700000000000.cpp:3:5: error: expected ';' before '}' token"
              (mkLocationMatch "/tmp/temp_cpp_code_1700000000000.cpp" "3" "5"
                 "error" "expected ';' before '}' token")
              eq_refl eq_refl eq_refl)
    as (_ & (d & Hd & Hpath & Hres) & _).
  - vm_compute. apply list_elem_of_here.
  - reflexivity.
  - exists d. split_and!; [exact Hd|exact Hpath|]. intros r Hr. by apply Hres.
Defined.

(** ** Temporary files *)

(** For every run of a subprocess strategy whose temporary paths are not
    empty, whatever the write, the spawn and the child do: the removal of
    the temporary source file is in the trace at the end of the run; each
    temporary file (the source file, and for the C-family the compiled
    output) on which [fs.unlink] works is absent from the files at that
    point; how the promise settles does not depend on what [fs.unlink]
    does; and a failure to parse is a resolved result with success false. *)
Lemma temporary_files_removed env code s
    (Hpy : Str.truthy (pylint_tempFilePath env) = true)
    (Hsrc : Str.truthy (cpp_tempCppFilePath env) = true)
    (Hexe : Str.truthy (cpp_tempExecutablePath env) = true) :
  (EvUnlink (pylint_tempFilePath env) ∈ trace (runPylintAnalysis env code s).2
   ∧ (fs_unlink env (pylint_tempFilePath env) = true →
      pylint_tempFilePath env ∉ files (runPylintAnalysis env code s).2))
  ∧ (EvUnlink (cpp_tempCppFilePath env) ∈ trace (runCppAnalysis env code s).2
     ∧ (fs_unlink env (cpp_tempCppFilePath env) = true →
        cpp_tempCppFilePath env ∉ files (runCppAnalysis env code s).2)
     ∧ (fs_unlink env (cpp_tempExecutablePath env) = true →
        cpp_tempExecutablePath env ∉ files (runCppAnalysis env code s).2))
  ∧ (∀ unlink s',
       (runPylintAnalysis (with_unlink unlink env) code s').1
       = (runPylintAnalysis env code s).1
       ∧ (runCppAnalysis (with_unlink unlink env) code s').1
         = (runCppAnalysis env code s).1)
  ∧ (∀ exitCode stdout stderr created message,
       fs_writeFile env (pylint_tempFilePath env) code = Written →
       spawn env "pylint" (pylint_args env)
       = Closes exitCode stdout stderr created →
       pylint_not_installed stderr = false → stderr = "" ∨ stdout ≠ "" →
       JSON_parse env (Str.or_else stdout "[]") = inr message →
       (runPylintAnalysis env code s).1
       = Resolved (Failure "Failed to parse Pylint output."
                     (Some (Str.or_else stdout (Str.or_else stderr message))))).
Proof.
  split_and!.
  - by apply runPylintAnalysis_cleanup.
  - by apply runPylintAnalysis_cleanup.
  - by apply runCppAnalysis_cleanup.
  - by apply runCppAnalysis_cleanup.
  - by apply runCppAnalysis_cleanup.
  - intros unlink s'. by rewrite !runPylintAnalysis_outcome, !runCppAnalysis_outcome.
  - intros exitCode stdout stderr created message Hw Hsp Hinst Hor Hparse.
    rewrite runPylintAnalysis_outcome. unfold pylint_outcome.
    rewrite Hw, Hsp. unfold pylint_close_outcome_of. rewrite Hinst.
    assert (Str.truthy stderr && negb (Str.truthy stdout) = false) as ->.
    { destruct Hor as [-> | Hout]; [done|].
      apply truthy_true in Hout. rewrite Hout. apply andb_false_r. }
    unfold pylint_parse_outcome. by rewrite Hparse.
Qed.

(** C3, at the failing inputs.  A child that cannot be started has both
    handlers run.  When the ['close'] handler settles first, the strategy
    resolves with success true and no diagnostic although no tool has run:
    the Pylint strategy, and the compiler strategy likewise, after having
    called the augmenter with no diagnostic; when the ['error'] handler
    settles first, the strategy rejects as the claim says.  On a POSIX
    machine without the compiler, the shell starts, reports the missing
    command and exits with the code 127: the compiler strategy resolves
    with success true and no diagnostic, and the Pylint strategy resolves
    with a failure.  In all these runs the temporary files are removed. *)
Theorem spawn_failure_may_resolve :
  runPylintAnalysis (sample_unstartable_env true) "x = 1" (initial ∅)
  = (Resolved (Success [mkFileAnalysis "<text>" []] "x = 1" nullAIData),
     mkState ∅
       [ EvWriteFile "/tmp/temp_python_code_1700000000000.py" "x = 1";
         EvSpawn "pylint"
           [ "/tmp/temp_python_code_1700000000000.py"; "--output-format=json";
             "--rcfile=/srv/app/utils/../.pylintrc" ];
         EvUnlink "/tmp/temp_python_code_1700000000000.py";
         EvUnlink "/tmp/temp_python_code_1700000000000.py" ])
  ∧ runPylintAnalysis (sample_unstartable_env false) "x = 1" (initial ∅)
    = (Rejected (Error
         "Failed to run Pylint: spawn /bin/sh EAGAIN. Is Pylint installed and in your PATH?"),
       mkState ∅
         [ EvWriteFile "/tmp/temp_python_code_1700000000000.py" "x = 1";
           EvSpawn "pylint"
             [ "/tmp/temp_python_code_1700000000000.py"; "--output-format=json";
               "--rcfile=/srv/app/utils/../.pylintrc" ];
           EvUnlink "/tmp/temp_python_code_1700000000000.py";
           EvUnlink "/tmp/temp_python_code_1700000000000.py" ])
  ∧ runCppAnalysis (sample_unstartable_env true) "int main() {}" (initial ∅)
    = (Resolved (Success [mkFileAnalysis "<text>" []] "int main() {}" nullAIData),
       mkState ∅
         [ EvWriteFile "/tmp/temp_cpp_code_1700000000000.cpp" "int main() {}";
           EvSpawn "g++"
             [ "/tmp/temp_cpp_code_1700000000000.cpp"; "-o";
               "/tmp/temp_cpp_executable_1700000000001"; "-std=c++11"; "-Wall";
               "-Wextra" ];
           EvUnlink "/tmp/temp_cpp_code_1700000000000.cpp";
           EvUnlink "/tmp/temp_cpp_executable_1700000000001";
           EvUnlink "/tmp/temp_cpp_code_1700000000000.cpp";
           EvExistsSync "/tmp/temp_cpp_executable_1700000000001";
           EvAugment "c++" [] ])
  ∧ runCppAnalysis sample_no_compiler_env "int main() {}" (initial ∅)
    = (Resolved (Success [mkFileAnalysis "<text>" []] "int main() {}" nullAIData),
       mkState ∅
         [ EvWriteFile "/tmp/temp_cpp_code_1700000000000.cpp" "int main() {}";
           EvSpawn "g++"
             [ "/tmp/temp_cpp_code_1700000000000.cpp"; "-o";
               "/tmp/temp_cpp_executable_1700000000001"; "-std=c++11"; "-Wall";
               "-Wextra" ];
           EvUnlink "/tmp/temp_cpp_code_1700000000000.cpp";
           EvExistsSync "/tmp/temp_cpp_executable_1700000000001";
           EvAugment "c++" [] ])
  ∧ (runPylintAnalysis
       (with_child (Closes (Some 127) ""
                      ("/bin/sh: 1: pylint: not found" +:+ Str.nl) [])
          sample_no_compiler_env) "x = 1" (initial ∅)).1
    = Resolved (Failure
        "Pylint encountered an error: /bin/sh: 1: pylint: not found" None).
Proof. split_and!; vm_compute; reflexivity. Qed.

(** ** The dispatcher *)

(** C4.  For every code string, language tag and starting state, with the
    tag compared after conversion to lower case: the tag javascript runs
    the ESLint strategy and nothing else, python the Pylint strategy, c++
    and cpp the g++ strategy; any other tag resolves at once with success
    false and the unsupported-language message, which quotes the tag as it
    was given, and leaves the files and the trace as they were: no file is
    written, no process spawned, no linter, model or file-system call made.
    Two tags that differ only in the case of their letters are routed alike. *)
Theorem runCodeAnalysis_dispatch env code language s :
  (Str.toLowerCase language = "javascript" →
     runCodeAnalysis env code language s = runEsLintAnalysis env code s)
  ∧ (Str.toLowerCase language = "python" →
     runCodeAnalysis env code language s = runPylintAnalysis env code s)
  ∧ (Str.toLowerCase language = "c++" ∨ Str.toLowerCase language = "cpp" →
     runCodeAnalysis env code language s = runCppAnalysis env code s)
  ∧ (Str.toLowerCase language ∉ supported_tags →
     runCodeAnalysis env code language s = (Resolved (unsupported language), s)
     ∧ success (unsupported language) = false
     ∧ occurrences is_spawn (trace (runCodeAnalysis env code language s).2)
       = occurrences is_spawn (trace s)
     ∧ occurrences is_write (trace (runCodeAnalysis env code language s).2)
       = occurrences is_write (trace s)
     ∧ occurrences is_request (trace (runCodeAnalysis env code language s).2)
       = occurrences is_request (trace s)
     ∧ files (runCodeAnalysis env code language s).2 = files s)
  ∧ (∀ language', Str.toLowerCase language' = Str.toLowerCase language →
       Str.toLowerCase language ∈ supported_tags →
       runCodeAnalysis env code language' s = runCodeAnalysis env code language s).
Proof.
  unfold runCodeAnalysis. cbv zeta. split_and!.
  - intros ->. done.
  - intros ->. done.
  - intros [-> | ->]; done.
  - intros Hno.
    assert (Hrun : (if bool_decide (Str.toLowerCase language = "javascript")
                    then runEsLintAnalysis env code
                    else if bool_decide (Str.toLowerCase language = "python")
                    then runPylintAnalysis env code
                    else if bool_decide (Str.toLowerCase language = "c++")
                            || bool_decide (Str.toLowerCase language = "cpp")
                    then runCppAnalysis env code
                    else async (ret (unsupported language))) s
                   = (Resolved (unsupported language), s)).
    { unfold supported_tags in Hno.
      rewrite !bool_decide_eq_false_2; [done|set_solver..]. }
    unfold unsupported in *. rewrite Hrun. done.
  - intros language' Heq Hin. rewrite Heq. unfold supported_tags in Hin.
    repeat (apply elem_of_cons in Hin as [-> | Hin]; [done|]).
    by apply elem_of_nil in Hin.
Qed.

Lemma runCodeAnalysis_dispatch_witness :
  runCodeAnalysis sample_cpp_env "int main() { return 0 }" "C++" (initial ∅)
  = runCppAnalysis sample_cpp_env "int main() { return 0 }" (initial ∅)
  ∧ runCodeAnalysis sample_cpp_env "puts 1" "Ruby" (initial ∅)
    = (Resolved (Failure "Unsupported language for debugging: Ruby." None),
       initial ∅).
Proof.
  destruct (runCodeAnalysis_dispatch sample_cpp_env "int main() { return 0 }"
              "C++" (initial ∅)) as (_ & _ & Hcpp & _).
  destruct (runCodeAnalysis_dispatch sample_cpp_env "puts 1" "Ruby" (initial ∅))
    as (_ & _ & _ & Hother & _).
  split.
  - apply Hcpp. by left.
  - apply Hother. intros H. apply (bool_decide_pack _) in H.
    vm_compute in H. exact H.
Defined.

(** ** The shape of diagnostics in a result *)

(** C1 (as amended).  Of the diagnostics in a resolved result: every ESLint
    diagnostic has a severity that is exactly error or warning, and, when
    its rule identifier is not the name of a property that every object
    inherits, an explanation and a suggestion that are non-empty strings,
    namely those of one entry of the lookup table or, when none is
    selected, of the generic fallback pair; every Pylint diagnostic has an
    explanation and a suggestion that are non-empty strings, synthesised
    from its own fields; every g++ diagnostic has a severity that is
    exactly error or warning, and has neither an explanation nor a
    suggestion field. *)
Theorem diagnostics_shape env code s r d :
  ((runEsLintAnalysis env code s).1 = Resolved r → d ∈ diagnostics r →
     severity_is_error_or_warning d
     ∧ ((∀ m rid, d = OfEsLint m → EsDiag.ruleId m = Some rid →
           rid ∉ object_prototype_keys) →
        ∃ e, (e = genericExplanation ∨ e ∈ errorExplanations.*2)
             ∧ Diag.errorExplanation d = JStr (explanation e)
             ∧ Diag.errorSuggestion d = JStr (suggestion e)
             ∧ nonempty_string (Diag.errorExplanation d)
             ∧ nonempty_string (Diag.errorSuggestion d)))
  ∧ ((runPylintAnalysis env code s).1 = Resolved r → d ∈ diagnostics r →
       nonempty_string (Diag.errorExplanation d)
       ∧ nonempty_string (Diag.errorSuggestion d))
  ∧ ((runCppAnalysis env code s).1 = Resolved r → d ∈ diagnostics r →
       severity_is_error_or_warning d
       ∧ Diag.errorExplanation d = JUndefined
       ∧ Diag.errorSuggestion d = JUndefined).
Proof.
  split_and!.
  - intros Hr Hd.
    destruct (eslint_resolved_diagnostics _ _ _ _ Hr d Hd) as [msg ->].
    split; [apply formatLintMessage_severity|]. intros Hown.
    destruct (formatLintMessage_explained msg) as [He Hs].
    { intros rid Hrid. by apply (Hown (formatLintMessage msg) rid). }
    pose proof (lookup_in_table msg) as Hin.
    destruct (table_entries_nonempty _ Hin) as [Hne1 Hne2].
    exists (lookup_by_rule_then_message msg).
    rewrite He, Hs. split_and!; try done; by eexists.
  - intros Hr Hd.
    destruct (pylint_resolved_diagnostics _ _ _ _ Hr d Hd) as (msg & m & -> & Hm).
    destruct (formatPylintMessage_synthesised _ _ Hm) as (He & Hs & _).
    simpl. rewrite He, Hs. split; eexists; (split; [reflexivity|done]).
  - intros Hr Hd.
    destruct (cpp_resolved_diagnostics _ _ _ _ Hr d Hd) as (c & -> & Hc).
    split; [|done]. unfold severity_is_error_or_warning. simpl.
    destruct Hc as [-> | ->]; auto.
Qed.

Lemma diagnostics_shape_witness :
  severity_is_error_or_warning sample_cpp_located
  ∧ Diag.errorExplanation sample_cpp_located = JUndefined
  ∧ Diag.errorSuggestion sample_cpp_located = JUndefined.
Proof.
  destruct (diagnostics_shape sample_cpp_env "int main() { return 0 }"
              (initial ∅)
              (Success [mkFileAnalysis "<text>" sample_cpp_diagnostics]
                 "int main() { return 0 }" nullAIData)
              sample_cpp_located) as (_ & _ & H).
  apply H; [by vm_compute|]. apply list_elem_of_here.
Defined.

(** The compiler strategy resolves with a diagnostic that has neither an
    explanation nor a suggestion, and the Pylint strategy with one that has
    no severity: neither satisfies the invariant as the specification
    states it. *)
Lemma diagnostics_counterexample :
  (∃ r, (runCppAnalysis sample_cpp_env "int main() { return 0 }" (initial ∅)).1
        = Resolved r
        ∧ sample_cpp_located ∈ diagnostics r
        ∧ Diag.errorExplanation sample_cpp_located = JUndefined
        ∧ ¬ normalized sample_cpp_located)
  ∧ (∃ r, (runPylintAnalysis (sample_pylint_env None) "x = 1" (initial ∅)).1
          = Resolved r
          ∧ OfPylint sample_pylint_diagnostic ∈ diagnostics r
          ∧ Diag.severity (OfPylint sample_pylint_diagnostic) = JUndefined
          ∧ ¬ normalized (OfPylint sample_pylint_diagnostic)).
Proof.
  split.
  - exists (Success [mkFileAnalysis "<text>" sample_cpp_diagnostics]
              "int main() { return 0 }" nullAIData).
    split_and!; [by vm_compute|apply list_elem_of_here|reflexivity|].
    intros (_ & (e & He & _) & _). discriminate He.
  - exists (Success [mkFileAnalysis "<text>" [OfPylint sample_pylint_diagnostic]]
              "x = 1" nullAIData).
    split_and!; [by vm_compute|apply list_elem_of_here|reflexivity|].
    intros ([H|H] & _); discriminate H.
Qed.

(* ===================================================================== *)
(** ** The answer of the model *)
(* ===================================================================== *)

Lemma length_app_str (a b : string) :
  String.length (a +:+ b) = (String.length a + String.length b)%nat.
Proof. induction a as [|c a IH]; [done|]. rewrite app_cons. simpl. by rewrite IH. Qed.

Lemma drop_app_str (a b : string) : Str.drop (String.length a) (a +:+ b) = b.
Proof. induction a as [|c a IH]; [by destruct b|]. by rewrite app_cons. Qed.

Lemma take_app_str (a b : string) : Str.take (String.length a) (a +:+ b) = a.
Proof.
  induction a as [|c a IH]; [by destruct b|]. rewrite app_cons. simpl.
  by rewrite IH.
Qed.

Lemma starts_with_cons (a b : ascii) (k s : string) :
  Str.starts_with (String a k) (String b s)
  = bool_decide (a = b) && Str.starts_with k s.
Proof. done. Qed.

Lemma starts_with_other (k0 : ascii) (k' : string) (c : ascii) (s : string) :
  c ≠ k0 → Str.starts_with (String k0 k') (String c s) = false.
Proof. intros H. simpl. rewrite bool_decide_eq_false_2; [done|congruence]. Qed.

Lemma no_char_cons (k c : ascii) (s : string) :
  no_char k (String c s) = true ↔ c ≠ k ∧ no_char k s = true.
Proof.
  unfold no_char. simpl. rewrite andb_true_iff, negb_true_iff,
    bool_decide_eq_false. tauto.
Qed.

Lemma after_first_app (k0 : ascii) (k' pre rest : string) :
  no_char k0 pre = true →
  Str.after_first (String k0 k') (pre +:+ String k0 k' +:+ rest) = Some rest.
Proof.
  intros H. induction pre as [|c pre IH].
  - rewrite app_empty_l. unfold Str.after_first.
    destruct (String k0 k' +:+ rest) eqn:E; rewrite <- E;
      rewrite starts_with_app; by rewrite drop_app_str.
  - apply no_char_cons in H as [Hc H]. rewrite app_cons.
    cbn [Str.after_first]. rewrite starts_with_other by done. by apply IH.
Qed.

Lemma after_first_none (k0 : ascii) (k' s : string) :
  no_char k0 s = true → Str.after_first (String k0 k') s = None.
Proof.
  intros H. induction s as [|c s IH]; [done|].
  apply no_char_cons in H as [Hc H].
  cbn [Str.after_first]. rewrite starts_with_other by done. by apply IH.
Qed.

Lemma starts_with_second (k0 k1 : ascii) (k' inner rest : string) :
  k0 ≠ k1 → no_char k1 inner = true →
  Str.starts_with (String k1 k') (inner +:+ String k0 rest) = false.
Proof.
  intros Hk H. destruct inner as [|c inner].
  - rewrite app_empty_l. by apply starts_with_other.
  - apply no_char_cons in H as [Hc H]. rewrite app_cons.
    by apply starts_with_other.
Qed.

Lemma before_first_app (k0 k1 : ascii) (k' inner post : string) :
  k0 ≠ k1 → no_char k1 inner = true →
  Str.before_first (String k0 (String k1 k'))
    (inner +:+ String k0 (String k1 k') +:+ post) = Some inner.
Proof.
  intros Hk H. induction inner as [|c inner IH].
  - rewrite app_empty_l. unfold Str.before_first.
    destruct (String k0 (String k1 k') +:+ post) eqn:E; rewrite <- E;
      by rewrite starts_with_app.
  - pose proof H as H'. apply no_char_cons in H' as [Hc H'].
    rewrite app_cons. cbn [Str.before_first].
    replace (Str.starts_with _ _) with false.
    + rewrite IH by done. done.
    + symmetry. rewrite starts_with_cons, !app_cons.
      rewrite (starts_with_second k0 k1) by done. by rewrite andb_false_r.
Qed.

Lemma index_from_app (i : Z) (k0 : ascii) (k' pre rest : string) :
  no_char k0 pre = true →
  Str.index_from i (String k0 k') (pre +:+ String k0 k' +:+ rest)
  = Some (i + Z.of_nat (String.length pre)).
Proof.
  intros H. revert i. induction pre as [|c pre IH]; intros i.
  - rewrite app_empty_l, app_cons. cbn [Str.index_from].
    rewrite <- app_cons, starts_with_app. f_equal. simpl String.length. lia.
  - apply no_char_cons in H as [Hc H]. rewrite app_cons.
    cbn [Str.index_from]. rewrite starts_with_other by done.
    rewrite IH by done. f_equal. simpl String.length. lia.
Qed.

Lemma index_from_none (i : Z) (k0 : ascii) (k' s : string) :
  no_char k0 s = true → Str.index_from i (String k0 k') s = None.
Proof.
  intros H. revert i. induction s as [|c s IH]; intros i; [done|].
  apply no_char_cons in H as [Hc H].
  cbn [Str.index_from]. rewrite starts_with_other by done. by apply IH.
Qed.

Lemma last_index_from_none (i : Z) (k0 : ascii) (k' s : string) :
  no_char k0 s = true → Str.last_index_from i (String k0 k') s = None.
Proof.
  intros H. revert i. induction s as [|c s IH]; intros i; [done|].
  apply no_char_cons in H as [Hc H].
  cbn [Str.last_index_from]. rewrite starts_with_other by done.
  by rewrite IH.
Qed.

Lemma last_index_from_app (i : Z) (k0 : ascii) (a post : string) :
  no_char k0 post = true →
  Str.last_index_from i (String k0 "") (a +:+ String k0 post)
  = Some (i + Z.of_nat (String.length a)).
Proof.
  intros H. revert i. induction a as [|c a IH]; intros i.
  - rewrite app_empty_l. cbn [Str.last_index_from].
    rewrite last_index_from_none by done.
    rewrite starts_with_cons, bool_decide_eq_true_2 by done.
    cbn [andb Str.starts_with]. f_equal. simpl String.length. lia.
  - rewrite app_cons. cbn [Str.last_index_from]. rewrite IH.
    f_equal. simpl String.length. lia.
Qed.

Lemma trim_empty_truthy (s : string) :
  negb (Str.truthy s) || bool_decide (Str.trim s = "")
  = bool_decide (Str.trim s = "").
Proof. by destruct s. Qed.

Lemma getAIExplanation_answer env code language msgs s ask issues text :
  model env = Some ask →
  mapM issue_line msgs = Normal issues →
  ask (build_prompt code language issues) = Normal text →
  (getAIExplanation env code language msgs s).1 = Normal (answer_data env text).
Proof.
  intros Hmodel Hissues Hanswer.
  unfold getAIExplanation. rewrite Hmodel. unfold_M. rewrite Hissues.
  unfold ask_model. unfold_M. rewrite Hanswer. cbv beta iota.
  rewrite trim_empty_truthy. unfold answer_data, parseJSON.
  destruct (bool_decide (Str.trim (extract_json_text text) = "")); [done|].
  destruct (JSON_parse env (extract_json_text text)) as [v|m]; [|done].
  by destruct v.
Qed.

(** X4. When the answer of the model holds a block fenced with three
    backticks and the word json, and neither the text before the block nor
    the block has a backtick, the text taken for [JSON.parse] is the content
    of the block, whatever braces surround it. *)
Theorem fenced_block_is_extracted (pre inner post : string)
    (Hpre : no_char "`" pre = true)
    (Hinner : no_char "`" inner = true) :
  extract_json_text
    (pre +:+ "```json" +:+ Str.nl +:+ inner +:+ Str.nl +:+ "```" +:+ post)
  = inner.
Proof.
  unfold extract_json_text, fenced_json.
  change ("```json" +:+ Str.nl +:+ inner +:+ Str.nl +:+ "```" +:+ post)
    with (String "`" ("``json" +:+ Str.nl)
          +:+ (inner +:+ String "010" (String "`" "``") +:+ post)).
  change ("```json" +:+ Str.nl) with (String "`" ("``json" +:+ Str.nl)).
  rewrite after_first_app by done. cbn [mbind option_bind].
  change (Str.nl +:+ "```") with (String "010" (String "`" "``")).
  by rewrite before_first_app.
Qed.

Lemma fenced_block_is_extracted_witness :
  extract_json_text sample_fenced_answer = sample_answer_object.
Proof.
  apply (fenced_block_is_extracted ("Sure {see below}:" +:+ Str.nl)
           sample_answer_object (Str.nl +:+ "Done.")); reflexivity.
Defined.

Lemma substring_span (a b c : string) :
  Str.substring (Z.of_nat (String.length a))
    (Z.of_nat (String.length a + String.length b)) (a +:+ b +:+ c) = b.
Proof.
  unfold Str.substring. rewrite !length_app_str.
  set (la := String.length a). set (lb := String.length b).
  set (lc := String.length c).
  rewrite (Z.min_l (Z.of_nat la)), (Z.min_l (Z.of_nat (la + lb))) by lia.
  rewrite !Z.max_r, Z.min_l by lia.
  replace (Z.to_nat (Z.of_nat (la + lb) - Z.of_nat la)) with lb by lia.
  rewrite Nat2Z.id. subst la lb. by rewrite drop_app_str, take_app_str.
Qed.

Lemma substring_prefix (n : Z) (a c : string) :
  n ≤ 0 →
  Str.substring (Z.of_nat (String.length a)) n (a +:+ c) = a.
Proof.
  intros Hn. unfold Str.substring. rewrite length_app_str.
  set (la := String.length a). set (lc := String.length c).
  rewrite (Z.min_l (Z.of_nat la)), (Z.min_l n) by lia.
  rewrite (Z.max_r 0 (Z.of_nat la)), (Z.max_l 0 n) by lia.
  rewrite Z.min_r, Z.max_l by lia.
  replace (Z.to_nat (Z.of_nat la - 0)) with la by lia.
  change (Z.to_nat 0) with 0%nat. subst la.
  change (Str.drop 0 (a +:+ c)) with (a +:+ c) at 1.
  - by rewrite take_app_str.
Qed.

Lemma no_char_app (k : ascii) (a b : string) :
  no_char k (a +:+ b) = true ↔ no_char k a = true ∧ no_char k b = true.
Proof.
  induction a as [|c a IH]; [rewrite app_empty_l; unfold no_char; simpl; tauto|].
  rewrite app_cons, !no_char_cons, IH. tauto.
Qed.

(** X5. In an answer without backticks, the text taken for [JSON.parse]
    runs from the first opening brace to the last closing brace: the prose
    before and after the object is dropped. *)
Theorem brace_span_is_extracted (pre mid post : string)
    (Hfence : no_char "`" (pre +:+ "{" +:+ mid +:+ "}" +:+ post) = true)
    (Hpre : no_char "{" pre = true)
    (Hpost : no_char "}" post = true) :
  extract_json_text (pre +:+ "{" +:+ mid +:+ "}" +:+ post)
  = "{" +:+ mid +:+ "}".
Proof.
  unfold extract_json_text, fenced_json.
  change ("```json" +:+ Str.nl) with (String "`" ("``json" +:+ Str.nl)).
  rewrite after_first_none by done. cbn [mbind option_bind].
  unfold Str.indexOf, Str.lastIndexOf.
  rewrite (index_from_app 0 "{" "" pre) by done.
  replace (pre +:+ "{" +:+ mid +:+ "}" +:+ post)
    with ((pre +:+ "{" +:+ mid) +:+ String "}" post) at 1
    by by rewrite !app_assoc_str.
  rewrite last_index_from_app by done. cbv [default from_option id].
  rewrite !length_app_str.
  replace (pre +:+ "{" +:+ mid +:+ "}" +:+ post)
    with (pre +:+ ("{" +:+ mid +:+ "}") +:+ post)
    by by rewrite !app_assoc_str.
  replace (0 + Z.of_nat (String.length pre))
    with (Z.of_nat (String.length pre)) by lia.
  replace (0 + Z.of_nat (String.length pre + (String.length "{" + String.length mid)) + 1)
    with (Z.of_nat (String.length pre + String.length ("{" +:+ mid +:+ "}"))).
  - apply substring_span.
  - rewrite !length_app_str. simpl String.length. lia.
Qed.

Lemma brace_span_is_extracted_witness :
  extract_json_text sample_answer = sample_answer_object.
Proof.
  apply (brace_span_is_extracted "Here is my analysis: "
           (Str.dq +:+ "explanation" +:+ Str.dq +:+ ": "
            +:+ Str.dq +:+ "A semicolon is missing." +:+ Str.dq)
           " Good luck."); reflexivity.
Defined.

(** X6. In an answer without backticks and without a closing brace, an
    opening brace makes the text before it the text taken for [JSON.parse]:
    what follows the brace is dropped. *)
Theorem unclosed_brace_takes_prefix (pre rest : string)
    (Hfence : no_char "`" (pre +:+ "{" +:+ rest) = true)
    (Hpre : no_char "{" pre = true)
    (Hclose : no_char "}" (pre +:+ "{" +:+ rest) = true) :
  extract_json_text (pre +:+ "{" +:+ rest) = pre.
Proof.
  unfold extract_json_text, fenced_json.
  change ("```json" +:+ Str.nl) with (String "`" ("``json" +:+ Str.nl)).
  rewrite after_first_none by done. cbn [mbind option_bind].
  unfold Str.indexOf, Str.lastIndexOf.
  rewrite (index_from_app 0 "{" "" pre) by done.
  rewrite (last_index_from_none 0 "}" "") by done. cbv [default from_option id].
  replace (0 + Z.of_nat (String.length pre))
    with (Z.of_nat (String.length pre)) by lia.
  by apply substring_prefix.
Qed.

Lemma unclosed_brace_takes_prefix_witness :
  extract_json_text "The function body { is never closed" = "The function body ".
Proof.
  apply (unclosed_brace_takes_prefix "The function body " " is never closed");
    reflexivity.
Defined.

Lemma extract_json_text_plain (text : string) :
  no_char "`" text = true → no_char "{" text = true → no_char "}" text = true →
  extract_json_text text = "".
Proof.
  intros Hfence Hopen Hclose. unfold extract_json_text, fenced_json.
  change ("```json" +:+ Str.nl) with (String "`" ("``json" +:+ Str.nl)).
  rewrite after_first_none by done. cbn [mbind option_bind].
  unfold Str.indexOf, Str.lastIndexOf.
  rewrite (index_from_none 0 "{" "") by done.
  rewrite (last_index_from_none 0 "}" "") by done.
  cbv [default from_option id]. unfold Str.substring.
  rewrite (Z.min_l (-1)), (Z.min_l (-1 + 1)) by lia.
  by rewrite (Z.max_l 0 (-1)) by lia.
Qed.

(** X7. When the model answers with a text that has no backtick and no
    brace, the augmenter returns that text as [aiExplanation], a fixed
    sentence as [aiSuggestion] and [null] as [aiFixedCode]; [JSON.parse] is
    not consulted. *)
Theorem plain_answer_becomes_explanation env code language msgs s ask issues text
    (Hmodel : model env = Some ask)
    (Hissues : mapM issue_line msgs = Normal issues)
    (Hanswer : ask (build_prompt code language issues) = Normal text)
    (Hfence : no_char "`" text = true)
    (Hopen : no_char "{" text = true)
    (Hclose : no_char "}" text = true) :
  (getAIExplanation env code language msgs s).1
  = Normal (mkAIData (JStr text)
              (JStr "Could not parse AI response into JSON. Check original AI response.")
              JNull).
Proof.
  rewrite (getAIExplanation_answer env code language msgs s ask issues text)
    by done.
  unfold answer_data. by rewrite extract_json_text_plain.
Qed.

Lemma plain_answer_becomes_explanation_witness :
  (getAIExplanation (sample_answering_env "Add a semicolon after return 0.")
     "int main() { return 0 }" "c++" sample_cpp_diagnostics (initial ∅)).1
  = Normal (mkAIData (JStr "Add a semicolon after return 0.")
              (JStr "Could not parse AI response into JSON. Check original AI response.")
              JNull).
Proof.
  by eapply (plain_answer_becomes_explanation
               (sample_answering_env "Add a semicolon after return 0.")
               "int main() { return 0 }" "c++" sample_cpp_diagnostics (initial ∅)
               (λ _, Normal "Add a semicolon after return 0.")).
Defined.

(** X8. Whatever text the model answers, the augmenter returns: when the
    text taken from the answer is not valid JSON, or is the JSON value
    [null], the three fields are [null]; when it is a JSON object, the three
    fields are its properties [explanation], [suggestion] and [fixedCode],
    [undefined] for a property the object lacks. *)
Theorem augmenter_survives_any_answer env code language msgs s ask issues text
    (Hmodel : model env = Some ask)
    (Hissues : mapM issue_line msgs = Normal issues)
    (Hanswer : ask (build_prompt code language issues) = Normal text) :
  (∃ ai, (getAIExplanation env code language msgs s).1 = Normal ai)
  ∧ (Str.trim (extract_json_text text) ≠ "" →
     (∀ message,
        JSON_parse env (extract_json_text text) = inr message →
        (getAIExplanation env code language msgs s).1
        = Normal (mkAIData JNull JNull JNull))
     ∧ (JSON_parse env (extract_json_text text) = inl JNull →
        (getAIExplanation env code language msgs s).1
        = Normal (mkAIData JNull JNull JNull))
     ∧ (∀ props,
          JSON_parse env (extract_json_text text) = inl (JObj props) →
          (getAIExplanation env code language msgs s).1
          = Normal (mkAIData
                      (default JUndefined (Js.assoc "explanation" props))
                      (default JUndefined (Js.assoc "suggestion" props))
                      (default JUndefined (Js.assoc "fixedCode" props))))).
Proof.
  rewrite (getAIExplanation_answer env code language msgs s ask issues text)
    by done.
  split; [by eexists|]. intros Hblank. unfold answer_data.
  rewrite bool_decide_eq_false_2 by done.
  split_and!; [intros message Hp|intros Hp|intros props Hp]; by rewrite Hp.
Qed.

Lemma augmenter_survives_any_answer_witness :
  (getAIExplanation (sample_answering_env sample_answer)
     "int main() { return 0 }" "c++" sample_cpp_diagnostics (initial ∅)).1
  = Normal (mkAIData (JStr "A semicolon is missing.") JUndefined JUndefined).
Proof.
  pose proof (augmenter_survives_any_answer (sample_answering_env sample_answer)
       "int main() { return 0 }" "c++" sample_cpp_diagnostics (initial ∅)
       (λ _, Normal sample_answer) _ sample_answer eq_refl eq_refl eq_refl)
    as [_ H].
  destruct H as (_ & _ & H); [by vm_compute|].
  apply (H [("explanation", JStr "A semicolon is missing.")]).
  by vm_compute.
Defined.

(** X9. One call of the augmenter sends at most one request to the model,
    creates and removes no file, spawns no process and writes no file. *)
Theorem augmenter_sends_at_most_one_request env code language msgs s :
  files (getAIExplanation env code language msgs s).2 = files s
  ∧ (occurrences is_request (trace (getAIExplanation env code language msgs s).2)
     = occurrences is_request (trace s)
     ∨ occurrences is_request (trace (getAIExplanation env code language msgs s).2)
       = S (occurrences is_request (trace s)))
  ∧ occurrences is_spawn (trace (getAIExplanation env code language msgs s).2)
    = occurrences is_spawn (trace s)
  ∧ occurrences is_write (trace (getAIExplanation env code language msgs s).2)
    = occurrences is_write (trace s)
  ∧ augmenter_calls (trace (getAIExplanation env code language msgs s).2)
    = S (augmenter_calls (trace s)).
Proof.
  destruct (getAIExplanation_frame env code language msgs s)
    as (sent & -> & Hsent).
  unfold augmenter_calls. cbn [files trace]. rewrite !occurrences_app.
  destruct Hsent as [->|[prompt ->]]; cbn; split_and!; try done; try lia;
    first [left; lia | right; lia].
Qed.

Lemma includes_head (k b : string) : Str.includes (k +:+ b) k = true.
Proof.
  destruct (k +:+ b) eqn:E; cbn [Str.includes]; rewrite <- E;
    by rewrite starts_with_app.
Qed.

Lemma includes_app_r (a b k : string) :
  Str.includes b k = true → Str.includes (a +:+ b) k = true.
Proof.
  intros H. induction a as [|c a IH]; [by rewrite app_empty_l|].
  rewrite app_cons. cbn [Str.includes]. rewrite IH. apply orb_true_r.
Qed.

Lemma starts_with_app_l (k a b : string) :
  Str.starts_with k a = true → Str.starts_with k (a +:+ b) = true.
Proof.
  revert a. induction k as [|c k IH]; intros a H; [by destruct (a +:+ b)|].
  destruct a as [|c' a]; [done|].
  rewrite app_cons, starts_with_cons in *.
  apply andb_true_iff in H as [-> H]. by rewrite IH.
Qed.

Lemma includes_app_l (a b k : string) :
  Str.includes a k = true → Str.includes (a +:+ b) k = true.
Proof.
  induction a as [|c a IH]; intros H.
  - cbn in H. rewrite orb_false_r in H. destruct k; [by destruct b|done].
  - rewrite app_cons. cbn [Str.includes] in *.
    apply orb_true_iff in H as [H|H].
    + rewrite <- app_cons, (starts_with_app_l _ _ _ H). done.
    + rewrite (IH H). apply orb_true_r.
Qed.

Lemma includes_self (k : string) : Str.includes k k = true.
Proof. rewrite <- (app_empty_r k) at 1. apply includes_head. Qed.

Lemma includes_join (sep : string) (l : list string) (x : string) :
  x ∈ l → Str.includes (Str.join sep l) x = true.
Proof.
  induction l as [|a l IH]; intros Hx; [by apply elem_of_nil in Hx|].
  apply elem_of_cons in Hx as [->|Hx].
  - destruct l; [apply includes_self|apply includes_head].
  - destruct l as [|b l]; [by apply elem_of_nil in Hx|].
    change (Str.join sep (a :: b :: l)) with (a +:+ sep +:+ Str.join sep (b :: l)).
    do 2 apply includes_app_r. by apply IH.
Qed.

(** X26. When the model is configured and the prompt can be built, the
    augmenter sends one request, whose prompt holds the submitted code, the
    language tag and one line for each diagnostic. *)
Theorem prompt_carries_the_code env code language msgs s ask issues
    (Hmodel : model env = Some ask)
    (Hissues : mapM issue_line msgs = Normal issues) :
  EvSendMessage (build_prompt code language issues)
    ∈ trace (getAIExplanation env code language msgs s).2
  ∧ occurrences is_request (trace (getAIExplanation env code language msgs s).2)
    = S (occurrences is_request (trace s))
  ∧ Str.includes (build_prompt code language issues) code = true
  ∧ Str.includes (build_prompt code language issues) language = true
  ∧ Forall2 (λ msg line, issue_line msg = Normal line) msgs issues
  ∧ (∀ line, line ∈ issues →
       Str.includes (build_prompt code language issues) line = true).
Proof.
  assert (Htrace : ∃ s', (getAIExplanation env code language msgs s).2 = s'
            ∧ trace s' = trace s ++ [EvAugment language msgs;
                                      EvSendMessage (build_prompt code language issues)]).
  { unfold getAIExplanation. rewrite Hmodel. unfold_M. rewrite Hissues.
    unfold ask_model. unfold_M. cbv beta iota. cbn [files trace].
    destruct (ask (build_prompt code language issues)) as [text|e].
    - destruct (negb _ || _); [eexists; split; [done|]; cbn; by rewrite <- app_assoc|].
      destruct (parseJSON env _) as [v|e];
        [|destruct e as [? [[?|?]|]]; eexists; split; try done; cbn;
          by rewrite <- app_assoc].
      destruct (Js.get v "explanation") as [?|e];
        [|destruct e as [? [[?|?]|]]; eexists; split; try done; cbn;
          by rewrite <- app_assoc].
      destruct (Js.get v "suggestion") as [?|e];
        [|destruct e as [? [[?|?]|]]; eexists; split; try done; cbn;
          by rewrite <- app_assoc].
      destruct (Js.get v "fixedCode") as [?|e];
        [|destruct e as [? [[?|?]|]]]; eexists; split; try done; cbn;
          by rewrite <- app_assoc.
    - destruct e as [? [[?|?]|]]; eexists; split; try done; cbn;
        by rewrite <- app_assoc. }
  destruct Htrace as (s' & -> & Ht). rewrite Ht. split_and!.
  - in_trace.
  - rewrite occurrences_app. cbn. lia.
  - unfold build_prompt. do 10 apply includes_app_r. apply includes_head.
  - unfold build_prompt. apply includes_app_r, includes_head.
  - by apply mapM_Normal_Forall2.
  - intros line Hline. unfold build_prompt. do 17 apply includes_app_r.
    apply includes_app_l. by apply includes_join.
Qed.

Lemma prompt_carries_the_code_witness :
  Str.includes
    (build_prompt "int main() { return 0 }" "c++"
       [ "- Line 3, Column 5 [ERROR]: expected ';' before '}' token (Rule: g++-compilation)";
         "- Line 0, Column 0 [ERROR]: foo.cpp: In function 'main': error: expected ';' (Rule: g++-compilation)" ])
    "int main() { return 0 }" = true.
Proof.
  by destruct (prompt_carries_the_code sample_cpp_env "int main() { return 0 }"
                 "c++" sample_cpp_diagnostics (initial ∅) sample_model
                 [ "- Line 3, Column 5 [ERROR]: expected ';' before '}' token (Rule: g++-compilation)";
                   "- Line 0, Column 0 [ERROR]: foo.cpp: In function 'main': error: expected ';' (Rule: g++-compilation)" ]
                 eq_refl eq_refl) as (_ & _ & H & _).
Defined.

(* ===================================================================== *)
(** ** More on the in-process strategy *)
(* ===================================================================== *)

Lemma formatLintResults_map (results : list Lint.Result) :
  formatLintResults results
  = map (λ msg, OfEsLint (formatLintMessage msg)) (lint_messages results).
Proof.
  unfold formatLintResults, lint_messages.
  induction results as [|r rs IH]; [done|].
  cbn [map concat]. by rewrite map_app, IH.
Qed.

Lemma runEsLintAnalysis_state env code s :
  ∃ sent,
    (sent = [] ∨ ∃ prompt, sent = [EvSendMessage prompt])
    ∧ (runEsLintAnalysis env code s).2
      = mkState (files s)
          (trace s ++ EvLintText code ::
             match ESLint_lintText env code with
             | Normal results =>
                 if bool_decide (lint_messages results = []) then []
                 else EvAugment "javascript" (formatLintResults results) :: sent
             | Throw _ => []
             end).
Proof.
  rewrite runEsLintAnalysis_paths.
  destruct (ESLint_lintText env code) as [results|error] eqn:Hlint;
    [|exists []; by split; [left|]].
  cbv zeta. rewrite (formatLintResults_map results).
  destruct (lint_messages results) as [|m ms] eqn:Hm;
    [exists []; by split; [left|]|].
  rewrite bool_decide_eq_false_2 by done. cbn [map].
  set (ds := OfEsLint (formatLintMessage m)
             :: map (λ msg, OfEsLint (formatLintMessage msg)) ms).
  destruct (getAIExplanation_frame env code "javascript" ds (linted code s))
    as (sent & Hs & Hsent).
  exists sent. split; [done|].
  destruct (getAIExplanation env code "javascript" ds (linted code s))
    as [[ai|e] s']; cbn [snd] in *; subst s'; cbn [linted files trace];
    by rewrite <- app_assoc.
Qed.

(** X10. The in-process strategy always resolves, with the success shape or
    the failure shape; it calls the linter once, creates and removes no
    file, spawns no process and writes no file. *)
Theorem eslint_always_resolves env code s :
  (∃ r, (runEsLintAnalysis env code s).1 = Resolved r)
  ∧ files (runEsLintAnalysis env code s).2 = files s
  ∧ occurrences is_lintText (trace (runEsLintAnalysis env code s).2)
    = S (occurrences is_lintText (trace s))
  ∧ occurrences is_spawn (trace (runEsLintAnalysis env code s).2)
    = occurrences is_spawn (trace s)
  ∧ occurrences is_write (trace (runEsLintAnalysis env code s).2)
    = occurrences is_write (trace s).
Proof.
  split.
  - rewrite runEsLintAnalysis_paths.
    destruct (ESLint_lintText env code) as [results|error]; [|by eexists].
    cbv zeta. destruct (formatLintResults results) as [|d ds]; [by eexists|].
    destruct (getAIExplanation env code "javascript" (d :: ds) (linted code s))
      as [[ai|e] s']; by eexists.
  - destruct (runEsLintAnalysis_state env code s) as (sent & Hsent & ->).
    cbn [files trace]. rewrite !occurrences_app.
    destruct (ESLint_lintText env code) as [results|error];
      [destruct (bool_decide (lint_messages results = []))|];
      destruct Hsent as [->|[prompt ->]]; cbn; split_and!; try done; lia.
Qed.

(** X11. When the linter throws, the in-process strategy resolves with the
    failure shape, the message of the exception as [details], and the
    augmenter is not called.  When the linter returns, the augmenter is
    called once if there is at least one message, with the tag javascript
    and all the diagnostics, and not at all otherwise. *)
Theorem eslint_augmenter_called_iff_messages env code s :
  (∀ error,
     ESLint_lintText env code = Throw error →
     runEsLintAnalysis env code s
     = (Resolved (Failure "Failed to run ESLint. Check server logs for details."
                    (Some (exn_message error))),
        mkState (files s) (trace s ++ [EvLintText code])))
  ∧ (∀ results,
       ESLint_lintText env code = Normal results →
       augmenter_calls (trace (runEsLintAnalysis env code s).2)
       = (augmenter_calls (trace s)
          + if bool_decide (lint_messages results = []) then 0 else 1)%nat
       ∧ (lint_messages results ≠ [] →
          EvAugment "javascript" (formatLintResults results)
            ∈ trace (runEsLintAnalysis env code s).2)).
Proof.
  split.
  - intros error Hlint. by rewrite runEsLintAnalysis_paths, Hlint.
  - intros results Hlint.
    destruct (runEsLintAnalysis_state env code s) as (sent & Hsent & ->).
    rewrite Hlint. unfold augmenter_calls. cbn [files trace].
    rewrite !occurrences_app. split.
    + destruct (bool_decide (lint_messages results = []));
        destruct Hsent as [->|[prompt ->]]; cbn; lia.
    + intros Hne. rewrite bool_decide_eq_false_2 by done. in_trace.
Qed.

Lemma formatLintMessage_keeps (msg : Lint.Message) :
  keeps_message msg (OfEsLint (formatLintMessage msg)).
Proof.
  unfold keeps_message, formatLintMessage. cbn.
  split_and!; try done.
  destruct (Z.eqb_spec (Lint.severity msg) 2) as [->|Hne]; [done|].
  by rewrite bool_decide_eq_false_2.
Qed.

(** X12. When the linter returns and the in-process strategy resolves with
    the success shape, the result has one group named <text> with one
    diagnostic per linter message, in the order of the linter; each
    diagnostic keeps the rule identifier, the text, the line and the column
    of its message, and its severity is error for the level 2 and warning
    for any other level.  [fixedCode] is the output of the first linter
    result when it has one, and the submitted code otherwise. *)
Theorem eslint_diagnostics_follow_messages env code s results r
    (Hlint : ESLint_lintText env code = Normal results)
    (Hres : (runEsLintAnalysis env code s).1 = Resolved r)
    (Hok : success r = true) :
  Forall2 keeps_message (lint_messages results) (diagnostics r)
  ∧ length (diagnostics r) = length (lint_messages results)
  ∧ fixedCode_of r
    = Some match results with
           | first :: _ => default code (Lint.output first)
           | [] => code
           end
  ∧ ∃ fixedCode ai,
      r = Success [mkFileAnalysis "<text>" (diagnostics r)] fixedCode ai.
Proof.
  assert (Hall : ∀ msgs, Forall2 keeps_message msgs
                   (map (λ msg, OfEsLint (formatLintMessage msg)) msgs)).
  { induction msgs as [|m ms IH]; constructor;
      [apply formatLintMessage_keeps|done]. }
  rewrite runEsLintAnalysis_paths, Hlint in Hres. cbv zeta in Hres.
  pose proof (formatLintResults_map results) as Hmap.
  destruct (formatLintResults results) as [|d ds] eqn:Hf.
  - injection Hres as <-. cbn. rewrite ?app_nil_r.
    symmetry in Hmap. apply map_eq_nil in Hmap. rewrite Hmap.
    split_and!; [constructor|done|done|by eexists _, _].
  - destruct (getAIExplanation env code "javascript" (d :: ds) (linted code s))
      as [[ai|e] s']; cbn [fst] in Hres; injection Hres as <-; [|done].
    cbn [diagnostics map fa_messages concat fixedCode_of]. rewrite ?app_nil_r.
    rewrite Hmap. split_and!; [apply Hall|by rewrite length_map|done|].
    eexists _, _. by rewrite <- Hmap.
Qed.

Lemma eslint_diagnostics_follow_messages_witness :
  Forall2 keeps_message [sample_semicolon_message] (diagnostics sample_lint_result)
  ∧ fixedCode_of sample_lint_result = Some "let x = 5;".
Proof.
  destruct (eslint_diagnostics_follow_messages sample_lint_env "let x = 5"
              (initial ∅)
              [Lint.mkResult [sample_semicolon_message] (Some "let x = 5;")]
              sample_lint_result) as (H1 & _ & H2 & _);
    [reflexivity|by vm_compute|reflexivity|].
  by split.
Defined.

(* ===================================================================== *)
(** ** More on the subprocess strategies *)
(* ===================================================================== *)

Lemma pylint_parse_outcome_resolved env code stdout stderr :
  ∃ r, pylint_parse_outcome env code stdout stderr = Resolved r.
Proof.
  unfold pylint_parse_outcome, pylint_parse_failure.
  destruct (JSON_parse env (Str.or_else stdout "[]")) as [v|m]; [|by eexists].
  destruct (formatPylintResults v) as [[|d ds]|e]; try by eexists.
  destruct (augmenter_result env code "python" (map OfPylint (d :: ds)));
    by eexists.
Qed.

Lemma pylint_close_outcome_resolved env code stdout stderr :
  ∃ r, pylint_close_outcome_of env code stdout stderr = Resolved r.
Proof.
  unfold pylint_close_outcome_of, pylint_missing.
  destruct (pylint_not_installed stderr); [by eexists|].
  destruct (Str.truthy stderr && negb (Str.truthy stdout)); [by eexists|].
  apply pylint_parse_outcome_resolved.
Qed.

Lemma pylint_close_outcome_empty env code :
  pylint_close_outcome_of env code "" "" = pylint_parse_outcome env code "" "".
Proof. reflexivity. Qed.

(** X13. For a child that ends, the promise of the Pylint strategy settles:
    it resolves or rejects.  It rejects exactly when the temporary file was
    written, the child could not be started and the ['error'] handler
    settles before the ['close'] handler; the reason then names the error
    of the child.  When the ['close'] handler settles first, the promise
    resolves as for a child that closed without any output: with success
    true and no diagnostic when [JSON.parse] reads the text of the empty
    array as the empty array. *)
Theorem pylint_promise_settles env code s :
  ((∃ r, (runPylintAnalysis env code s).1 = Resolved r)
   ∨ (∃ e, (runPylintAnalysis env code s).1 = Rejected e))
  ∧ (∀ e, (runPylintAnalysis env code s).1 = Rejected e
          ↔ fs_writeFile env (pylint_tempFilePath env) code = Written
            ∧ ∃ err exitCode closeFirst,
                spawn env "pylint" (pylint_args env)
                = EmitsError err exitCode closeFirst
                ∧ (closeFirst = false ∨ pylint_tempFilePath env = "")
                ∧ e = Error ("Failed to run Pylint: " +:+ exn_message err
                             +:+ ". Is Pylint installed and in your PATH?"))
  ∧ (∀ err exitCode,
       fs_writeFile env (pylint_tempFilePath env) code = Written →
       spawn env "pylint" (pylint_args env) = EmitsError err exitCode true →
       pylint_tempFilePath env ≠ "" →
       (runPylintAnalysis env code s).1 = pylint_close_outcome_of env code "" ""
       ∧ (JSON_parse env "[]" = inl (JArr []) →
          (runPylintAnalysis env code s).1
          = Resolved (Success [mkFileAnalysis "<text>" []] code nullAIData))).
Proof.
  rewrite runPylintAnalysis_outcome. unfold pylint_outcome.
  destruct (fs_writeFile env (pylint_tempFilePath env) code) as [|e0 leftover].
  - destruct (spawn env "pylint" (pylint_args env))
      as [e0|err x first|exitCode stdout stderr created].
    + split_and!; [left; by eexists| |done]. intros e. split; [done|].
      by intros (_ & err & ? & ? & ? & _).
    + destruct (pylint_close_outcome_resolved env code "" "") as [r Hr].
      rewrite Hr. cbn [settle_first].
      destruct first; cbn [andb].
      * destruct (Str.truthy (pylint_tempFilePath env)) eqn:Ht.
        -- apply truthy_true in Ht. split_and!; [left; by eexists| |].
           ++ intros e. split; [done|].
              intros (_ & err' & x' & first' & [= <- <- <-] & [?|?] & _); done.
           ++ intros err' x' _ [= <- <-] _. split; [done|].
              intros Hp. rewrite <- Hr.
              unfold pylint_close_outcome_of, pylint_parse_outcome. cbn.
              by rewrite Hp.
        -- apply truthy_false in Ht. split_and!; [right; by eexists| |].
           ++ intros e. unfold pylint_rejection. split.
              ** intros [= <-]. split; [done|]. exists err, x, true.
                 split_and!; [done|by right|done].
              ** by intros (_ & err' & x' & first' & [= <- <- <-] & _ & ->).
           ++ by intros err' x' _ _ ?.
      * split_and!; [right; by eexists| |done].
        intros e. unfold pylint_rejection. split.
        -- intros [= <-]. split; [done|]. exists err, x, false.
           split_and!; [done|by left|done].
        -- by intros (_ & err' & x' & first' & [= <- <- <-] & _ & ->).
    + destruct (pylint_close_outcome_resolved env code stdout stderr)
        as [r ->].
      split_and!; [left; by eexists| |done]. intros e. split; [done|].
      by intros (_ & err & ? & ? & ? & _).
  - split_and!; [left; by eexists| |done]. intros e. split; [done|].
    by intros [? _].
Qed.

Lemma cpp_close_outcome_not_rejected env code exitCode stderr e :
  cpp_close_outcome_of env code exitCode stderr = Rejected e → False.
Proof.
  unfold cpp_close_outcome_of, gpp_missing. cbv zeta.
  destruct (gpp_not_installed stderr); [done|].
  destruct (cpp_calls_augmenter exitCode stderr); [|done].
  by destruct (augmenter_result env code "c++" _).
Qed.

(** X14. The promise of the compiler strategy rejects exactly when the
    source file was written, the child could not be started, and the
    ['error'] handler settles before the ['close'] handler or the ['close']
    handler settles nothing.  It stays pending exactly when the child
    closes, the ['close'] handler calls the augmenter and the augmenter
    throws.  When the child could not be started and the ['close'] handler
    settles first, the promise resolves as for a child that closed with
    that exit code and an empty [stderr]; on a machine where the errors of
    the model can be logged that is success true without a diagnostic, and
    the promise of a child that ends always resolves or rejects. *)
Theorem cpp_promise_settles env code s :
  (∀ e, (runCppAnalysis env code s).1 = Rejected e
        ↔ fs_writeFile env (cpp_tempCppFilePath env) code = Written
          ∧ ∃ err exitCode closeFirst,
              spawn env "g++" (cpp_args env) = EmitsError err exitCode closeFirst
              ∧ (closeFirst = false
                 ∨ (cpp_tempCppFilePath env = "" ∧ cpp_tempExecutablePath env = "")
                 ∨ cpp_close_outcome_of env code exitCode "" = Pending)
              ∧ e = Error ("Failed to run g++: " +:+ exn_message err
                           +:+ ". Is g++ installed and in your PATH?"))
  ∧ ((runCppAnalysis env code s).1 = Pending
     ↔ fs_writeFile env (cpp_tempCppFilePath env) code = Written
       ∧ ∃ exitCode stdout stderr created e,
           spawn env "g++" (cpp_args env)
           = Closes exitCode stdout stderr created
           ∧ gpp_not_installed stderr = false
           ∧ (parseCppStderr stderr ≠ [] ∨ exitCode ≠ Some 0)
           ∧ augmenter_result env code "c++" (map OfCpp (parseCppStderr stderr))
             = Throw e)
  ∧ (∀ err exitCode,
       fs_writeFile env (cpp_tempCppFilePath env) code = Written →
       spawn env "g++" (cpp_args env) = EmitsError err exitCode true →
       cpp_tempCppFilePath env ≠ "" →
       (runCppAnalysis env code s).1
       = settle_first (cpp_close_outcome_of env code exitCode "")
           (Rejected (Error ("Failed to run g++: " +:+ exn_message err
                             +:+ ". Is g++ installed and in your PATH?")))
       ∧ (loggable_errors env →
          ∃ ai, (runCppAnalysis env code s).1
                = Resolved (Success [mkFileAnalysis "<text>" []] code ai)))
  ∧ (loggable_errors env →
     (∃ r, (runCppAnalysis env code s).1 = Resolved r)
     ∨ (∃ e, (runCppAnalysis env code s).1 = Rejected e)).
Proof.
  assert (Hclose : ∀ exitCode stderr,
            loggable_errors env → gpp_not_installed stderr = false →
            ∃ ai, cpp_close_outcome_of env code exitCode stderr
                  = Resolved (Success
                      [mkFileAnalysis "<text>" (map OfCpp (parseCppStderr stderr))]
                      code ai)).
  { intros exitCode stderr Hlog Hinst. unfold cpp_close_outcome_of. cbv zeta.
    rewrite Hinst. destruct (cpp_calls_augmenter exitCode stderr); [|by eexists].
    destruct (getAIExplanation_returns env code "c++"
                (map OfCpp (parseCppStderr stderr)) (initial ∅)
                (cpp_diagnostics_have_severity _) Hlog) as [ai Hr].
    rewrite getAIExplanation_result in Hr. rewrite Hr. by eexists. }
  assert (Hpending : ∀ exitCode stderr,
            cpp_close_outcome_of env code exitCode stderr = Pending
            ↔ gpp_not_installed stderr = false
              ∧ (parseCppStderr stderr ≠ [] ∨ exitCode ≠ Some 0)
              ∧ ∃ e, augmenter_result env code "c++"
                       (map OfCpp (parseCppStderr stderr)) = Throw e).
  { intros exitCode stderr. unfold cpp_close_outcome_of, gpp_missing. cbv zeta.
    destruct (gpp_not_installed stderr); [split; [done|by intros [? _]]|].
    destruct (cpp_calls_augmenter exitCode stderr) eqn:Hcalls.
    - apply cpp_calls_augmenter_iff in Hcalls.
      destruct (augmenter_result env code "c++" _) as [ai|e0].
      + split; [done|]. by intros (_ & _ & ? & ?).
      + split; [|done]. intros _. split_and!; [done|done|by eexists].
    - split; [done|]. intros (_ & Hc & _).
      apply cpp_calls_augmenter_iff in Hc. congruence. }
  rewrite runCppAnalysis_outcome. unfold cpp_outcome.
  destruct (fs_writeFile env (cpp_tempCppFilePath env) code) as [|e0 leftover].
  - destruct (spawn env "g++" (cpp_args env))
      as [e0|err x first|exitCode stdout stderr created] eqn:Hspawn.
    + split_and!.
      * intros e. split; [done|]. by intros (_ & err & ? & ? & ? & _).
      * split; [done|]. by intros (_ & ? & ? & ? & ? & ? & ? & _).
      * done.
      * intros _. left. by eexists.
    + set (raced := first && (Str.truthy (cpp_tempCppFilePath env)
                              || Str.truthy (cpp_tempExecutablePath env))).
      assert (Hraced : raced = false
                ↔ first = false
                  ∨ (cpp_tempCppFilePath env = ""
                     ∧ cpp_tempExecutablePath env = "")).
      { unfold raced. rewrite andb_false_iff, orb_false_iff, !truthy_false.
        tauto. }
      split_and!.
      * intros e. unfold cpp_rejection. split.
        -- intros He. split; [done|]. exists err, x, first.
           destruct raced eqn:Hr.
           ++ destruct (cpp_close_outcome_of env code x "") eqn:Hc;
                cbn [settle_first] in He;
                [done|by apply cpp_close_outcome_not_rejected in Hc|].
              injection He as <-. split_and!; [done|by right; right|done].
           ++ injection He as <-. pose proof (proj1 Hraced eq_refl).
              split_and!; [done|tauto|done].
        -- intros (_ & err' & x' & first' & [= <- <- <-] & Hwhy & ->).
           destruct raced eqn:Hr; [|done].
           destruct Hwhy as [Hf|[Hp|Hc]].
           ++ assert (true = false) by (apply Hraced; by left). done.
           ++ assert (true = false) by (apply Hraced; by right). done.
           ++ by rewrite Hc.
      * split; [|by intros (_ & ? & ? & ? & ? & ? & ? & _)].
        destruct raced; [|done].
        by destruct (cpp_close_outcome_of env code x "").
      * intros err' x' _ [= Herr Hx Hf] Hsrc.
        assert (raced = true) as ->.
        { unfold raced. apply truthy_true in Hsrc. by rewrite Hf, Hsrc. }
        rewrite <- Herr, <- Hx. split; [done|]. intros Hlog.
        destruct (Hclose x "" Hlog eq_refl) as [ai ->]. by exists ai.
      * intros Hlog. destruct raced; [|right; by eexists].
        destruct (Hclose x "" Hlog eq_refl) as [ai ->]. left. by eexists.
    + split_and!.
      * intros e. split; [|by intros (_ & err & ? & ? & ? & _)].
        unfold cpp_close_outcome_of, gpp_missing. cbv zeta.
        destruct (gpp_not_installed stderr); [done|].
        destruct (cpp_calls_augmenter exitCode stderr); [|done].
        by destruct (augmenter_result env code "c++" _).
      * rewrite Hpending. split.
        -- intros (Hi & Hc & e & He). split; [done|].
           by exists exitCode, stdout, stderr, created, e.
        -- intros (_ & ? & ? & ? & ? & e & [= <- <- <- <-] & Hi & Hc & He).
           split_and!; [done|done|by exists e].
      * done.
      * intros Hlog. destruct (gpp_not_installed stderr) eqn:Hinst.
        -- unfold cpp_close_outcome_of, gpp_missing. cbv zeta. rewrite Hinst.
           left. by eexists.
        -- destruct (Hclose exitCode stderr Hlog Hinst) as [ai ->].
           left. by eexists.
  - split_and!.
    + intros e. split; [done|]. by intros [? _].
    + split; [done|]. by intros [? _].
    + done.
    + intros _. left. by eexists.
Qed.

Lemma occurrences_snoc kind (t : list Event) (e : Event) :
  occurrences kind (t ++ [e])
  = (occurrences kind t + if kind e then 1 else 0)%nat.
Proof. rewrite occurrences_app. unfold occurrences. cbn. by destruct (kind e). Qed.

(** X15. When the temporary file cannot be written, a subprocess strategy
    resolves with its preparation failure, the message of the exception as
    [details]; no process is spawned and the augmenter is not called. *)
Theorem write_failure_spawns_nothing env code s :
  (∀ e leftover,
     fs_writeFile env (pylint_tempFilePath env) code = WriteFailed e leftover →
     (runPylintAnalysis env code s).1
     = Resolved (Failure "Failed to prepare Python code for analysis."
                   (Some (exn_message e)))
     ∧ occurrences is_spawn (trace (runPylintAnalysis env code s).2)
       = occurrences is_spawn (trace s)
     ∧ augmenter_calls (trace (runPylintAnalysis env code s).2)
       = augmenter_calls (trace s))
  ∧ (∀ e leftover,
       fs_writeFile env (cpp_tempCppFilePath env) code = WriteFailed e leftover →
       (runCppAnalysis env code s).1
       = Resolved (Failure "Failed to prepare C++ code for analysis."
                     (Some (exn_message e)))
       ∧ occurrences is_spawn (trace (runCppAnalysis env code s).2)
         = occurrences is_spawn (trace s)
       ∧ augmenter_calls (trace (runCppAnalysis env code s).2)
         = augmenter_calls (trace s)).
Proof.
  split; intros e leftover Hwrite.
  - rewrite runPylintAnalysis_paths. cbv zeta.
    rewrite Hwrite, pylint_on_setup_error_run. unfold augmenter_calls.
    split; [done|].
    destruct (Str.truthy (pylint_tempFilePath env));
      unfold unlinked, write_failed; cbn [snd trace];
      rewrite ?occurrences_snoc; cbn; lia.
  - rewrite runCppAnalysis_paths. cbv zeta.
    rewrite Hwrite, cpp_on_setup_error_run. unfold augmenter_calls.
    split; [done|]. unfold cpp_both_unlinked.
    destruct (Str.truthy (cpp_tempCppFilePath env)),
      (Str.truthy (cpp_tempExecutablePath env));
      unfold unlinked, write_failed; cbn [snd trace];
      rewrite ?occurrences_snoc; cbn; lia.
Qed.

Lemma pylint_parse_files env code stdout stderr s :
  files (handler (pylint_parse env code stdout stderr) s).2 = files s.
Proof.
  rewrite handler_pylint_parse. cbn [snd].
  destruct (pylint_parse_frame env code stdout stderr s) as [more ->]. done.
Qed.

Lemma runPylintAnalysis_files env code s :
  pylint_tempFilePath env ≠ "" →
  pylint_tempFilePath env ∉ files s →
  fs_unlink env (pylint_tempFilePath env) = true →
  (∀ exitCode stdout stderr created,
     spawn env "pylint" (pylint_args env)
     = Closes exitCode stdout stderr created → created = []) →
  files (runPylintAnalysis env code s).2 = files s.
Proof.
  intros Hpath Hfresh Hunlink Hchild.
  apply truthy_true in Hpath.
  rewrite runPylintAnalysis_paths. cbv zeta.
  destruct (fs_writeFile env (pylint_tempFilePath env) code) as [|e leftover].
  - destruct (spawn env "pylint" (pylint_args env))
      as [e|err x first|exitCode stdout stderr created] eqn:Hspawn.
    + rewrite pylint_on_setup_error_run, Hpath. unfold unlinked, spawning.
      cbn. rewrite Hunlink. set_solver.
    + rewrite pylint_on_error_then_close_run, Hpath. cbn [snd].
      match goal with |- context [handler (pylint_on_close ?a ?b ?c ?d ?e0) ?st] =>
        destruct (pylint_on_close_state a b c d e0 st) as [more ->]
      end.
      unfold unlinked, spawning. cbn. rewrite Hunlink. set_solver.
    + rewrite (Hchild _ _ _ _ eq_refl). rewrite pylint_on_close_run.
      assert (Hfiles : files (unlinked env (pylint_tempFilePath env)
                (spawned (pylint_tempFilePath env) code "pylint"
                   (pylint_args env) [] s)) = files s).
      { unfold unlinked, spawned. cbn. rewrite Hunlink. set_solver. }
      destruct (pylint_not_installed stderr); [done|].
      destruct (Str.truthy stderr && negb (Str.truthy stdout)); [done|].
      by rewrite pylint_parse_files.
  - rewrite pylint_on_setup_error_run, Hpath. unfold unlinked, write_failed.
    cbn. rewrite Hunlink. destruct leftover; set_solver.
Qed.

(** X16. The Pylint strategy leaves the file system as it found it: when
    the path of the temporary file is not empty and names no existing file,
    [fs.unlink] manages to remove it and the child process creates no file,
    the files after the run are the files before it, however the run ends;
    so a second run finds the same files and leaves them too. *)
Theorem pylint_leaves_no_file env code s
    (Hpath : pylint_tempFilePath env ≠ "")
    (Hfresh : pylint_tempFilePath env ∉ files s)
    (Hunlink : fs_unlink env (pylint_tempFilePath env) = true)
    (Hchild : ∀ exitCode stdout stderr created,
       spawn env "pylint" (pylint_args env)
       = Closes exitCode stdout stderr created → created = []) :
  files (runPylintAnalysis env code s).2 = files s
  ∧ ∀ code',
      files (runPylintAnalysis env code' (runPylintAnalysis env code s).2).2
      = files s.
Proof.
  pose proof (runPylintAnalysis_files env code s Hpath Hfresh Hunlink Hchild)
    as Hfirst.
  split; [done|]. intros code'.
  rewrite runPylintAnalysis_files; [done..| |done|done].
  by rewrite Hfirst.
Qed.

Lemma pylint_leaves_no_file_witness :
  files (runPylintAnalysis (sample_pylint_env None) "x = 1" (initial ∅)).2 = ∅.
Proof.
  refine (proj1 (pylint_leaves_no_file (sample_pylint_env None) "x = 1"
                   (initial ∅) _ _ _ _)); [done|set_solver|done|].
  by intros exitCode stdout stderr created [= _ _ _ <-].
Defined.

Lemma cpp_cleaned_files env src exe exitCode code args created s :
  src ∉ files s → exe ∉ files s →
  fs_unlink env src = true → fs_unlink env exe = true →
  (∀ p, p ∈ created → p = exe) →
  files (cpp_cleaned env src exe exitCode (spawned src code "g++" args created s))
  = files s.
Proof.
  intros Hsrc Hexe Hus Hue Hc. unfold cpp_cleaned. cbv zeta.
  destruct (bool_decide (exitCode = Some 0)).
  - unfold unlinked, spawned. cbn. rewrite Hus, Hue. set_solver.
  - destruct (bool_decide _) eqn:Hin.
    + unfold unlinked, probed, spawned. cbn. rewrite Hus, Hue. set_solver.
    + apply bool_decide_eq_false in Hin. revert Hin.
      unfold unlinked, probed, spawned. cbn. rewrite Hus. set_solver.
Qed.

Lemma cpp_cleaned_files_absent env src exe exitCode s :
  src ∉ files s → exe ∉ files s →
  files (cpp_cleaned env src exe exitCode s) = files s.
Proof.
  intros Hsrc Hexe. unfold cpp_cleaned. cbv zeta.
  destruct (bool_decide (exitCode = Some 0)); [|destruct (bool_decide _)];
    unfold unlinked, probed; cbn;
    destruct (fs_unlink env src), (fs_unlink env exe); set_solver.
Qed.

Lemma runCppAnalysis_files env code s :
  cpp_tempCppFilePath env ≠ "" → cpp_tempExecutablePath env ≠ "" →
  cpp_tempCppFilePath env ∉ files s → cpp_tempExecutablePath env ∉ files s →
  fs_unlink env (cpp_tempCppFilePath env) = true →
  fs_unlink env (cpp_tempExecutablePath env) = true →
  (∀ exitCode stdout stderr created,
     spawn env "g++" (cpp_args env) = Closes exitCode stdout stderr created →
     ∀ p, p ∈ created → p = cpp_tempExecutablePath env) →
  files (runCppAnalysis env code s).2 = files s.
Proof.
  intros Hsrc Hexe Hf1 Hf2 Hu1 Hu2 Hchild.
  apply truthy_true in Hsrc, Hexe.
  rewrite runCppAnalysis_paths. cbv zeta.
  assert (Hboth : ∀ s0, files s0 ⊆ files s ∪ {[cpp_tempCppFilePath env]} →
            files s ⊆ files s0 →
            files (cpp_both_unlinked env (cpp_tempCppFilePath env)
                     (cpp_tempExecutablePath env) s0) = files s).
  { intros s0 H1 H2. unfold cpp_both_unlinked. rewrite Hsrc, Hexe.
    unfold unlinked. cbn. rewrite Hu1, Hu2. set_solver. }
  destruct (fs_writeFile env (cpp_tempCppFilePath env) code) as [|e leftover].
  - destruct (spawn env "g++" (cpp_args env))
      as [e|err x first|exitCode stdout stderr created] eqn:Hspawn.
    + rewrite cpp_on_setup_error_run. apply Hboth; cbn; set_solver.
    + rewrite cpp_on_error_then_close_run. cbn [snd].
      match goal with |- context [handler (cpp_on_close ?a ?b ?c ?d ?x0 ?e0) ?st] =>
        destruct (cpp_on_close_state a b c d x0 e0 st) as (more & -> & _);
        assert (Hst : files st = files s) by (apply Hboth; cbn; set_solver)
      end.
      cbn [files]. rewrite cpp_cleaned_files_absent; rewrite Hst; done.
    + rewrite cpp_on_close_run. cbv zeta.
      pose proof (cpp_cleaned_files env _ _ exitCode code (cpp_args env)
                    created s Hf1 Hf2 Hu1 Hu2 (Hchild _ _ _ _ eq_refl)) as Hfiles.
      destruct (gpp_not_installed stderr); [done|].
      destruct (cpp_calls_augmenter exitCode stderr); [|done].
      destruct (getAIExplanation_frame env code "c++"
                  (map OfCpp (parseCppStderr stderr))
                  (cpp_cleaned env (cpp_tempCppFilePath env)
                     (cpp_tempExecutablePath env) exitCode
                     (spawned (cpp_tempCppFilePath env) code "g++"
                        (cpp_args env) created s))) as (sent & Hs & _).
      destruct (getAIExplanation _ _ _ _ _) as [[ai|e] s']; cbn [snd] in *;
        subst s'; done.
  - rewrite cpp_on_setup_error_run.
    apply Hboth; unfold write_failed; cbn; destruct leftover; set_solver.
Qed.

(** X17. The compiler strategy leaves the file system as it found it: when
    the two temporary paths are not empty and name no existing file,
    [fs.unlink] manages to remove them and the compiler creates no file
    other than the executable, the files after the run are the files before
    it, however the run ends; so a second run finds the same files and
    leaves them too. *)
Theorem cpp_leaves_no_file env code s
    (Hsrc : cpp_tempCppFilePath env ≠ "")
    (Hexe : cpp_tempExecutablePath env ≠ "")
    (Hfresh : (cpp_tempCppFilePath env ∉ files s)
              ∧ (cpp_tempExecutablePath env ∉ files s))
    (Hunlink : fs_unlink env (cpp_tempCppFilePath env) = true
               ∧ fs_unlink env (cpp_tempExecutablePath env) = true)
    (Hchild : ∀ exitCode stdout stderr created,
       spawn env "g++" (cpp_args env) = Closes exitCode stdout stderr created →
       ∀ p, p ∈ created → p = cpp_tempExecutablePath env) :
  files (runCppAnalysis env code s).2 = files s
  ∧ ∀ code',
      files (runCppAnalysis env code' (runCppAnalysis env code s).2).2 = files s.
Proof.
  destruct Hfresh as [Hf1 Hf2], Hunlink as [Hu1 Hu2].
  pose proof (runCppAnalysis_files env code s Hsrc Hexe Hf1 Hf2 Hu1 Hu2 Hchild)
    as Hfirst.
  split; [done|]. intros code'.
  rewrite runCppAnalysis_files; [done..| | |done|done|done]; by rewrite Hfirst.
Qed.

Lemma cpp_leaves_no_file_witness :
  files (runCppAnalysis sample_compiling_env "int main() { return 0; }"
           (initial ∅)).2 = ∅.
Proof.
  refine (proj1 (cpp_leaves_no_file sample_compiling_env
                   "int main() { return 0; }" (initial ∅) _ _ _ _ _));
    [done|done|split; set_solver|done|].
  intros exitCode stdout stderr created [= _ _ _ <-] p Hp.
  apply list_elem_of_singleton in Hp. by subst p.
Defined.

(** X18. When the output of the child carries the signature of a missing
    tool, a subprocess strategy resolves with its installation failure
    whatever the exit code and the rest of the output are, and the
    augmenter is not called, nor is a request sent to the model. *)
Theorem missing_tool_skips_augmenter env code s :
  (∀ exitCode stdout stderr created,
     fs_writeFile env (pylint_tempFilePath env) code = Written →
     spawn env "pylint" (pylint_args env)
     = Closes exitCode stdout stderr created →
     pylint_not_installed stderr = true →
     augmenter_calls (trace (runPylintAnalysis env code s).2)
     = augmenter_calls (trace s)
     ∧ occurrences is_request (trace (runPylintAnalysis env code s).2)
       = occurrences is_request (trace s))
  ∧ (∀ exitCode stdout stderr created,
       fs_writeFile env (cpp_tempCppFilePath env) code = Written →
       spawn env "g++" (cpp_args env) = Closes exitCode stdout stderr created →
       gpp_not_installed stderr = true →
       (runCppAnalysis env code s).1
       = Resolved (Failure
           "g++ compiler is not installed or not in your system's PATH. Please install it."
           None)
       ∧ augmenter_calls (trace (runCppAnalysis env code s).2)
         = augmenter_calls (trace s)
       ∧ occurrences is_request (trace (runCppAnalysis env code s).2)
         = occurrences is_request (trace s)).
Proof.
  split; intros exitCode stdout stderr created Hwrite Hspawn Hinst.
  - rewrite runPylintAnalysis_paths. cbv zeta.
    rewrite Hwrite, Hspawn, pylint_on_close_run, Hinst.
    unfold augmenter_calls, unlinked, spawned. cbn [snd trace].
    rewrite !occurrences_snoc. cbn. lia.
  - rewrite runCppAnalysis_outcome. unfold cpp_outcome.
    rewrite Hwrite, Hspawn. unfold cpp_close_outcome_of. cbv zeta.
    rewrite Hinst. split; [done|].
    rewrite runCppAnalysis_paths. cbv zeta.
    rewrite Hwrite, Hspawn, cpp_on_close_run. cbv zeta. rewrite Hinst.
    cbn [snd]. unfold augmenter_calls, cpp_cleaned. cbv zeta.
    destruct (bool_decide (exitCode = Some 0)); [|destruct (bool_decide _)];
      unfold unlinked, probed, spawned; cbn [snd trace files];
      rewrite !occurrences_snoc; cbn; lia.
Qed.

Lemma digit_value_nonneg (c : ascii) : Str.is_digit c = true → 0 ≤ Str.digit_value c.
Proof.
  intros H. unfold Str.digit_value.
  destruct c as [[] [] [] [] [] [] [] []]; try discriminate H; by vm_compute.
Qed.

Lemma parse_digits_nonneg (ds : string) :
  all_chars Str.is_digit ds = true → 0 ≤ Str.parse_digits ds.
Proof.
  intros Hds.
  assert (H : ∀ acc, 0 ≤ acc →
            0 ≤ (fix go (acc : Z) (s : string) : Z :=
                   match s with
                   | "" => acc
                   | String c s' => go (10 * acc + Str.digit_value c) s'
                   end) acc ds).
  { induction ds as [|c ds IH]; intros acc Hacc; [done|].
    cbn in Hds. apply andb_true_iff in Hds as [Hc Hds].
    apply IH; [done|]. pose proof (digit_value_nonneg c Hc). lia. }
  by apply H.
Qed.

(** X19. Every diagnostic read from the output of the compiler has a line
    and a column that are not negative and the rule identifier
    g++-compilation, and it is the diagnostic of one line of that output;
    when that line has no location, the diagnostic is filed under <text>
    at line 0 and column 0, with the trimmed line as its message. *)
Theorem cpp_diagnostic_numbers (stderr : string) (d : CppDiag.t)
    (Hd : d ∈ parseCppStderr stderr) :
  0 ≤ CppDiag.line d ∧ 0 ≤ CppDiag.column d
  ∧ CppDiag.ruleId d = "g++-compilation"
  ∧ ∃ line, line ∈ Str.split_lines stderr
      ∧ classifyLine line = Some d
      ∧ (Re.location line = None →
         CppDiag.filePath d = "<text>" ∧ CppDiag.line d = 0
         ∧ CppDiag.column d = 0 ∧ CppDiag.message d = Str.trim line).
Proof.
  unfold parseCppStderr in Hd.
  destruct (Str.truthy stderr); [|by apply elem_of_nil in Hd].
  apply list_elem_of_omap in Hd as (line & Hline & Hc).
  assert (Hfields : 0 ≤ CppDiag.line d ∧ 0 ≤ CppDiag.column d
                    ∧ CppDiag.ruleId d = "g++-compilation").
  { unfold classifyLine in Hc.
    destruct (Re.location line) as [m|] eqn:Hm.
    - injection Hc as <-. cbn.
      apply location_sound in Hm as (_ & rest & _ & Ht).
      apply tail_sound in Ht as (ws1 & ws2 & _ & _ & Hl & _ & Hcol & _).
      split_and!; [by apply parse_digits_nonneg..|done].
    - destruct (Str.includes line "error:");
        [|destruct (Str.includes line "warning:"); [|done]];
        injection Hc as <-; by cbn. }
  destruct Hfields as (H1 & H2 & H3). split_and!; try done.
  exists line. split_and!; try done. intros Hnone.
  unfold classifyLine in Hc. rewrite Hnone in Hc.
  destruct (Str.includes line "error:");
    [|destruct (Str.includes line "warning:"); [|done]];
    injection Hc as <-; by cbn.
Qed.

Lemma cpp_diagnostic_numbers_witness :
  0 ≤ CppDiag.line
        (CppDiag.mk "/tmp/temp_cpp_code_1700000000000.cpp" 3 5 "error"
           "expected ';' before '}' token" "g++-compilation")
  ∧ 0 ≤ CppDiag.column
          (CppDiag.mk "/tmp/temp_cpp_code_1700000000000.cpp" 3 5 "error"
             "expected ';' before '}' token" "g++-compilation").
Proof.
  destruct (cpp_diagnostic_numbers sample_cpp_stderr
              (CppDiag.mk "/tmp/temp_cpp_code_1700000000000.cpp" 3 5 "error"
                 "expected ';' before '}' token" "g++-compilation"))
    as (H1 & H2 & _).
  - vm_compute. apply list_elem_of_here.
  - by split.
Defined.

Lemma app_inj_r (a b t : string) : a +:+ t = b +:+ t → a = b.
Proof.
  revert b. induction a as [|c a IH]; intros [|c' b] H.
  - done.
  - apply (f_equal String.length) in H. rewrite app_empty_l, length_app_str in H.
    simpl in H. lia.
  - apply (f_equal String.length) in H. rewrite app_empty_l, length_app_str in H.
    simpl in H. lia.
  - rewrite !app_cons in H. injection H as -> H. f_equal. by apply IH.
Qed.

(** X20. Two runs on one machine give their temporary file the same path
    exactly when [Date.now()] returns them the same number, provided
    [path.join] maps different names to different paths; the source file and
    the executable of the compiler strategy and the file of the Pylint
    strategy never share a path. *)
Theorem temp_paths_follow_the_clock env env'
    (Hdir : os_tmpdir env' = os_tmpdir env)
    (Hjoin : path_join env' = path_join env)
    (Hinj : ∀ a b, path_join env (os_tmpdir env) a
                   = path_join env (os_tmpdir env) b → a = b) :
  (pylint_tempFilePath env = pylint_tempFilePath env'
   ↔ Date_now env 0 = Date_now env' 0)
  ∧ (cpp_tempCppFilePath env = cpp_tempCppFilePath env'
     ↔ Date_now env 0 = Date_now env' 0)
  ∧ (cpp_tempExecutablePath env = cpp_tempExecutablePath env'
     ↔ Date_now env 1 = Date_now env' 1)
  ∧ cpp_tempCppFilePath env ≠ cpp_tempExecutablePath env'
  ∧ pylint_tempFilePath env ≠ cpp_tempCppFilePath env'
  ∧ pylint_tempFilePath env ≠ cpp_tempExecutablePath env'.
Proof.
  unfold pylint_tempFilePath, cpp_tempCppFilePath, cpp_tempExecutablePath.
  rewrite Hdir, Hjoin. split_and!.
  - split; [|by intros ->]. intros H%Hinj.
    apply (inj (String.append _)), app_inj_r in H. by apply (inj pretty).
  - split; [|by intros ->]. intros H%Hinj.
    apply (inj (String.append _)), app_inj_r in H. by apply (inj pretty).
  - split; [|by intros ->]. intros H%Hinj.
    apply (inj (String.append _)) in H. by apply (inj pretty).
  - intros H%Hinj. rewrite !app_cons in H. simplify_eq.
  - intros H%Hinj. rewrite !app_cons in H. simplify_eq.
  - intros H%Hinj. rewrite !app_cons in H. simplify_eq.
Qed.

Lemma temp_paths_follow_the_clock_witness :
  pylint_tempFilePath sample_clean_env = pylint_tempFilePath sample_cpp_env
  ∧ cpp_tempCppFilePath sample_clean_env ≠ cpp_tempExecutablePath sample_cpp_env.
Proof.
  destruct (temp_paths_follow_the_clock sample_clean_env sample_cpp_env)
    as (H1 & _ & _ & H2 & _); [reflexivity|reflexivity| |].
  - intros a b H. change ("/tmp" +:+ "/" +:+ a = "/tmp" +:+ "/" +:+ b) in H.
    by do 2 apply (inj (String.append _)) in H.
  - split; [by apply H1|done].
Defined.

(** X25. The Pylint strategy reads neither the exit code of the child nor
    the files it created, and the compiler strategy does not read the
    standard output of the child: the promise settles in the same way when
    only these differ. *)
Theorem unread_child_outputs env code s s' :
  (∀ exitCode exitCode' stdout stderr created created',
     (runPylintAnalysis
        (with_child (Closes exitCode stdout stderr created) env) code s).1
     = (runPylintAnalysis
          (with_child (Closes exitCode' stdout stderr created') env) code s').1)
  ∧ (∀ exitCode stdout stdout' stderr created created',
       (runCppAnalysis
          (with_child (Closes exitCode stdout stderr created) env) code s).1
       = (runCppAnalysis
            (with_child (Closes exitCode stdout' stderr created') env) code s').1).
Proof.
  split; intros.
  - by rewrite !runPylintAnalysis_outcome.
  - by rewrite !runCppAnalysis_outcome.
Qed.

(* ===================================================================== *)
(** ** The request handler *)
(* ===================================================================== *)

Lemma split_on_nonempty (sep : ascii) (s : string) : split_on sep s ≠ [].
Proof.
  destruct s as [|c s]; [done|]. cbn [split_on].
  destruct (bool_decide (c = sep)); [done|]. by destruct (split_on sep s).
Qed.

Lemma split_on_app (sep : ascii) (a b : string) :
  split_on sep (a +:+ String sep b) = split_on sep a ++ split_on sep b.
Proof.
  induction a as [|c a IH].
  - rewrite app_empty_l. cbn [split_on]. by rewrite bool_decide_eq_true_2.
  - rewrite app_cons. cbn [split_on]. rewrite IH.
    destruct (bool_decide (c = sep)); [done|].
    pose proof (split_on_nonempty sep a).
    by destruct (split_on sep a).
Qed.

Lemma split_on_none (sep : ascii) (s : string) :
  no_char sep s = true → split_on sep s = [s].
Proof.
  induction s as [|c s IH]; [done|]. intros [Hc Hs]%no_char_cons.
  cbn [split_on]. rewrite bool_decide_eq_false_2 by done. by rewrite IH.
Qed.

Lemma pop_extension (base ext : string) :
  no_char "." ext = true → pop (split_on "." (base +:+ "." +:+ ext)) = ext.
Proof.
  intros H. change ("." +:+ ext) with (String "." ext).
  rewrite split_on_app, (split_on_none _ ext) by done.
  unfold pop. apply List.last_last.
Qed.

Lemma pop_whole_name (name : string) :
  no_char "." name = true → pop (split_on "." name) = name.
Proof. intros H. by rewrite split_on_none. Qed.

Lemma trim_start_blank (s : string) :
  all_chars Str.is_space s = true → Str.trim_start s = "".
Proof.
  induction s as [|c s IH]; [done|]. cbn. intros [Hc Hs]%andb_true_iff.
  rewrite Hc. by apply IH.
Qed.

Lemma trim_blank (s : string) : all_chars Str.is_space s = true → Str.trim s = "".
Proof. intros H. unfold Str.trim. by rewrite trim_start_blank. Qed.

Lemma debugCode_runs env req code language s :
  debugCode_input req = Normal (Some (code, language)) →
  Str.trim code ≠ "" →
  debugCode env req s = answered (runCodeAnalysis env code language s).
Proof.
  intros Hin Hcode. unfold debugCode, answered. rewrite Hin.
  apply truthy_true in Hcode. rewrite Hcode. cbn [negb].
  by destruct (runCodeAnalysis env code language s).
Qed.

Lemma runCodeAnalysis_javascript env code s :
  runCodeAnalysis env code "javascript" s = runEsLintAnalysis env code s.
Proof. reflexivity. Qed.

Lemma runCodeAnalysis_python env code s :
  runCodeAnalysis env code "python" s = runPylintAnalysis env code s.
Proof. reflexivity. Qed.

Lemma runCodeAnalysis_cpp env code s :
  runCodeAnalysis env code "c++" s = runCppAnalysis env code s.
Proof. reflexivity. Qed.

Lemma upload_input (name data : string) (body : JSValue) :
  debugCode_input (upload name data body)
  = Normal (Some (data,
      let fileExtension := Str.toLowerCase (pop (split_on "." name)) in
      if bool_decide (fileExtension = "js") then "javascript"
      else if bool_decide (fileExtension = "py") then "python"
      else if bool_decide (fileExtension ∈ ["cpp"; "cxx"; "cc"]) then "c++"
      else "javascript")).
Proof.
  unfold debugCode_input, upload. cbn [req_codeFile file_data file_name].
  cbv zeta. do 3 f_equal.
  destruct (bool_decide (_ = "js")); [done|].
  destruct (bool_decide (_ = "py")); [done|].
  destruct (decide (Str.toLowerCase (pop (split_on "." name)) = "cpp")) as [->|H1];
    [done|].
  destruct (decide (Str.toLowerCase (pop (split_on "." name)) = "cxx")) as [->|H2];
    [done|].
  destruct (decide (Str.toLowerCase (pop (split_on "." name)) = "cc")) as [->|H3];
    [done|].
  rewrite !bool_decide_eq_false_2; [done| |done..].
  rewrite !elem_of_cons, elem_of_nil. tauto.
Qed.

(** X21. An uploaded file is analysed by the strategy of its extension,
    the part of its name after the last dot compared without regard to
    case: js by the in-process strategy, py by the Pylint strategy, cpp, cxx
    and cc by the compiler strategy, and any other extension by the
    in-process strategy.  The body of the request plays no part. *)
Theorem upload_is_routed_by_extension env base ext data body s
    (Hext : no_char "." ext = true)
    (Hcode : Str.trim data ≠ "") :
  (Str.toLowerCase ext = "js" →
     debugCode env (upload (base +:+ "." +:+ ext) data body) s
     = answered (runEsLintAnalysis env data s))
  ∧ (Str.toLowerCase ext = "py" →
       debugCode env (upload (base +:+ "." +:+ ext) data body) s
       = answered (runPylintAnalysis env data s))
  ∧ (Str.toLowerCase ext ∈ ["cpp"; "cxx"; "cc"] →
       debugCode env (upload (base +:+ "." +:+ ext) data body) s
       = answered (runCppAnalysis env data s))
  ∧ (Str.toLowerCase ext ∉ ["js"; "py"; "cpp"; "cxx"; "cc"] →
       debugCode env (upload (base +:+ "." +:+ ext) data body) s
       = answered (runEsLintAnalysis env data s)).
Proof.
  pose proof (upload_input (base +:+ "." +:+ ext) data body) as Hin.
  rewrite pop_extension in Hin by done. cbv zeta in Hin.
  split_and!; intros H.
  - rewrite H in Hin. by rewrite (debugCode_runs _ _ _ _ _ Hin).
  - rewrite H in Hin. by rewrite (debugCode_runs _ _ _ _ _ Hin).
  - rewrite !elem_of_cons, elem_of_nil in H.
    destruct H as [H|[H|[H|[]]]]; rewrite H in Hin;
      by rewrite (debugCode_runs _ _ _ _ _ Hin).
  - rewrite !bool_decide_eq_false_2 in Hin.
    + by rewrite (debugCode_runs _ _ _ _ _ Hin).
    + intros E. apply H. set_solver.
    + intros E. apply H. rewrite E. set_solver.
    + intros E. apply H. rewrite E. set_solver.
Qed.

Lemma upload_is_routed_by_extension_witness :
  debugCode sample_cpp_env
    (upload "Main.v2.CPP" "int main() { return 0 }" (JObj [("language", JStr "python")]))
    (initial ∅)
  = answered (runCppAnalysis sample_cpp_env "int main() { return 0 }" (initial ∅)).
Proof.
  refine (proj1 (proj2 (proj2
    (upload_is_routed_by_extension sample_cpp_env "Main.v2" "CPP"
       "int main() { return 0 }" (JObj [("language", JStr "python")])
       (initial ∅) _ _))) _); [reflexivity|by vm_compute|].
  apply (bool_decide_unpack _). by vm_compute.
Defined.

Lemma pasted_input (props : list (string * JSValue)) :
  debugCode_input (pasted props)
  = Normal
      match Js.assoc "code" props with
      | Some (JStr code) =>
          Some (code,
                match Js.assoc "language" props with
                | Some (JStr given) => if Str.truthy given then given else "javascript"
                | _ => "javascript"
                end)
      | _ => None
      end.
Proof.
  unfold debugCode_input, pasted. cbn [req_codeFile req_body Js.truthy Js.get].
  destruct (Js.assoc "code" props) as [[]|]; try done. cbn.
  by destruct (Js.assoc "language" props) as [[]|].
Qed.

Lemma send_result_status (outcome : Settled) (b : ResponseBody) :
  send_result outcome ≠ Some (mkResponse 400 b).
Proof. by destruct outcome. Qed.

(** X22. A request is turned down with the status 400 before anything runs:
    a response with the status 400 leaves the state as it was, with no call
    of a linter, no file and no process.  This is the answer to a request
    without a file whose body has no string under [code], and to a request
    whose file or pasted code has nothing but white space. *)
Theorem bad_requests_run_nothing env s :
  (∀ req b,
     (debugCode env req s).1 = Some (mkResponse 400 b) →
     (debugCode env req s).2 = s)
  ∧ (∀ body,
       (∀ props code, body = JObj props →
          Js.assoc "code" props = Some (JStr code) → False) →
       debugCode env (mkRequest None body) s
       = (bad_request "No code provided for debugging or invalid input format.", s))
  ∧ (∀ name data body,
       all_chars Str.is_space data = true →
       debugCode env (upload name data body) s
       = (bad_request
            "Provided code is empty or contains only whitespace. Please provide valid code.",
          s))
  ∧ (∀ props code,
       Js.assoc "code" props = Some (JStr code) →
       all_chars Str.is_space code = true →
       debugCode env (pasted props) s
       = (bad_request
            "Provided code is empty or contains only whitespace. Please provide valid code.",
          s)).
Proof.
  split_and!.
  - intros req b. unfold debugCode.
    destruct (debugCode_input req) as [[[code language]|]|e]; try done.
    destruct (negb (Str.truthy (Str.trim code))); [done|].
    destruct (runCodeAnalysis env code language s) as [outcome s'].
    cbn [fst snd]. intros H. by apply send_result_status in H.
  - intros body Hbody. unfold debugCode, debugCode_input. cbn [req_codeFile req_body].
    destruct body as [| |b|z|str|items|props]; try done.
    + by destruct b.
    + cbn. by destruct (negb (z =? 0)).
    + cbn. by destruct (Str.truthy str).
    + cbn. destruct (Js.assoc "code" props) as [[]|] eqn:Hc; try done.
      by destruct (Hbody props s0).
  - intros name data body Hblank. unfold debugCode.
    rewrite upload_input. by rewrite (trim_blank data Hblank).
  - intros props code Hcode Hblank. unfold debugCode.
    rewrite pasted_input, Hcode. by rewrite (trim_blank code Hblank).
Qed.

(** X23. A pasted code that is not blank is analysed under the language of
    the body when that is a string with a character, and by the in-process
    strategy when the body has no language, or one that is empty or not a
    string.  A language the dispatcher does not know is answered with the
    status 200 and a result of the failure shape, and nothing runs. *)
Theorem pasted_code_language env props code s
    (Hcode : Js.assoc "code" props = Some (JStr code))
    (Hnonblank : Str.trim code ≠ "") :
  (∀ language,
     Js.assoc "language" props = Some (JStr language) → language ≠ "" →
     debugCode env (pasted props) s
     = answered (runCodeAnalysis env code language s))
  ∧ ((∀ language,
        Js.assoc "language" props = Some (JStr language) → language = "") →
     debugCode env (pasted props) s = answered (runEsLintAnalysis env code s))
  ∧ (∀ language,
       Js.assoc "language" props = Some (JStr language) → language ≠ "" →
       Str.toLowerCase language ∉ supported_tags →
       debugCode env (pasted props) s
       = (Some (mkResponse 200
                  (ResultBody
                     (Failure ("Unsupported language for debugging: "
                               +:+ language +:+ ".") None))), s)).
Proof.
  pose proof (pasted_input props) as Hin. rewrite Hcode in Hin.
  split_and!.
  - intros language Hl Hne. rewrite Hl in Hin.
    apply truthy_true in Hne. rewrite Hne in Hin.
    by apply debugCode_runs.
  - intros Hl. rewrite <- runCodeAnalysis_javascript.
    apply debugCode_runs; [|done]. rewrite Hin. do 3 f_equal.
    destruct (Js.assoc "language" props) as [[]|]; try done.
    by rewrite (Hl s0 eq_refl).
  - intros language Hl Hne Hun. rewrite Hl in Hin.
    apply truthy_true in Hne. rewrite Hne in Hin.
    rewrite (debugCode_runs _ _ _ _ _ Hin Hnonblank).
    unfold runCodeAnalysis, supported_tags in *.
    rewrite !bool_decide_eq_false_2; [done|set_solver..].
Qed.

Lemma pasted_code_language_witness :
  debugCode sample_cpp_env
    (pasted [("code", JStr "puts 1"); ("language", JStr "Ruby")]) (initial ∅)
  = (Some (mkResponse 200
             (ResultBody
                (Failure "Unsupported language for debugging: Ruby." None))),
     initial ∅).
Proof.
  destruct (pasted_code_language sample_cpp_env
              [("code", JStr "puts 1"); ("language", JStr "Ruby")] "puts 1"
              (initial ∅)) as (_ & _ & H); [reflexivity|by vm_compute|].
  apply (H "Ruby"); [reflexivity|done|].
  intros Hin. by apply (bool_decide_pack _) in Hin.
Defined.

Lemma runEsLintAnalysis_resolves env code s :
  ∃ r, (runEsLintAnalysis env code s).1 = Resolved r.
Proof.
  rewrite runEsLintAnalysis_paths.
  destruct (ESLint_lintText env code) as [results|error]; [|by eexists].
  cbv zeta. destruct (formatLintResults results) as [|d ds]; [by eexists|].
  destruct (getAIExplanation env code "javascript" (d :: ds) (linted code s))
    as [[ai|e] s']; by eexists.
Qed.

Lemma runPylintAnalysis_rejected env code s e :
  (runPylintAnalysis env code s).1 = Rejected e →
  ∃ err exitCode closeFirst,
    spawn env "pylint" (pylint_args env) = EmitsError err exitCode closeFirst
    ∧ e = Error ("Failed to run Pylint: " +:+ exn_message err
                 +:+ ". Is Pylint installed and in your PATH?").
Proof.
  rewrite runPylintAnalysis_outcome. unfold pylint_outcome.
  destruct (fs_writeFile env (pylint_tempFilePath env) code); [|done].
  destruct (spawn env "pylint" (pylint_args env))
    as [e0|err x first|exitCode stdout stderr created]; [done| |].
  - destruct (pylint_close_outcome_resolved env code "" "") as [r ->].
    destruct (first && _); [done|]. intros [= <-]. by exists err, x, first.
  - by destruct (pylint_close_outcome_resolved env code stdout stderr) as [r ->].
Qed.

Lemma runCppAnalysis_rejected env code s e :
  (runCppAnalysis env code s).1 = Rejected e →
  ∃ err exitCode closeFirst,
    spawn env "g++" (cpp_args env) = EmitsError err exitCode closeFirst
    ∧ e = Error ("Failed to run g++: " +:+ exn_message err
                 +:+ ". Is g++ installed and in your PATH?").
Proof.
  rewrite runCppAnalysis_outcome. unfold cpp_outcome.
  destruct (fs_writeFile env (cpp_tempCppFilePath env) code); [|done].
  destruct (spawn env "g++" (cpp_args env))
    as [e0|err x first|exitCode stdout stderr created]; [done| |].
  - intros He. exists err, x, first. split; [done|].
    destruct (first && _); [|by injection He as <-].
    destruct (cpp_close_outcome_of env code x "") eqn:Hc;
      cbn [settle_first] in He;
      [done|by apply cpp_close_outcome_not_rejected in Hc|].
    by injection He as <-.
  - intros He. by apply cpp_close_outcome_not_rejected in He.
Qed.

(** X24. The handler answers with the status 500 only when the child
    process of a subprocess strategy could not be started: the body then
    carries the fixed sentence of the handler and, as [details], the reason
    that names the tool and the error of the child.  A failure of the
    linter, of the model or of the parsing of an output never gives the
    status 500. *)
Theorem server_error_means_spawn_failure env req s body
    (H500 : (debugCode env req s).1 = Some (mkResponse 500 body)) :
  ∃ err exitCode closeFirst,
    (spawn env "pylint" (pylint_args env) = EmitsError err exitCode closeFirst
     ∧ body = ErrorBody "Failed to debug code due to an internal server error."
                (Some ("Failed to run Pylint: " +:+ exn_message err
                       +:+ ". Is Pylint installed and in your PATH?")))
    ∨ (spawn env "g++" (cpp_args env) = EmitsError err exitCode closeFirst
       ∧ body = ErrorBody "Failed to debug code due to an internal server error."
                  (Some ("Failed to run g++: " +:+ exn_message err
                         +:+ ". Is g++ installed and in your PATH?"))).
Proof.
  unfold debugCode in H500.
  destruct (debugCode_input req) as [[[code language]|]|e]; try done.
  destruct (negb (Str.truthy (Str.trim code))); [done|].
  destruct (runCodeAnalysis env code language s) as [outcome s'] eqn:Hrun.
  cbn [fst] in H500. destruct outcome as [r|e|]; try done.
  injection H500 as <-.
  assert (Hrej : (runCodeAnalysis env code language s).1 = Rejected e)
    by by rewrite Hrun.
  clear Hrun. unfold runCodeAnalysis in Hrej.
  destruct (bool_decide (Str.toLowerCase language = "javascript")).
  { destruct (runEsLintAnalysis_resolves env code s) as [r Hr]. congruence. }
  destruct (bool_decide (Str.toLowerCase language = "python")).
  { apply runPylintAnalysis_rejected in Hrej as (err & x & first & Hs & ->).
    exists err, x, first. by left. }
  destruct (bool_decide (Str.toLowerCase language = "c++")
            || bool_decide (Str.toLowerCase language = "cpp")); [|done].
  apply runCppAnalysis_rejected in Hrej as (err & x & first & Hs & ->).
  exists err, x, first. by right.
Qed.

Lemma server_error_means_spawn_failure_witness :
  (debugCode sample_clean_env
     (pasted [("code", JStr "x = 1"); ("language", JStr "Python")])
     (initial ∅)).1
  = Some (mkResponse 500
            (ErrorBody "Failed to debug code due to an internal server error."
               (Some "Failed to run Pylint: spawn ENOENT. Is Pylint installed and in your PATH?"))).
Proof.
  destruct (server_error_means_spawn_failure sample_clean_env
              (pasted [("code", JStr "x = 1"); ("language", JStr "Python")])
              (initial ∅)
              (ErrorBody "Failed to debug code due to an internal server error."
                 (Some "Failed to run Pylint: spawn ENOENT. Is Pylint installed and in your PATH?")))
    as (err & _); by vm_compute.
Defined.

Lemma runCodeAnalysis_files env code language s :
  tidy env s → files (runCodeAnalysis env code language s).2 = files s.
Proof.
  intros ((Hp1 & Hp2 & Hp3) & (Hf1 & Hf2 & Hf3) & (Hu1 & Hu2 & Hu3) & Hpy & Hgpp).
  unfold runCodeAnalysis.
  destruct (bool_decide (Str.toLowerCase language = "javascript")).
  { by destruct (runEsLintAnalysis_state env code s) as (sent & _ & ->). }
  destruct (bool_decide (Str.toLowerCase language = "python")).
  { by apply runPylintAnalysis_files. }
  destruct (bool_decide (Str.toLowerCase language = "c++")
            || bool_decide (Str.toLowerCase language = "cpp")); [|done].
  by apply runCppAnalysis_files.
Qed.

(** X27. On a machine that can clean up after itself, no request leaves a
    file behind: whatever the request, the language and the way the run
    ends, the files after [debugCode], and after [runCodeAnalysis], are the
    files before it. *)
Theorem request_leaves_no_file env s (Htidy : tidy env s) :
  (∀ code language, files (runCodeAnalysis env code language s).2 = files s)
  ∧ (∀ req, files (debugCode env req s).2 = files s).
Proof.
  split; [intros; by apply runCodeAnalysis_files|].
  intros req. unfold debugCode.
  destruct (debugCode_input req) as [[[code language]|]|e]; try done.
  destruct (negb (Str.truthy (Str.trim code))); [done|].
  pose proof (runCodeAnalysis_files env code language s Htidy) as H.
  by destruct (runCodeAnalysis env code language s).
Qed.

Lemma request_leaves_no_file_witness :
  files (debugCode sample_tools_env
           (upload "main.cpp" "int main() { return 0; }" JUndefined)
           (initial ∅)).2 = ∅.
Proof.
  refine (proj2 (request_leaves_no_file sample_tools_env (initial ∅) _) _).
  split_and!; try done; try set_solver.
  all: intros exitCode stdout stderr created [= _ _ _ <-]; first
    [ done | intros p Hp; apply list_elem_of_singleton in Hp; by subst p ].
Defined.
